(** * py-azcopy-wrapper: the job-output interpreters of [AzClient]

    A shallow embedding of [azcopy_wrapper/azcopy_utilities.py] and
    [azcopy_wrapper/azcopy_client.py].

    Conventions of the embedding.
    - A Python [str] is a [string]; one [ascii] stands for one code point
      below 256.  The character classes of [str.strip], [str.lower] and of
      the regular expression class [\d] are written out for that range.
    - A Python [int] is a [Z]; a Python [float] is a binary64 [float].
    - The external collaborators (the line source [execute_command], the
      predicate [is_sas_token_session_expired], [os.path.exists], the
      summary parsers of [azcopy_summary], [json.loads] and [float]) are
      the fields of a record [Env].
    - Effects are threaded through a state and error monad over a [World]:
      the wall clock, the trace of observable events and the store of the
      caller-owned [AzRemoveOptions] objects. *)

From Stdlib Require Import String Ascii List ZArith Bool Lia.
From Stdlib Require Import PrimFloat Uint63 DecimalString.
Import ListNotations.
Local Open Scope list_scope.
Local Open Scope string_scope.

Set Implicit Arguments.

(* ================================================================== *)
(** * Python string primitives *)
(* ================================================================== *)

Module PyStr.

(** The double quote and the line feed, which a literal cannot hold. *)
Definition dq : string := String (ascii_of_nat 34) EmptyString.
Definition nl : string := String (ascii_of_nat 10) EmptyString.

(** [len(s)] *)
Definition len (s : string) : nat := String.length s.

(** [s.startswith(p)] *)
Definition startswith (p s : string) : bool := String.prefix p s.

(** [needle in hay] *)
Fixpoint contains (needle hay : string) : bool :=
  match hay with
  | EmptyString => String.prefix needle EmptyString
  | String _ rest => String.prefix needle hay || contains needle rest
  end.

(** Reversal, used for the operations that work from the right end. *)
Fixpoint rev_onto (s acc : string) : string :=
  match s with
  | EmptyString => acc
  | String c rest => rev_onto rest (String c acc)
  end.

Definition rev (s : string) : string := rev_onto s EmptyString.

(** [s.endswith(p)] *)
Definition endswith (p s : string) : bool := String.prefix (rev p) (rev s).

(** [str.isspace] on one code point below 256: TAB, LF, VT, FF, CR,
    FS, GS, RS, US, SPACE, NEL and NBSP. *)
Definition is_space (c : ascii) : bool :=
  let n := nat_of_ascii c in
  (((9 <=? n) && (n <=? 13)) || ((28 <=? n) && (n <=? 32))
   || (n =? 133) || (n =? 160))%nat.

(** [s.lstrip()] *)
Fixpoint lstrip (s : string) : string :=
  match s with
  | EmptyString => EmptyString
  | String c rest => if is_space c then lstrip rest else s
  end.

(** [s.rstrip()] *)
Definition rstrip (s : string) : string := rev (lstrip (rev s)).

(** [s.strip()] *)
Definition strip (s : string) : string := rstrip (lstrip s).

(** [str.lower] on one code point below 256: the letters A..Z and the
    capital letters of the Latin-1 supplement (U+00C0..U+00DE without
    the multiplication sign U+00D7) move up by 32. *)
Definition lower_char (c : ascii) : ascii :=
  let n := nat_of_ascii c in
  if (((65 <=? n) && (n <=? 90))
      || ((192 <=? n) && (n <=? 222) && negb (n =? 215)))%nat
  then ascii_of_nat (n + 32) else c.

(** [s.lower()] *)
Fixpoint lower (s : string) : string :=
  match s with
  | EmptyString => EmptyString
  | String c rest => String (lower_char c) (lower rest)
  end.

(** [s.replace(c, "")] for a one-character [c]. *)
Fixpoint remove_char (c : ascii) (s : string) : string :=
  match s with
  | EmptyString => EmptyString
  | String d rest =>
      if Ascii.eqb c d then remove_char c rest
      else String d (remove_char c rest)
  end.

(** [s.split(c)[-1]] for a one-character separator [c]: the text after
    the last occurrence of [c], the whole of [s] when there is none.
    [acc] is the text read since the last separator. *)
Fixpoint after_last_from (c : ascii) (s acc : string) : string :=
  match s with
  | EmptyString => acc
  | String d rest =>
      if Ascii.eqb c d then after_last_from c rest EmptyString
      else after_last_from c rest (acc ++ String d EmptyString)
  end.

Definition split_last (c : ascii) (s : string) : string :=
  after_last_from c s EmptyString.

(** [sep.join(parts)] *)
Fixpoint join (sep : string) (parts : list string) : string :=
  match parts with
  | [] => EmptyString
  | [p] => p
  | p :: rest => p ++ sep ++ join sep rest
  end.

(** The concatenation of a list of strings, in order. *)
Fixpoint concat_all (parts : list string) : string :=
  match parts with
  | [] => EmptyString
  | p :: rest => p ++ concat_all rest
  end.

(** The class [\d] on code points below 256: the digits 0..9. *)
Definition is_digit (c : ascii) : bool :=
  let n := nat_of_ascii c in ((48 <=? n) && (n <=? 57))%nat.

(** [str(n)] and ["{}".format(n)] for an [int]. *)
Definition of_Z (n : Z) : string := NilZero.string_of_int (Z.to_int n).

(** Truthiness of a [str]. *)
Definition truthy (s : string) : bool := negb (String.eqb s EmptyString).

End PyStr.

(* ================================================================== *)
(** * The regular expression of the progress lines *)
(* ================================================================== *)

Module Re.

(** The longest run of [\d] at the start of [s], and what follows it. *)
Fixpoint span_digits (s : string) : string * string :=
  match s with
  | EmptyString => (EmptyString, EmptyString)
  | String c rest =>
      if PyStr.is_digit c
      then let (ds, tl) := span_digits rest in (String c ds, tl)
      else (EmptyString, s)
  end.

(** [re.match(r"(?P<percent_complete>\d+\.\d+) %,", line)]: the group
    [percent_complete] when the expression matches at the start of
    [line], [None] otherwise.  A character of [\d] is neither a full stop
    nor a space, so each greedy [\d+] can only take the longest run. *)
Definition match_percent (line : string) : option string :=
  let (whole, r1) := span_digits line in
  if String.eqb whole EmptyString then None
  else match r1 with
       | String "." r2 =>
           let (frac, r3) := span_digits r2 in
           if String.eqb frac EmptyString then None
           else if String.prefix " %," r3
                then Some (whole ++ "." ++ frac)
                else None
       | _ => None
       end.

End Re.

(* ================================================================== *)
(** * azcopy_utilities: options *)
(* ================================================================== *)

(** The flag and value that an [Optional[str]] option emits when it is
    truthy, that is neither [None] nor the empty string. *)
Definition flag_with_value (flag : string) (o : option string) : list string :=
  match o with
  | Some s => if PyStr.truthy s then [flag; s] else []
  | None => []
  end.

Definition flag_if (b : bool) (flag : string) : list string :=
  if b then [flag] else [].

Module AzCopyOptions.

Record t : Type := mk {
  overwrite_existing : bool;
  recursive : bool;
  put_md5 : bool;
  exclude_path : string
}.

Definition get_options_list (self : t) : list string :=
  (flag_if (recursive self) "--recursive"
   ++ (if negb (overwrite_existing self) then ["--overwrite"; "false"] else [])
   ++ flag_if (put_md5 self) "--put-md5"
   ++ (if (0 <? PyStr.len (exclude_path self))%nat
       then ["--exclude-path"; exclude_path self] else []))%list.

End AzCopyOptions.

Module AzSyncOptions.

Record t : Type := mk {
  recursive : bool;
  put_md5 : bool;
  exclude_path : string
}.

Definition get_options_list (self : t) : list string :=
  (flag_if (recursive self) "--recursive"
   ++ flag_if (put_md5 self) "--put-md5"
   ++ (if (0 <? PyStr.len (exclude_path self))%nat
       then ["--exclude-path"; exclude_path self] else []))%list.

End AzSyncOptions.

Module AzListOptions.

Record t : Type := mk {
  properties : option string;
  output_type : string;
  output_level : option string;
  machine_readable : bool;
  mega_units : bool;
  running_tally : bool;
  trailing_dot : option string
}.

Definition get_options_list (self : t) : list string :=
  ((match properties self with
    | Some p => if PyStr.truthy p
                then ["--properties"; (PyStr.dq ++ p ++ PyStr.dq)%string] else []
    | None => []
    end)
   ++ (if negb (String.eqb (output_type self) "text")
       then ["--output-type"; output_type self] else [])
   ++ flag_with_value "--output-level" (output_level self)
   ++ flag_if (machine_readable self) "--machine-readable"
   ++ flag_if (mega_units self) "--mega-units"
   ++ flag_if (running_tally self) "--running-tally"
   ++ flag_with_value "--trailing-dot" (trailing_dot self))%list.

End AzListOptions.

Module AzRemoveOptions.

Record t : Type := mk {
  recursive : bool;
  include_pattern : option string;
  exclude_pattern : option string;
  dry_run : bool;
  delete_snapshots : option string;
  list_of_files : option string;
  list_of_versions : option string;
  force_if_read_only : bool;
  permanent_delete : bool;
  include_after : option string;
  include_before : option string
}.

(** [self.recursive = v] *)
Definition set_recursive (v : bool) (self : t) : t :=
  mk v (include_pattern self) (exclude_pattern self) (dry_run self)
     (delete_snapshots self) (list_of_files self) (list_of_versions self)
     (force_if_read_only self) (permanent_delete self)
     (include_after self) (include_before self).

Definition get_options_list (self : t) : list string :=
  (flag_if (recursive self) "--recursive"
   ++ flag_with_value "--include-pattern" (include_pattern self)
   ++ flag_with_value "--exclude-pattern" (exclude_pattern self)
   ++ flag_if (dry_run self) "--dry-run"
   ++ flag_with_value "--delete-snapshots" (delete_snapshots self)
   ++ flag_with_value "--list-of-files" (list_of_files self)
   ++ flag_with_value "--list-of-versions" (list_of_versions self)
   ++ flag_if (force_if_read_only self) "--force-if-read-only"
   ++ flag_if (permanent_delete self) "--permanent-delete"
   ++ flag_with_value "--include-after" (include_after self)
   ++ flag_with_value "--include-before" (include_before self))%list.

End AzRemoveOptions.

(* ================================================================== *)
(** * azcopy_utilities: job records *)
(* ================================================================== *)

Module AzCopyJobInfo.

Record t : Type := mk {
  percent_complete : float;
  error_msg : string;
  final_job_status_msg : string;
  number_of_file_transfers : Z;
  number_of_folder_property_transfers : Z;
  total_number_of_transfers : Z;
  number_of_transfers_completed : Z;
  number_of_transfers_failed : Z;
  number_of_transfers_skipped : Z;
  total_bytes_transferred : Z;
  completed : bool
}.

(** [AzCopyJobInfo()] *)
Definition init : t := mk 0%float "" "" 0 0 0 0 0 0 0 false.

Definition set_percent_complete (v : float) (j : t) : t :=
  mk v (error_msg j) (final_job_status_msg j) (number_of_file_transfers j)
     (number_of_folder_property_transfers j) (total_number_of_transfers j)
     (number_of_transfers_completed j) (number_of_transfers_failed j)
     (number_of_transfers_skipped j) (total_bytes_transferred j) (completed j).

Definition set_error_msg (v : string) (j : t) : t :=
  mk (percent_complete j) v (final_job_status_msg j) (number_of_file_transfers j)
     (number_of_folder_property_transfers j) (total_number_of_transfers j)
     (number_of_transfers_completed j) (number_of_transfers_failed j)
     (number_of_transfers_skipped j) (total_bytes_transferred j) (completed j).

Definition set_final_job_status_msg (v : string) (j : t) : t :=
  mk (percent_complete j) (error_msg j) v (number_of_file_transfers j)
     (number_of_folder_property_transfers j) (total_number_of_transfers j)
     (number_of_transfers_completed j) (number_of_transfers_failed j)
     (number_of_transfers_skipped j) (total_bytes_transferred j) (completed j).

Definition set_completed (v : bool) (j : t) : t :=
  mk (percent_complete j) (error_msg j) (final_job_status_msg j)
     (number_of_file_transfers j)
     (number_of_folder_property_transfers j) (total_number_of_transfers j)
     (number_of_transfers_completed j) (number_of_transfers_failed j)
     (number_of_transfers_skipped j) (total_bytes_transferred j) v.

End AzCopyJobInfo.

Module AzSyncJobInfo.

Record t : Type := mk {
  percent_complete : float;
  error_msg : string;
  files_scanned_at_source : Z;
  files_scanned_at_destination : Z;
  number_of_copy_transfers_for_files : Z;
  number_of_copy_transfers_for_folder_properties : Z;
  number_of_folder_property_transfers : Z;
  total_number_of_copy_transfers : Z;
  number_of_copy_transfers_completed : Z;
  number_of_copy_transfers_failed : Z;
  number_of_deletions_at_destination : Z;
  total_number_of_bytes_transferred : Z;
  total_number_of_bytes_enumerated : Z;
  final_job_status_msg : string;
  completed : bool
}.

(** [AzSyncJobInfo()] *)
Definition init : t := mk 0%float "" 0 0 0 0 0 0 0 0 0 0 0 "" false.

Definition set_percent_complete (v : float) (j : t) : t :=
  mk v (error_msg j) (files_scanned_at_source j)
     (files_scanned_at_destination j) (number_of_copy_transfers_for_files j)
     (number_of_copy_transfers_for_folder_properties j)
     (number_of_folder_property_transfers j) (total_number_of_copy_transfers j)
     (number_of_copy_transfers_completed j) (number_of_copy_transfers_failed j)
     (number_of_deletions_at_destination j)
     (total_number_of_bytes_transferred j) (total_number_of_bytes_enumerated j)
     (final_job_status_msg j) (completed j).

Definition set_error_msg (v : string) (j : t) : t :=
  mk (percent_complete j) v (files_scanned_at_source j)
     (files_scanned_at_destination j) (number_of_copy_transfers_for_files j)
     (number_of_copy_transfers_for_folder_properties j)
     (number_of_folder_property_transfers j) (total_number_of_copy_transfers j)
     (number_of_copy_transfers_completed j) (number_of_copy_transfers_failed j)
     (number_of_deletions_at_destination j)
     (total_number_of_bytes_transferred j) (total_number_of_bytes_enumerated j)
     (final_job_status_msg j) (completed j).

Definition set_final_job_status_msg (v : string) (j : t) : t :=
  mk (percent_complete j) (error_msg j) (files_scanned_at_source j)
     (files_scanned_at_destination j) (number_of_copy_transfers_for_files j)
     (number_of_copy_transfers_for_folder_properties j)
     (number_of_folder_property_transfers j) (total_number_of_copy_transfers j)
     (number_of_copy_transfers_completed j) (number_of_copy_transfers_failed j)
     (number_of_deletions_at_destination j)
     (total_number_of_bytes_transferred j) (total_number_of_bytes_enumerated j)
     v (completed j).

Definition set_completed (v : bool) (j : t) : t :=
  mk (percent_complete j) (error_msg j) (files_scanned_at_source j)
     (files_scanned_at_destination j) (number_of_copy_transfers_for_files j)
     (number_of_copy_transfers_for_folder_properties j)
     (number_of_folder_property_transfers j) (total_number_of_copy_transfers j)
     (number_of_copy_transfers_completed j) (number_of_copy_transfers_failed j)
     (number_of_deletions_at_destination j)
     (total_number_of_bytes_transferred j) (total_number_of_bytes_enumerated j)
     (final_job_status_msg j) v.

End AzSyncJobInfo.

Module AzRemoveJobInfo.

Record t : Type := mk {
  percent_complete : float;
  error_msg : string;
  final_job_status_msg : string;
  completed : bool;
  number_of_files_removed : Z;
  number_of_folders_removed : Z;
  total_number_of_removals : Z;
  number_of_removals_completed : Z;
  number_of_removals_failed : Z;
  number_of_removals_skipped : Z;
  total_bytes_removed : Z
}.

(** [AzRemoveJobInfo()] *)
Definition init : t := mk 0%float "" "" false 0 0 0 0 0 0 0.

Definition set_percent_complete (v : float) (j : t) : t :=
  mk v (error_msg j) (final_job_status_msg j) (completed j)
     (number_of_files_removed j) (number_of_folders_removed j)
     (total_number_of_removals j) (number_of_removals_completed j)
     (number_of_removals_failed j) (number_of_removals_skipped j)
     (total_bytes_removed j).

Definition set_error_msg (v : string) (j : t) : t :=
  mk (percent_complete j) v (final_job_status_msg j) (completed j)
     (number_of_files_removed j) (number_of_folders_removed j)
     (total_number_of_removals j) (number_of_removals_completed j)
     (number_of_removals_failed j) (number_of_removals_skipped j)
     (total_bytes_removed j).

Definition set_final_job_status_msg (v : string) (j : t) : t :=
  mk (percent_complete j) (error_msg j) v (completed j)
     (number_of_files_removed j) (number_of_folders_removed j)
     (total_number_of_removals j) (number_of_removals_completed j)
     (number_of_removals_failed j) (number_of_removals_skipped j)
     (total_bytes_removed j).

Definition set_completed (v : bool) (j : t) : t :=
  mk (percent_complete j) (error_msg j) (final_job_status_msg j) v
     (number_of_files_removed j) (number_of_folders_removed j)
     (total_number_of_removals j) (number_of_removals_completed j)
     (number_of_removals_failed j) (number_of_removals_skipped j)
     (total_bytes_removed j).

End AzRemoveJobInfo.

(** A value decoded by [json.loads]: [None], [bool], [int], [float],
    [str], [list] and [dict] (in insertion order, keys distinct). *)
#[warnings="-register-all"]
Inductive json : Type :=
| JNone
| JBool (b : bool)
| JInt (n : Z)
| JFloat (f : float)
| JStr (s : string)
| JList (l : list json)
| JDict (d : list (string * json)).

Module AzListJobInfo.

Record t : Type := mk {
  error_msg : string;
  final_job_status_msg : string;
  completed : bool;
  output_text : string;
  items : list json
}.

(** [AzListJobInfo()] *)
Definition init : t := mk "" "" false "" [].

Definition set_error_msg (v : string) (j : t) : t :=
  mk v (final_job_status_msg j) (completed j) (output_text j) (items j).

Definition set_final_job_status_msg (v : string) (j : t) : t :=
  mk (error_msg j) v (completed j) (output_text j) (items j).

Definition set_completed (v : bool) (j : t) : t :=
  mk (error_msg j) (final_job_status_msg j) v (output_text j) (items j).

Definition set_output_text (v : string) (j : t) : t :=
  mk (error_msg j) (final_job_status_msg j) (completed j) v (items j).

Definition set_items (v : list json) (j : t) : t :=
  mk (error_msg j) (final_job_status_msg j) (completed j) (output_text j) v.

End AzListJobInfo.

(* ================================================================== *)
(** * External collaborators, the world and the monad of effects *)
(* ================================================================== *)

(** How a call [json.loads(text)] on a [str] ends: it returns a value,
    it raises [json.JSONDecodeError], or it raises another exception (a
    plain [ValueError] on an integer literal beyond the digit limit, a
    [RecursionError] on a nesting that is too deep). *)
Inductive Loads : Type :=
| Loaded (v : json)
| JSONDecodeError
| OtherError.

(** What one run of the external process yields: the lines it emits, in
    order, then either the end of the stream or an exception with the
    text [failure]; [elapsed] is the wall-clock time the run takes. *)
Record Stream : Type := mkStream {
  lines : list string;
  failure : option string;
  elapsed : Z
}.

(** The collaborators of the client that live outside the two modules
    embedded here.  The line source and the expiry predicate read the wall
    clock, which is their first argument. *)
Record Env : Type := mkEnv {
  (** [utils.execute_command.execute_command(cmd)] *)
  execute_command : Z -> list string -> Stream;
  (** [sas_token_validation.is_sas_token_session_expired(token)] *)
  is_sas_token_session_expired : Z -> string -> bool;
  (** [os.path.exists(path)] *)
  os_path_exists : string -> bool;
  (** [azcopy_summary.get_transfer_copy_summary_info(job_info, summary)] *)
  get_transfer_copy_summary_info : AzCopyJobInfo.t -> string -> AzCopyJobInfo.t;
  (** [azcopy_summary.get_sync_summary_info(job_info, summary)] *)
  get_sync_summary_info : AzSyncJobInfo.t -> string -> AzSyncJobInfo.t;
  (** [azcopy_summary.get_remove_summary_info(job_info, summary)] *)
  get_remove_summary_info : AzRemoveJobInfo.t -> string -> AzRemoveJobInfo.t;
  (** [json.loads(text)] on a [str] *)
  loads : string -> Loads;
  (** [float(text)] on a text of the shape [\d+\.\d+] *)
  py_float : string -> float
}.

(** The value that [json.loads(text)] returns, when it returns one. *)
Definition json_loads (env : Env) (text : string) : option json :=
  match loads env text with
  | Loaded v => Some v
  | JSONDecodeError => None
  | OtherError => None
  end.

(** What the client does that can be seen from outside. *)
Inductive Event : Type :=
| Spawn (cmd : list string)     (* the line source is invoked on [cmd] *)
| Print (line : string).        (* [print(line, end="")] *)

(** A reference to an [AzRemoveOptions] object owned by the caller. *)
Definition Ref : Type := nat.

Record World : Type := mkWorld {
  now : Z;
  trace : list Event;
  remove_options : Ref -> AzRemoveOptions.t
}.

(** How a call ends: it returns a value, or it raises [Exception(msg)].
    [job] is the job record of the call at the moment of the raise, when
    one has been created. *)
Inductive Res (J A : Type) : Type :=
| Returned (a : A)
| Raised (msg : string) (job : option J).

Arguments Returned {J A} a.
Arguments Raised {J A} msg job.

Definition M (J A : Type) : Type := World -> Res J A * World.

Definition ret {J A : Type} (a : A) : M J A := fun w => (Returned a, w).

Definition bind {J A B : Type} (m : M J A) (k : A -> M J B) : M J B :=
  fun w =>
    match m w with
    | (Returned a, w') => k a w'
    | (Raised msg job, w') => (Raised msg job, w')
    end.

Notation "x <- m ;; k" := (bind m (fun x => k))
  (at level 61, m at next level, right associativity).

(** [raise Exception(msg)] *)
Definition raise {J A : Type} (msg : string) (job : option J) : M J A :=
  fun w => (Raised msg job, w).

Definition emit {J : Type} (e : Event) : M J unit :=
  fun w => (Returned tt, mkWorld (now w) (trace w ++ [e])%list (remove_options w)).

(** [print(output_line, end="")] *)
Definition print {J : Type} (line : string) : M J unit := emit (Print line).

(** The call [execute_command(cmd)]: the process is spawned now. *)
Definition spawn {J : Type} (env : Env) (cmd : list string) : M J Stream :=
  fun w =>
    (Returned (execute_command env (now w) cmd),
     mkWorld (now w) (trace w ++ [Spawn cmd])%list (remove_options w)).

(** The clock moves on while the stream is consumed. *)
Definition advance {J : Type} (dt : Z) : M J unit :=
  fun w => (Returned tt, mkWorld (now w + dt) (trace w) (remove_options w)).

(** [is_sas_token_session_expired(token)], asked now. *)
Definition sas_expired {J : Type} (env : Env) (token : string) : M J bool :=
  fun w => (Returned (is_sas_token_session_expired env (now w) token), w).

(** Reading and updating an object of the store. *)
Definition deref {J : Type} (r : Ref) : M J AzRemoveOptions.t :=
  fun w => (Returned (remove_options w r), w).

Definition update {J : Type} (r : Ref) (f : AzRemoveOptions.t -> AzRemoveOptions.t)
  : M J unit :=
  fun w =>
    (Returned tt,
     mkWorld (now w) (trace w)
       (fun r' => if Nat.eqb r' r then f (remove_options w r') else remove_options w r')).

(* ================================================================== *)
(** * azcopy_utilities: locations *)
(* ================================================================== *)

Module AzRemoteSASLocation.

Record t : Type := mk {
  storage_account : string;
  container : string;
  path : string;
  use_wildcard : bool;
  sas_token : string;
  location_type : option string
}.

(** [AzRemoteSASLocation.__init__] *)
Definition __init__ {J : Type} (env : Env)
    (storage_account container path : string) (use_wildcard : bool)
    (sas_token : string) (location_type : option string) : M J t :=
  expired <- (if (0 <? PyStr.len sas_token)%nat
              then sas_expired env sas_token else ret false) ;;
  if expired then raise "SAS token is expired" None
  else ret (mk storage_account container path use_wildcard sas_token
               location_type).

Definition get_resource_uri (self : t) : string :=
  "https://" ++ storage_account self ++ ".blob.core.windows.net/"
  ++ container self ++ "/".

(** The text that [__str__] returns when it returns. *)
Definition url (self : t) : string :=
  let resource_uri := get_resource_uri self in
  let wildcard := if use_wildcard self then "*" else "" in
  resource_uri ++ path self ++ wildcard ++ "?" ++ sas_token self.

(** [AzRemoteSASLocation.__str__] *)
Definition __str__ {J : Type} (env : Env) (self : t) : M J string :=
  expired <- (if (0 <? PyStr.len (sas_token self))%nat
              then sas_expired env (sas_token self) else ret false) ;;
  if expired then raise "SAS token is expired" None
  else ret (url self).

End AzRemoteSASLocation.

Module AzLocalLocation.

Record t : Type := mk {
  path : string;
  use_wildcard : bool;
  location_type : option string
}.

(** [AzLocalLocation.__str__] *)
Definition __str__ (self : t) : string :=
  let wildcard := if use_wildcard self then "*" else "" in
  path self ++ wildcard.

End AzLocalLocation.

(** [Union[AzRemoteSASLocation, AzLocalLocation]] *)
Inductive Location : Type :=
| RemoteSAS (l : AzRemoteSASLocation.t)
| LocalPath (l : AzLocalLocation.t).

(** [str(location)] *)
Definition str {J : Type} (env : Env) (l : Location) : M J string :=
  match l with
  | RemoteSAS r => AzRemoteSASLocation.__str__ env r
  | LocalPath p => ret (AzLocalLocation.__str__ p)
  end.

(** [location.path] *)
Definition path_of (l : Location) : string :=
  match l with
  | RemoteSAS r => AzRemoteSASLocation.path r
  | LocalPath p => AzLocalLocation.path p
  end.

(* ================================================================== *)
(** * azcopy_client: the interpreters of copy, sync and remove *)
(* ================================================================== *)

Record AzClient : Type := mkAzClient {
  exe_to_use : string;
  artefact_dir : option string
}.

(** The local variables that the loop over the output lines updates. *)
Record Loop (J : Type) : Type := mkLoop {
  job_info : J;
  summary : string;
  unlock_summary : bool
}.

Arguments mkLoop {J} job_info summary unlock_summary.

(** The progress part of the loop body: the new [percent_complete], when
    the line sets one. *)
Definition percent_update (env : Env) (output_line : string) : option float :=
  if PyStr.contains "%" output_line then
    match Re.match_percent output_line with
    | Some percent_complete => Some (py_float env percent_complete)
    | None => None
    end
  else None.

(** The unlock test of [_copy] and [_remove]. *)
Definition unlocks_raw (output_line : string) : bool :=
  PyStr.startswith "Job" output_line && PyStr.contains "summary" output_line.

(** The unlock test of [_sync]. *)
Definition unlocks_cleaned (output_line : string) : bool :=
  let output_line_cleaned := PyStr.lower (PyStr.strip output_line) in
  PyStr.startswith "job" output_line_cleaned
  && PyStr.contains "summary" output_line_cleaned.

(** The text of a [Final Job Status:] line. *)
Definition status_of (output_line : string) : string :=
  PyStr.strip (PyStr.split_last ":" output_line).

(** The body of the loop of [_copy], without its [print]. *)
Definition copy_step (env : Env) (st : Loop AzCopyJobInfo.t) (output_line : string)
  : Loop AzCopyJobInfo.t :=
  let j := job_info st in
  let j := match percent_update env output_line with
           | Some p => AzCopyJobInfo.set_percent_complete p j
           | None => j
           end in
  let summary' := if unlock_summary st then summary st ++ output_line
                  else summary st in
  let unlock' := if unlocks_raw output_line then true else unlock_summary st in
  let j := if PyStr.contains "AuthenticationFailed" output_line
           then AzCopyJobInfo.set_error_msg output_line j else j in
  let j := if PyStr.contains "Final Job Status:" output_line
           then AzCopyJobInfo.set_final_job_status_msg (status_of output_line) j
           else j in
  mkLoop j summary' unlock'.

(** The body of the loop of [_sync], without its [print]. *)
Definition sync_step (env : Env) (st : Loop AzSyncJobInfo.t) (output_line : string)
  : Loop AzSyncJobInfo.t :=
  let j := job_info st in
  let j := match percent_update env output_line with
           | Some p => AzSyncJobInfo.set_percent_complete p j
           | None => j
           end in
  let summary' :=
    if unlock_summary st
    then summary st ++ PyStr.remove_char ")" (PyStr.remove_char "(" output_line)
    else summary st in
  let unlock' := if unlocks_cleaned output_line then true else unlock_summary st in
  let j := if PyStr.contains "AuthenticationFailed" output_line
           then AzSyncJobInfo.set_error_msg output_line j else j in
  let j := if PyStr.contains "Final Job Status:" output_line
           then AzSyncJobInfo.set_final_job_status_msg (status_of output_line) j
           else j in
  mkLoop j summary' unlock'.

(** The body of the loop of [_remove], without its [print]. *)
Definition remove_step (env : Env) (st : Loop AzRemoveJobInfo.t)
    (output_line : string) : Loop AzRemoveJobInfo.t :=
  let j := job_info st in
  let j := match percent_update env output_line with
           | Some p => AzRemoveJobInfo.set_percent_complete p j
           | None => j
           end in
  let summary' := if unlock_summary st then summary st ++ output_line
                  else summary st in
  let unlock' := if unlocks_raw output_line then true else unlock_summary st in
  let j := if PyStr.contains "AuthenticationFailed" output_line
           then AzRemoveJobInfo.set_error_msg output_line j else j in
  let j := if PyStr.contains "Final Job Status:" output_line
           then AzRemoveJobInfo.set_final_job_status_msg (status_of output_line) j
           else j in
  mkLoop j summary' unlock'.

(** [for output_line in ...: print(output_line, end=""); body] over the
    lines that the stream yields. *)
Fixpoint consume {J S : Type} (step : S -> string -> S) (ls : list string) (st : S)
  : M J S :=
  match ls with
  | [] => ret st
  | output_line :: rest =>
      _ <- print output_line ;;
      consume step rest (step st output_line)
  end.

(** The test of the final decision of [_copy], [_sync] and [_remove]. *)
Definition is_completed_status (final_job_status_msg : string) : bool :=
  String.eqb final_job_status_msg "Completed"
  || String.eqb final_job_status_msg "CompletedWithSkipped".

(** The [except] clause of [_copy]. *)
Definition copy_except (env : Env) (src dest : Location) (e : string)
    (j : AzCopyJobInfo.t) : M AzCopyJobInfo.t AzCopyJobInfo.t :=
  let token := match dest, src with
               | RemoteSAS d, _ => AzRemoteSASLocation.sas_token d
               | _, RemoteSAS s => AzRemoteSASLocation.sas_token s
               | _, _ => ""
               end in
  token_expiry_flag <- sas_expired env token ;;
  let j := if token_expiry_flag
           then AzCopyJobInfo.set_error_msg "SAS token is expired" j
           else AzCopyJobInfo.set_error_msg e j in
  ret (AzCopyJobInfo.set_completed false j).

(** The final decision of [_copy]. *)
Definition copy_finalize (j : AzCopyJobInfo.t) : M AzCopyJobInfo.t AzCopyJobInfo.t :=
  if is_completed_status (AzCopyJobInfo.final_job_status_msg j) then
    ret (AzCopyJobInfo.set_completed true j)
  else if (0 <? AzCopyJobInfo.number_of_transfers_failed j)%Z then
    let j := AzCopyJobInfo.set_error_msg
               (AzCopyJobInfo.error_msg j ++ "; Tranfers failed = "
                ++ PyStr.of_Z (AzCopyJobInfo.number_of_transfers_failed j)) j in
    let j := AzCopyJobInfo.set_completed false j in
    raise (AzCopyJobInfo.error_msg j) (Some j)
  else
    let j := AzCopyJobInfo.set_error_msg
               (AzCopyJobInfo.error_msg j ++ "; Error while transferring data") j in
    let j := AzCopyJobInfo.set_completed false j in
    raise (AzCopyJobInfo.error_msg j) (Some j).

(** [AzClient._copy] up to the call of the summary parser: the command,
    the loop over the lines, the [except] clause and the parser. *)
Definition copy_interpret (env : Env) (self : AzClient) (src dest : Location)
    (transfer_options : AzCopyOptions.t) : M AzCopyJobInfo.t AzCopyJobInfo.t :=
  s <- str env src ;;
  d <- str env dest ;;
  let cmd := ([exe_to_use self; "cp"; s; d]
              ++ AzCopyOptions.get_options_list transfer_options)%list in
  stream <- spawn env cmd ;;
  st <- consume (copy_step env) (lines stream)
          (mkLoop AzCopyJobInfo.init "" false) ;;
  _ <- advance (elapsed stream) ;;
  j <- match failure stream with
       | None => ret (job_info st)
       | Some e => copy_except env src dest e (job_info st)
       end ;;
  ret (get_transfer_copy_summary_info env j (summary st)).

(** [AzClient._copy] *)
Definition _copy (env : Env) (self : AzClient) (src dest : Location)
    (transfer_options : AzCopyOptions.t) : M AzCopyJobInfo.t AzCopyJobInfo.t :=
  j <- copy_interpret env self src dest transfer_options ;;
  copy_finalize j.

(** The [except] clause of [_sync]. *)
Definition sync_except (j : AzSyncJobInfo.t) : AzSyncJobInfo.t :=
  AzSyncJobInfo.set_completed false j.

(** The final decision of [_sync]. *)
Definition sync_finalize (j : AzSyncJobInfo.t) : M AzSyncJobInfo.t AzSyncJobInfo.t :=
  if is_completed_status (AzSyncJobInfo.final_job_status_msg j) then
    ret (AzSyncJobInfo.set_completed true j)
  else if (0 <? AzSyncJobInfo.number_of_copy_transfers_failed j)%Z then
    let j := AzSyncJobInfo.set_error_msg
               (AzSyncJobInfo.error_msg j ++ "; Tranfers failed = "
                ++ PyStr.of_Z (AzSyncJobInfo.number_of_copy_transfers_failed j)) j in
    let j := AzSyncJobInfo.set_completed false j in
    raise (AzSyncJobInfo.error_msg j) (Some j)
  else
    let j := AzSyncJobInfo.set_error_msg
               (AzSyncJobInfo.error_msg j ++ "; Error while transferring data") j in
    let j := AzSyncJobInfo.set_completed false j in
    raise (AzSyncJobInfo.error_msg j) (Some j).

(** [AzClient._sync] up to the call of the summary parser. *)
Definition sync_interpret (env : Env) (self : AzClient) (src dest : Location)
    (transfer_options : AzSyncOptions.t) : M AzSyncJobInfo.t AzSyncJobInfo.t :=
  s <- str env src ;;
  d <- str env dest ;;
  let cmd := ([exe_to_use self; "sync"; s; d]
              ++ AzSyncOptions.get_options_list transfer_options)%list in
  stream <- spawn env cmd ;;
  st <- consume (sync_step env) (lines stream)
          (mkLoop AzSyncJobInfo.init "" false) ;;
  _ <- advance (elapsed stream) ;;
  let j := match failure stream with
           | None => job_info st
           | Some _ => sync_except (job_info st)
           end in
  ret (get_sync_summary_info env j (summary st)).

(** [AzClient._sync] *)
Definition _sync (env : Env) (self : AzClient) (src dest : Location)
    (transfer_options : AzSyncOptions.t) : M AzSyncJobInfo.t AzSyncJobInfo.t :=
  j <- sync_interpret env self src dest transfer_options ;;
  sync_finalize j.

(** The [except] clause of [_remove]. *)
Definition remove_except (env : Env) (location : AzRemoteSASLocation.t)
    (e : string) (j : AzRemoveJobInfo.t) : M AzRemoveJobInfo.t AzRemoveJobInfo.t :=
  let token := AzRemoteSASLocation.sas_token location in
  token_expiry_flag <- sas_expired env token ;;
  let j := if token_expiry_flag
           then AzRemoveJobInfo.set_error_msg "SAS token is expired" j
           else AzRemoveJobInfo.set_error_msg e j in
  ret (AzRemoveJobInfo.set_completed false j).

(** The final decision of [_remove]. *)
Definition remove_finalize (j : AzRemoveJobInfo.t)
  : M AzRemoveJobInfo.t AzRemoveJobInfo.t :=
  if is_completed_status (AzRemoveJobInfo.final_job_status_msg j) then
    ret (AzRemoveJobInfo.set_completed true j)
  else if (0 <? AzRemoveJobInfo.number_of_removals_failed j)%Z then
    let j := AzRemoveJobInfo.set_error_msg
               (AzRemoveJobInfo.error_msg j ++ "; Removals failed = "
                ++ PyStr.of_Z (AzRemoveJobInfo.number_of_removals_failed j)) j in
    let j := AzRemoveJobInfo.set_completed false j in
    raise (AzRemoveJobInfo.error_msg j) (Some j)
  else
    let j := AzRemoveJobInfo.set_error_msg
               (AzRemoveJobInfo.error_msg j ++ "; Error while removing data") j in
    let j := AzRemoveJobInfo.set_completed false j in
    raise (AzRemoveJobInfo.error_msg j) (Some j).

(** [AzClient._remove] up to the call of the summary parser;
    [remove_options] is the caller's object. *)
Definition remove_interpret (env : Env) (self : AzClient)
    (location : AzRemoteSASLocation.t) (remove_options : Ref)
  : M AzRemoveJobInfo.t AzRemoveJobInfo.t :=
  l <- AzRemoteSASLocation.__str__ env location ;;
  options <- deref remove_options ;;
  let cmd := ([exe_to_use self; "remove"; l]
              ++ AzRemoveOptions.get_options_list options)%list in
  stream <- spawn env cmd ;;
  st <- consume (remove_step env) (lines stream)
          (mkLoop AzRemoveJobInfo.init "" false) ;;
  _ <- advance (elapsed stream) ;;
  j <- match failure stream with
       | None => ret (job_info st)
       | Some e => remove_except env location e (job_info st)
       end ;;
  ret (get_remove_summary_info env j (summary st)).

(** [AzClient._remove] *)
Definition _remove (env : Env) (self : AzClient) (location : AzRemoteSASLocation.t)
    (remove_options : Ref) : M AzRemoveJobInfo.t AzRemoveJobInfo.t :=
  j <- remove_interpret env self location remove_options ;;
  remove_finalize j.

(* ================================================================== *)
(** * azcopy_client: the interpreter of list *)
(* ================================================================== *)

(** [d.get(key)] *)
Fixpoint dict_get (key : string) (d : list (string * json)) : option json :=
  match d with
  | [] => None
  | (k, v) :: rest => if String.eqb k key then Some v else dict_get key rest
  end.

(** [value == text] for a decoded value or a missing key and a [str]. *)
Definition is_str (value : option json) (text : string) : bool :=
  match value with
  | Some (JStr s) => String.eqb s text
  | _ => false
  end.

(** Truthiness of a decoded value. *)
Definition json_truthy (v : json) : bool :=
  match v with
  | JNone => false
  | JBool b => b
  | JInt n => negb (Z.eqb n 0)
  | JFloat f => negb (PrimFloat.eqb f 0%float)
  | JStr s => PyStr.truthy s
  | JList l => match l with [] => false | _ => true end
  | JDict d => match d with [] => false | _ => true end
  end.

(** What one buffered line does to [items]: nothing, one more item, or an
    exception that is not a [json.JSONDecodeError] and so leaves the loop
    over the lines. *)
Inductive Decoded : Type :=
| Skip
| Item (v : json)
| Abort.

(** The body of the loop over [output_lines] in the JSON pass. *)
Definition decode_line (env : Env) (line : string) : Decoded :=
  let line := PyStr.strip line in
  if PyStr.truthy line && PyStr.startswith "{" line && PyStr.endswith "}" line then
    match loads env line with
    | JSONDecodeError => Skip           (* except json.JSONDecodeError *)
    | OtherError => Abort               (* not caught by the inner except *)
    | Loaded (JDict json_obj) =>
        if is_str (dict_get "MessageType" json_obj) "ListObject" then
          let message_content :=
            match dict_get "MessageContent" json_obj with
            | Some v => v
            | None => JStr ""
            end in
          if json_truthy message_content then
            match message_content with
            | JStr text =>
                match loads env text with
                | Loaded file_info => Item file_info
                | JSONDecodeError => Skip   (* except json.JSONDecodeError *)
                | OtherError => Abort       (* not caught by the inner except *)
                end
            | _ => Abort                (* json.loads raises TypeError *)
            end
          else Skip
        else if negb (is_str (dict_get "MessageType" json_obj) "EndOfJob") then
          Item (JDict json_obj)
        else Skip
    | Loaded _ => Abort                 (* no method [get] *)
    end
  else Skip.

(** The loop over [output_lines]: the items collected, or [None] when an
    exception left the loop. *)
Fixpoint decode_items (env : Env) (output_lines : list string) (items : list json)
  : option (list json) :=
  match output_lines with
  | [] => Some items
  | line :: rest =>
      match decode_line env line with
      | Skip => decode_items env rest items
      | Item v => decode_items env rest (items ++ [v])%list
      | Abort => None
      end
  end.

(** The JSON pass of [_list]: [job_info.items = items] is reached only
    when the loop ends without an exception; [except Exception: pass]
    leaves the record as it is otherwise. *)
Definition json_pass (env : Env) (output_lines : list string) (j : AzListJobInfo.t)
  : AzListJobInfo.t :=
  match decode_items env output_lines [] with
  | Some items => AzListJobInfo.set_items items j
  | None => j
  end.

(** The loop of [_list] over the lines of the stream: the buffer
    [output_lines], and the line on which the loop raised, if any. *)
Fixpoint list_loop {J : Type} (ls : list string) (output_lines : list string)
  : M J (list string * option string) :=
  match ls with
  | [] => ret (output_lines, None)
  | output_line :: rest =>
      _ <- print output_line ;;
      let output_lines := (output_lines ++ [PyStr.rstrip output_line])%list in
      if PyStr.contains "AuthenticationFailed" output_line
      then ret (output_lines, Some output_line)
      else list_loop rest output_lines
  end.

(** The outer [except] clause of [_list]. *)
Definition list_except (e : string) (j : AzListJobInfo.t)
  : M AzListJobInfo.t AzListJobInfo.t :=
  let j := if String.eqb (AzListJobInfo.error_msg j) ""
           then AzListJobInfo.set_error_msg e j else j in
  let j := AzListJobInfo.set_completed false j in
  raise (AzListJobInfo.error_msg j) (Some j).

(** [AzClient._list] *)
Definition _list (env : Env) (self : AzClient) (location : AzRemoteSASLocation.t)
    (list_options : AzListOptions.t) : M AzListJobInfo.t AzListJobInfo.t :=
  l <- AzRemoteSASLocation.__str__ env location ;;
  let cmd := ([exe_to_use self; "list"; l]
              ++ AzListOptions.get_options_list list_options)%list in
  let j := AzListJobInfo.init in
  stream <- spawn env cmd ;;
  looped <- list_loop (lines stream) [] ;;
  _ <- advance (elapsed stream) ;;
  match looped with
  | (_, Some output_line) =>
      let j := AzListJobInfo.set_error_msg output_line j in
      let j := AzListJobInfo.set_completed false j in
      list_except (AzListJobInfo.error_msg j) j
  | (output_lines, None) =>
      match failure stream with
      | Some e => list_except e j
      | None =>
          let j := AzListJobInfo.set_output_text
                     (PyStr.join PyStr.nl output_lines) j in
          let j := if String.eqb (AzListOptions.output_type list_options) "json"
                   then json_pass env output_lines j else j in
          let j := AzListJobInfo.set_completed true j in
          let j := AzListJobInfo.set_final_job_status_msg "Completed" j in
          ret j
      end
  end.

(* ================================================================== *)
(** * azcopy_client: the public methods *)
(* ================================================================== *)

Definition download_data_to_local_location (env : Env) (self : AzClient)
    (src dest : Location) (transfer_options : AzCopyOptions.t)
  : M AzCopyJobInfo.t AzCopyJobInfo.t :=
  _copy env self src dest transfer_options.

Definition upload_data_to_remote_location (env : Env) (self : AzClient)
    (src dest : Location) (transfer_options : AzCopyOptions.t)
  : M AzCopyJobInfo.t AzCopyJobInfo.t :=
  _copy env self src dest transfer_options.

Definition copy_remote_data_from_container_to_container (env : Env)
    (self : AzClient) (src dest : Location) (transfer_options : AzCopyOptions.t)
  : M AzCopyJobInfo.t AzCopyJobInfo.t :=
  _copy env self src dest transfer_options.

(** The message of the precondition of the two sync methods. *)
Definition does_not_exist (path : string) : string :=
  path ++ " does not exist. For sync operation, the given path needs to exist".

Definition sync_to_local_location (env : Env) (self : AzClient)
    (src dest : Location) (transfer_options : AzSyncOptions.t)
  : M AzSyncJobInfo.t AzSyncJobInfo.t :=
  if negb (os_path_exists env (path_of dest))
  then raise (does_not_exist (path_of dest)) None
  else _sync env self src dest transfer_options.

Definition sync_to_remote_location (env : Env) (self : AzClient)
    (src dest : Location) (transfer_options : AzSyncOptions.t)
  : M AzSyncJobInfo.t AzSyncJobInfo.t :=
  if negb (os_path_exists env (path_of src))
  then raise (does_not_exist (path_of src)) None
  else _sync env self src dest transfer_options.

Definition list_remote_location (env : Env) (self : AzClient)
    (location : AzRemoteSASLocation.t) (list_options : AzListOptions.t)
  : M AzListJobInfo.t AzListJobInfo.t :=
  _list env self location list_options.

Definition remove_from_remote_location (env : Env) (self : AzClient)
    (location : AzRemoteSASLocation.t) (remove_options : Ref)
  : M AzRemoveJobInfo.t AzRemoveJobInfo.t :=
  _remove env self location remove_options.

Definition remove_single_blob (env : Env) (self : AzClient)
    (location : AzRemoteSASLocation.t) (remove_options : Ref)
  : M AzRemoveJobInfo.t AzRemoveJobInfo.t :=
  _remove env self location remove_options.

Definition remove_directory_recursive (env : Env) (self : AzClient)
    (location : AzRemoteSASLocation.t) (remove_options : Ref)
  : M AzRemoveJobInfo.t AzRemoveJobInfo.t :=
  _ <- update remove_options (AzRemoveOptions.set_recursive true) ;;
  _remove env self location remove_options.

(* ================================================================== *)
(** * Vocabulary of the statements *)
(* ================================================================== *)

(** The job record of a finished call: the one returned, or the one the
    call held when it raised. *)
Definition job_of {J : Type} (r : Res J J) : option J :=
  match r with
  | Returned j => Some j
  | Raised _ job => job
  end.

(** The lines from the first one that satisfies [unlocks] on. *)
Fixpoint from_unlock (unlocks : string -> bool) (ls : list string) : list string :=
  match ls with
  | [] => []
  | l :: rest => if unlocks l then l :: rest else from_unlock unlocks rest
  end.

(** The lines that come after the first one that satisfies [unlocks]. *)
Definition after_unlock (unlocks : string -> bool) (ls : list string) : list string :=
  tl (from_unlock unlocks ls).

(** [line.replace("(", "").replace(")", "")] *)
Definition strip_parens (l : string) : string :=
  PyStr.remove_char ")" (PyStr.remove_char "(" l).

(** A text is a run of characters of [\d]. *)
Fixpoint all_digits (s : string) : bool :=
  match s with
  | EmptyString => true
  | String c rest => PyStr.is_digit c && all_digits rest
  end.

(** [line] reads [<whole>.<frac> %,...] with two non-empty runs of
    digits, and [p] is the text [<whole>.<frac>]. *)
Definition percent_line (line p : string) : Prop :=
  exists whole frac rest,
    whole <> "" /\ frac <> "" /\
    all_digits whole = true /\ all_digits frac = true /\
    p = whole ++ "." ++ frac /\
    line = p ++ " %," ++ rest.




(** A location renders when its token is empty or not expired now. *)
Definition renders (env : Env) (w : World) (self : AzRemoteSASLocation.t) : Prop :=
  AzRemoteSASLocation.sas_token self = ""
  \/ is_sas_token_session_expired env (now w) (AzRemoteSASLocation.sas_token self)
     = false.

Definition renders_loc (env : Env) (w : World) (l : Location) : Prop :=
  match l with
  | RemoteSAS r => renders env w r
  | LocalPath _ => True
  end.

(** The text of a location that renders. *)
Definition text_of (l : Location) : string :=
  match l with
  | RemoteSAS r => AzRemoteSASLocation.url r
  | LocalPath p => AzLocalLocation.__str__ p
  end.

(** The commands that the four private methods build. *)
Definition copy_cmd (self : AzClient) (src dest : Location)
    (transfer_options : AzCopyOptions.t) : list string :=
  ([exe_to_use self; "cp"; text_of src; text_of dest]
   ++ AzCopyOptions.get_options_list transfer_options)%list.

Definition sync_cmd (self : AzClient) (src dest : Location)
    (transfer_options : AzSyncOptions.t) : list string :=
  ([exe_to_use self; "sync"; text_of src; text_of dest]
   ++ AzSyncOptions.get_options_list transfer_options)%list.

Definition list_cmd (self : AzClient) (location : AzRemoteSASLocation.t)
    (list_options : AzListOptions.t) : list string :=
  ([exe_to_use self; "list"; AzRemoteSASLocation.url location]
   ++ AzListOptions.get_options_list list_options)%list.

Definition remove_cmd (self : AzClient) (location : AzRemoteSASLocation.t)
    (remove_options : AzRemoveOptions.t) : list string :=
  ([exe_to_use self; "remove"; AzRemoteSASLocation.url location]
   ++ AzRemoveOptions.get_options_list remove_options)%list.

(** The world after the process was spawned on [cmd], the lines
    [printed] were echoed and the time [dt] went by. *)
Definition ran (w : World) (cmd : list string) (printed : list string) (dt : Z)
  : World :=
  mkWorld (now w + dt) (trace w ++ Spawn cmd :: map Print printed)
          (remove_options w).

(** The token that the [except] clause of [_copy] inspects. *)
Definition copy_token (src dest : Location) : string :=
  match dest, src with
  | RemoteSAS d, _ => AzRemoteSASLocation.sas_token d
  | _, RemoteSAS s => AzRemoteSASLocation.sas_token s
  | _, _ => ""
  end.

(** The record that each interpreter hands to its summary parser after
    the stream [s], started at time [t]. *)
Definition copy_before_parser (env : Env) (src dest : Location) (t : Z)
    (s : Stream) : AzCopyJobInfo.t :=
  let j := job_info (fold_left (copy_step env) (lines s)
                       (mkLoop AzCopyJobInfo.init "" false)) in
  match failure s with
  | None => j
  | Some e =>
      AzCopyJobInfo.set_completed false
        (AzCopyJobInfo.set_error_msg
           (if is_sas_token_session_expired env (t + elapsed s)
                 (copy_token src dest)
            then "SAS token is expired" else e) j)
  end.

Definition sync_before_parser (env : Env) (s : Stream) : AzSyncJobInfo.t :=
  let j := job_info (fold_left (sync_step env) (lines s)
                       (mkLoop AzSyncJobInfo.init "" false)) in
  match failure s with
  | None => j
  | Some _ => AzSyncJobInfo.set_completed false j
  end.

Definition remove_before_parser (env : Env) (location : AzRemoteSASLocation.t)
    (t : Z) (s : Stream) : AzRemoveJobInfo.t :=
  let j := job_info (fold_left (remove_step env) (lines s)
                       (mkLoop AzRemoveJobInfo.init "" false)) in
  match failure s with
  | None => j
  | Some e =>
      AzRemoveJobInfo.set_completed false
        (AzRemoveJobInfo.set_error_msg
           (if is_sas_token_session_expired env (t + elapsed s)
                 (AzRemoteSASLocation.sas_token location)
            then "SAS token is expired" else e) j)
  end.

(** The invariant that ties [completed] to the terminal status: a
    returned record is completed and carries one of the two success
    statuses, a record held at a raise is not completed and carries
    neither. *)
Definition completed_iff_success {J : Type} (completed : J -> bool)
    (final_job_status_msg : J -> string) (r : Res J J) : Prop :=
  match r with
  | Returned j =>
      completed j = true /\
      (final_job_status_msg j = "Completed"
       \/ final_job_status_msg j = "CompletedWithSkipped")
  | Raised _ (Some j) =>
      completed j = false /\
      final_job_status_msg j <> "Completed" /\
      final_job_status_msg j <> "CompletedWithSkipped"
  | Raised _ None => True
  end.

(** A line that does not report an authentication failure. *)
Definition no_auth_failure (l : string) : Prop :=
  PyStr.contains "AuthenticationFailed" l = false.

(** The group [percent_complete] of the last line of [ls] on which the
    expression of the progress lines matches. *)
Fixpoint last_percent (ls : list string) : option string :=
  match ls with
  | [] => None
  | l :: rest =>
      match last_percent rest with
      | Some p => Some p
      | None => Re.match_percent l
      end
  end.

(** The locals of the three loops before the first line. *)
Definition copy_start : Loop AzCopyJobInfo.t := mkLoop AzCopyJobInfo.init "" false.
Definition sync_start : Loop AzSyncJobInfo.t := mkLoop AzSyncJobInfo.init "" false.
Definition remove_start : Loop AzRemoveJobInfo.t :=
  mkLoop AzRemoveJobInfo.init "" false.

(** What stops a run of digits: the end of the text or a character that
    is not a digit. *)
Definition stops_digits (s : string) : Prop :=
  match s with
  | EmptyString => True
  | String c _ => PyStr.is_digit c = false
  end.

(** ** Vocabulary of the further properties *)

(** Every character of [s] is white space for [str.strip]. *)
Fixpoint all_space (s : string) : bool :=
  match s with
  | EmptyString => true
  | String c rest => PyStr.is_space c && all_space rest
  end.

(** The character [c] does not occur in [s]. *)
Fixpoint free_of (c : ascii) (s : string) : bool :=
  match s with
  | EmptyString => true
  | String d rest => negb (Ascii.eqb c d) && free_of c rest
  end.

(** A line that reports an authentication failure, and one that carries
    the terminal status. *)
Definition reports_auth_failure (l : string) : bool :=
  PyStr.contains "AuthenticationFailed" l.

Definition carries_status (l : string) : bool :=
  PyStr.contains "Final Job Status:" l.

(** The last line of [ls] that passes [test]. *)
Fixpoint last_line (test : string -> bool) (ls : list string) : option string :=
  match ls with
  | [] => None
  | l :: rest =>
      match last_line test rest with
      | Some found => Some found
      | None => if test l then Some l else None
      end
  end.

(** [env] with a line source that yields the stream [s] on every
    command. *)
Definition with_stream (env : Env) (s : Stream) : Env :=
  mkEnv (fun _ _ => s) (is_sas_token_session_expired env)
        (os_path_exists env) (get_transfer_copy_summary_info env)
        (get_sync_summary_info env) (get_remove_summary_info env)
        (loads env) (py_float env).

(** How a raise of copy, sync or remove looks: either a location did not
    render and no record exists, or the message is the [error_msg] of the
    record, and that ends with the fragment of the failure counter [n]
    when it is positive and with the generic fragment otherwise. *)
Definition raise_shape {J : Type} (error_msg : J -> string) (failed : J -> Z)
    (counted generic : string) (r : Res J J) : Prop :=
  match r with
  | Returned _ => True
  | Raised msg None => msg = "SAS token is expired"
  | Raised msg (Some j) =>
      msg = error_msg j /\ msg <> "" /\
      exists before,
        msg = before ++ (if (0 <? failed j)%Z
                         then counted ++ PyStr.of_Z (failed j)
                         else generic)
  end.

(** Two adjacent elements [a; b] occur in [l]. *)
Definition adjacent (a b : string) (l : list string) : Prop :=
  exists before after, l = (before ++ a :: b :: after)%list.

(** No flag is on and no optional value is set. *)
Definition all_off (o : AzRemoveOptions.t) : Prop :=
  AzRemoveOptions.recursive o = false
  /\ AzRemoveOptions.dry_run o = false
  /\ AzRemoveOptions.force_if_read_only o = false
  /\ AzRemoveOptions.permanent_delete o = false
  /\ Forall (fun v => v = None \/ v = Some "")
       [ AzRemoveOptions.include_pattern o; AzRemoveOptions.exclude_pattern o;
         AzRemoveOptions.delete_snapshots o; AzRemoveOptions.list_of_files o;
         AzRemoveOptions.list_of_versions o; AzRemoveOptions.include_after o;
         AzRemoveOptions.include_before o ].

(** No character of [s] is white space for [str.strip]. *)
Fixpoint no_space (s : string) : bool :=
  match s with
  | EmptyString => true
  | String c rest => negb (PyStr.is_space c) && no_space rest
  end.

(** The final decision ties the outcome of [run] to the record that
    [interpret] hands to it: with one of the two success statuses, taken
    as whole texts, [run] returns that record marked as completed; with
    any other status it raises, and the record of the raise is not
    completed and has the same status.  When [interpret] raises, [run]
    raises the same. *)
Definition decides_on_status {J : Type} (final_job_status_msg : J -> string)
    (completed : J -> bool) (mark_completed : J -> J)
    (interpret run : M J J) (w : World) : Prop :=
  match interpret w with
  | (Returned j, w1) =>
      ((final_job_status_msg j = "Completed"
        \/ final_job_status_msg j = "CompletedWithSkipped") ->
       run w = (Returned (mark_completed j), w1))
      /\ (final_job_status_msg j <> "Completed" ->
          final_job_status_msg j <> "CompletedWithSkipped" ->
          exists msg j',
            run w = (Raised msg (Some j'), w1)
            /\ completed j' = false
            /\ final_job_status_msg j' = final_job_status_msg j)
  | (Raised msg job, w1) => run w = (Raised msg job, w1)
  end.

(* ================================================================== *)
(** * Concrete collaborators for the runs below *)
(* ================================================================== *)

Module Sample.

(** The value of a run of decimal digits, most significant first. *)
Fixpoint digits_value (s : string) (acc : Z) : Z :=
  match s with
  | EmptyString => acc
  | String c rest =>
      digits_value rest (10 * acc + Z.of_nat (nat_of_ascii c - 48))
  end.

(** The text that follows the first occurrence of [key] in [s]. *)
Fixpoint find_after (key s : string) : option string :=
  match s with
  | EmptyString => if String.prefix key EmptyString then Some EmptyString else None
  | String _ rest =>
      if String.prefix key s
      then Some (String.substring (String.length key)
                   (String.length s - String.length key) s)
      else find_after key rest
  end.

(** The number that follows [key] in [text], 0 when there is none. *)
Definition number_after (key text : string) : Z :=
  match find_after key text with
  | Some rest => digits_value (fst (Re.span_digits rest)) 0
  | None => 0
  end.

(** Modelled from the spec: the summary parsers of [azcopy_summary] are
    not among the sources.  Each one fills the counters of its record
    from the lines [<label>: <N>] of the captured summary, a counter whose
    label is missing stays 0, and no other field is touched.  The labels
    stand in for those of the tool; the theorems hold for every parser and
    use these three only in their concrete runs. *)
Definition get_property_value (key summary : string) : Z :=
  number_after (key ++ ": ") summary.

Definition get_transfer_copy_summary_info (j : AzCopyJobInfo.t) (summary : string)
  : AzCopyJobInfo.t :=
  AzCopyJobInfo.mk
    (AzCopyJobInfo.percent_complete j) (AzCopyJobInfo.error_msg j)
    (AzCopyJobInfo.final_job_status_msg j)
    (get_property_value "Number of File Transfers" summary)
    (get_property_value "Number of Folder Property Transfers" summary)
    (get_property_value "Total Number of Transfers" summary)
    (get_property_value "Number of Transfers Completed" summary)
    (get_property_value "Number of Transfers Failed" summary)
    (get_property_value "Number of Transfers Skipped" summary)
    (get_property_value "TotalBytesTransferred" summary)
    (AzCopyJobInfo.completed j).

Definition get_sync_summary_info (j : AzSyncJobInfo.t) (summary : string)
  : AzSyncJobInfo.t :=
  AzSyncJobInfo.mk
    (AzSyncJobInfo.percent_complete j) (AzSyncJobInfo.error_msg j)
    (get_property_value "Files Scanned at Source" summary)
    (get_property_value "Files Scanned at Destination" summary)
    (get_property_value "Number of Copy Transfers for Files" summary)
    (get_property_value "Number of Copy Transfers for Folder Properties" summary)
    (get_property_value "Number of Folder Property Transfers" summary)
    (get_property_value "Total Number Of Copy Transfers" summary)
    (get_property_value "Number of Copy Transfers Completed" summary)
    (get_property_value "Number of Copy Transfers Failed" summary)
    (get_property_value "Number of Deletions at Destination" summary)
    (get_property_value "Total Number of Bytes Transferred" summary)
    (get_property_value "Total Number of Bytes Enumerated" summary)
    (AzSyncJobInfo.final_job_status_msg j) (AzSyncJobInfo.completed j).

Definition get_remove_summary_info (j : AzRemoveJobInfo.t) (summary : string)
  : AzRemoveJobInfo.t :=
  AzRemoveJobInfo.mk
    (AzRemoveJobInfo.percent_complete j) (AzRemoveJobInfo.error_msg j)
    (AzRemoveJobInfo.final_job_status_msg j) (AzRemoveJobInfo.completed j)
    (get_property_value "Number of File Transfers" summary)
    (get_property_value "Number of Folder Property Transfers" summary)
    (get_property_value "Total Number of Transfers" summary)
    (get_property_value "Number of Transfers Completed" summary)
    (get_property_value "Number of Transfers Failed" summary)
    (get_property_value "Number of Transfers Skipped" summary)
    (get_property_value "TotalBytesTransferred" summary).

(** An expiry predicate: the token carries its expiry time after [se=],
    and is expired once the clock has passed it; a text without [se=],
    the empty token among them, is not reported as expired. *)
Definition is_sas_token_session_expired (now : Z) (token : string) : bool :=
  match find_after "se=" token with
  | Some rest => (digits_value (fst (Re.span_digits rest)) 0 <? now)%Z
  | None => false
  end.

(** [float] on a text [\d+\.\d+]: the quotient of two integers, which is
    the correctly rounded value as long as both are below 2^53. *)
Definition py_float (text : string) : float :=
  let (whole, r) := Re.span_digits text in
  match r with
  | String _ frac =>
      let k := String.length frac in
      PrimFloat.div
        (PrimFloat.of_uint63
           (Uint63.of_Z (digits_value whole 0 * 10 ^ Z.of_nat k + digits_value frac 0)))
        (PrimFloat.of_uint63 (Uint63.of_Z (10 ^ Z.of_nat k)))
  | EmptyString => PrimFloat.of_uint63 (Uint63.of_Z (digits_value whole 0))
  end.

(** ** A decoder for a fragment of JSON

    Objects, arrays, strings with the one-character escapes, integers and
    the three literals; a text with a fraction, an exponent, a [\u]
    escape or a non-finite number is outside the fragment and is refused. *)

Definition is_json_space (c : ascii) : bool :=
  let n := nat_of_ascii c in
  ((n =? 32) || (n =? 9) || (n =? 10) || (n =? 13))%nat.

Fixpoint skip_ws (s : string) : string :=
  match s with
  | EmptyString => EmptyString
  | String c rest => if is_json_space c then skip_ws rest else s
  end.

Definition unescape (c : ascii) : option ascii :=
  let n := nat_of_ascii c in
  if (n =? 34)%nat then Some c                       (* quote *)
  else if (n =? 92)%nat then Some c                  (* backslash *)
  else if (n =? 47)%nat then Some c                  (* solidus *)
  else if (n =? 98)%nat then Some (ascii_of_nat 8)   (* b *)
  else if (n =? 102)%nat then Some (ascii_of_nat 12) (* f *)
  else if (n =? 110)%nat then Some (ascii_of_nat 10) (* n *)
  else if (n =? 114)%nat then Some (ascii_of_nat 13) (* r *)
  else if (n =? 116)%nat then Some (ascii_of_nat 9)  (* t *)
  else None.

(** The body of a string after its opening quote: the decoded text and
    what follows the closing quote. *)
Fixpoint parse_string (s acc : string) : option (string * string) :=
  match s with
  | EmptyString => None
  | String c rest =>
      let n := nat_of_ascii c in
      if (n =? 34)%nat then Some (acc, rest)
      else if (n =? 92)%nat then
        match rest with
        | String e rest' =>
            match unescape e with
            | Some ch => parse_string rest' (acc ++ String ch EmptyString)
            | None => None
            end
        | EmptyString => None
        end
      else if (n <? 32)%nat then None
      else parse_string rest (acc ++ String c EmptyString)
  end.

(** An integer (an optional minus sign, then 0 or a run of digits that
    does not start with 0) that no fraction or exponent follows. *)
Definition parse_int (s : string) : option (json * string) :=
  let (neg, body) := match s with
                     | String "-" rest => (true, rest)
                     | _ => (false, s)
                     end in
  let (ds, rest) := Re.span_digits body in
  let ds := match ds with
            | String "0" (String d more) => None
            | EmptyString => None
            | _ => Some ds
            end in
  match ds, rest with
  | None, _ => None
  | Some _, String "." _ => None
  | Some _, String "e" _ => None
  | Some _, String "E" _ => None
  | Some ds, _ =>
      let v := digits_value ds 0 in
      Some (JInt (if neg then (- v)%Z else v), rest)
  end.

(** [d[key] = v] on a dictionary in insertion order. *)
Fixpoint dict_set (key : string) (v : json) (d : list (string * json))
  : list (string * json) :=
  match d with
  | [] => [(key, v)]
  | (k, old) :: rest =>
      if String.eqb k key then (k, v) :: rest
      else (k, old) :: dict_set key v rest
  end.

(** One value at the start of [s] (no white space before it), and the
    rest of the text.  [fuel] bounds the nesting and the number of
    members read. *)
Fixpoint parse_value (fuel : nat) (s : string) : option (json * string) :=
  match fuel with
  | O => None
  | S fuel =>
      let members :=
        fix members (n : nat) (s : string) (acc : list (string * json))
          : option (json * string) :=
          match n with
          | O => None
          | S n =>
              match s with
              | String q body =>
                  if (nat_of_ascii q =? 34)%nat then
                    match parse_string body EmptyString with
                    | Some (key, after_key) =>
                        match skip_ws after_key with
                        | String ":" after_colon =>
                            match parse_value fuel (skip_ws after_colon) with
                            | Some (v, after_v) =>
                                let acc := dict_set key v acc in
                                match skip_ws after_v with
                                | String "," more => members n (skip_ws more) acc
                                | String "}" more => Some (JDict acc, more)
                                | _ => None
                                end
                            | None => None
                            end
                        | _ => None
                        end
                    | None => None
                    end
                  else None
              | EmptyString => None
              end
          end in
      let elements :=
        fix elements (n : nat) (s : string) (acc : list json)
          : option (json * string) :=
          match n with
          | O => None
          | S n =>
              match parse_value fuel s with
              | Some (v, after_v) =>
                  let acc := (acc ++ [v])%list in
                  match skip_ws after_v with
                  | String "," more => elements n (skip_ws more) acc
                  | String "]" more => Some (JList acc, more)
                  | _ => None
                  end
              | None => None
              end
          end in
      match s with
      | String "{" rest =>
          match skip_ws rest with
          | String "}" more => Some (JDict [], more)
          | body => members (String.length s) body []
          end
      | String "[" rest =>
          match skip_ws rest with
          | String "]" more => Some (JList [], more)
          | body => elements (String.length s) body []
          end
      | String q rest =>
          if (nat_of_ascii q =? 34)%nat then
            match parse_string rest EmptyString with
            | Some (text, more) => Some (JStr text, more)
            | None => None
            end
          else if String.prefix "null" s
          then Some (JNone, String.substring 4 (String.length s - 4) s)
          else if String.prefix "true" s
          then Some (JBool true, String.substring 4 (String.length s - 4) s)
          else if String.prefix "false" s
          then Some (JBool false, String.substring 5 (String.length s - 5) s)
          else parse_int s
      | EmptyString => None
      end
  end.

(** [json.loads] on the fragment. *)
Definition json_loads (text : string) : option json :=
  match parse_value (S (String.length text)) (skip_ws text) with
  | Some (v, rest) =>
      match skip_ws rest with
      | EmptyString => Some v
      | _ => None
      end
  | None => None
  end.

(** [json.loads] of the environment of the runs: the decoder of the
    fragment, which raises nothing but [json.JSONDecodeError]. *)
Definition loads (text : string) : Loads :=
  match json_loads text with
  | Some v => Loaded v
  | None => JSONDecodeError
  end.

(** The environment in which every command yields the stream [s] and
    the only path on disk is [/data]. *)
Definition env (s : Stream) : Env :=
  mkEnv (fun _ _ => s) is_sas_token_session_expired
        (fun path => String.eqb path "/data")
        get_transfer_copy_summary_info get_sync_summary_info
        get_remove_summary_info loads py_float.

Definition client : AzClient := mkAzClient "azcopy" None.

(** A world at time [t] with an empty trace, in which every reference
    denotes [AzRemoveOptions()]. *)
Definition world (t : Z) : World :=
  mkWorld t []
    (fun _ => AzRemoveOptions.mk false None None false None None None
                false false None None).

(** A container location with the token [token]. *)
Definition remote (token : string) : AzRemoteSASLocation.t :=
  AzRemoteSASLocation.mk "acct" "box" "dir/" false token None.

Definition local (path : string) : AzLocalLocation.t :=
  AzLocalLocation.mk path false None.

Definition copy_options : AzCopyOptions.t := AzCopyOptions.mk false false false "".
Definition sync_options : AzSyncOptions.t := AzSyncOptions.mk false false "".
Definition list_options (output_type : string) : AzListOptions.t :=
  AzListOptions.mk None output_type None false false false None.

(** A line of output: [text] and its line feed. *)
Definition line (text : string) : string := text ++ PyStr.nl.

(** ** Streams of the concrete runs *)

(** A copy whose summary reports two failed transfers under the
    terminal status [status]. *)
Definition copy_stream_with_failures (status : string) : Stream :=
  mkStream
    [ line "10.0 %, 1 Done, 2 Failed, 0 Pending";
      line "Job abc summary";
      line "Number of File Transfers: 3";
      line "Number of Transfers Completed: 1";
      line "Number of Transfers Failed: 2";
      line ("Final Job Status: " ++ status) ]
    None 5.

(** A stream that fails before it yields a line, after 500 units of
    time. *)
Definition failing_stream : Stream := mkStream [] (Some "boom") 500.

Definition quiet_stream : Stream := mkStream [] None 0.

(** A listing in which the second of three lines reports an
    authentication failure. *)
Definition list_stream_with_auth_failure : Stream :=
  mkStream
    [ line "INFO: Scanning...";
      line "RESPONSE 403: AuthenticationFailed";
      line "INFO: never read" ]
    None 1.

(** ** Streams of lines of the concrete runs *)

Definition progress_lines : list string :=
  [ line "10.0 %, 1 Done, 0 Failed, 2 Pending";
    line "62.5 %, 2 Done, 0 Failed, 1 Pending";
    line "100 % sure, this is not a progress line";
    line "Job abc summary" ].

Definition summary_lines : list string :=
  [ line "INFO: Scanning...";
    line "Job abc summary";
    line "Elapsed Time (Minutes): 0.0334";
    line "Final Job Status: Completed" ].

(** ** Lines of the concrete listings *)

(** [text] between double quotes. *)
Definition quoted (text : string) : string := PyStr.dq ++ text ++ PyStr.dq.

(** The envelope of the file [a.txt]: a [ListObject] whose
    [MessageContent] is the JSON text of an object with the key [name]. *)
Definition list_object_line : string :=
  "{" ++ quoted "MessageType" ++ ":" ++ quoted "ListObject" ++ ","
  ++ quoted "MessageContent" ++ ":"
  ++ PyStr.dq ++ "{\" ++ PyStr.dq ++ "name\" ++ PyStr.dq ++ ":\" ++ PyStr.dq
  ++ "a.txt\" ++ PyStr.dq ++ "}" ++ PyStr.dq ++ "}".

Definition end_of_job_line : string :=
  "{" ++ quoted "MessageType" ++ ":" ++ quoted "EndOfJob" ++ "}".



Definition listing_stream : Stream :=
  mkStream [ line "INFO: not JSON"; line list_object_line; line end_of_job_line ]
           None 1.


End Sample.

(* ================================================================== *)
(** * Lemmas on the monad, the locations and the loops *)
(* ================================================================== *)

Ltac run := unfold bind, ret, raise, print, emit, spawn, advance, sas_expired,
                   deref, update in *; simpl in *.

Lemma len_zero_iff (s : string) : (0 <? PyStr.len s)%nat = false <-> s = "".
Proof.
  destruct s; simpl; split; intro H; try reflexivity; discriminate.
Qed.

Lemma len_pos_iff (s : string) : (0 <? PyStr.len s)%nat = true <-> s <> "".
Proof.
  destruct s; simpl; split; intro H; try discriminate; try reflexivity.
  now contradiction H.
Qed.

Lemma remote_str_renders (J : Type) env w self :
  renders env w self ->
  @AzRemoteSASLocation.__str__ J env self w
  = (Returned (AzRemoteSASLocation.url self), w).
Proof.
  intros [H | H]; unfold AzRemoteSASLocation.__str__; run.
  - rewrite H. reflexivity.
  - destruct (0 <? PyStr.len (AzRemoteSASLocation.sas_token self))%nat;
      [rewrite H |]; reflexivity.
Qed.

Lemma remote_str_expired (J : Type) env w self :
  AzRemoteSASLocation.sas_token self <> "" ->
  is_sas_token_session_expired env (now w) (AzRemoteSASLocation.sas_token self)
  = true ->
  @AzRemoteSASLocation.__str__ J env self w
  = (Raised "SAS token is expired" None, w).
Proof.
  intros Hne Hexp. unfold AzRemoteSASLocation.__str__; run.
  apply len_pos_iff in Hne. rewrite Hne, Hexp. reflexivity.
Qed.

(** Rendering a remote location either returns its text or raises, and
    leaves the world as it is. *)
Lemma remote_str_cases (J : Type) env w self :
  (renders env w self /\
   @AzRemoteSASLocation.__str__ J env self w
   = (Returned (AzRemoteSASLocation.url self), w))
  \/ (~ renders env w self /\
      @AzRemoteSASLocation.__str__ J env self w
      = (Raised "SAS token is expired" None, w)).
Proof.
  destruct (string_dec (AzRemoteSASLocation.sas_token self) "") as [He | Hne].
  - left. split; [now left | apply remote_str_renders; now left].
  - destruct (is_sas_token_session_expired env (now w)
                (AzRemoteSASLocation.sas_token self)) eqn:Hexp.
    + right. split.
      * intros [H | H]; [contradiction | congruence].
      * now apply remote_str_expired.
    + left. split; [now right | apply remote_str_renders; now right].
Qed.

Lemma str_renders (J : Type) env w l :
  renders_loc env w l -> @str J env l w = (Returned (text_of l), w).
Proof.
  destruct l; simpl; intro H.
  - now apply remote_str_renders.
  - reflexivity.
Qed.

Lemma str_cases (J : Type) env w l :
  (renders_loc env w l /\ @str J env l w = (Returned (text_of l), w))
  \/ (~ renders_loc env w l /\
      @str J env l w = (Raised "SAS token is expired" None, w)).
Proof.
  destruct l; simpl.
  - apply remote_str_cases.
  - left. split; [exact I | reflexivity].
Qed.

(** The loop of copy, sync and remove never raises: it prints every line
    and folds the body over the lines. *)
Lemma consume_fold (J S : Type) (step : S -> string -> S) ls : forall st w,
  @consume J S step ls st w
  = (Returned (fold_left step ls st),
     mkWorld (now w) (trace w ++ map Print ls) (remove_options w)).
Proof.
  induction ls as [| l ls IH]; intros st w; simpl.
  - unfold ret. rewrite app_nil_r. now destruct w.
  - run. rewrite IH. simpl. now rewrite <- app_assoc.
Qed.

(** ** The interpreters, once the locations render *)

Lemma copy_interpret_renders env self src dest opts w :
  renders_loc env w src -> renders_loc env w dest ->
  let cmd := copy_cmd self src dest opts in
  let s := execute_command env (now w) cmd in
  copy_interpret env self src dest opts w
  = (Returned
       (get_transfer_copy_summary_info env
          (copy_before_parser env src dest (now w) s)
          (summary (fold_left (copy_step env) (lines s)
                      (mkLoop AzCopyJobInfo.init "" false)))),
     ran w cmd (lines s) (elapsed s)).
Proof.
  intros Hs Hd cmd s. unfold copy_interpret, bind at 1.
  rewrite (str_renders _ _ _ _ Hs). unfold bind at 1.
  rewrite (str_renders _ _ _ _ Hd).
  subst s cmd. unfold copy_cmd, bind at 1, spawn at 1. simpl.
  set (s := execute_command env (now w) _). clearbody s.
  unfold bind at 1. rewrite consume_fold.
  unfold copy_before_parser, ran, copy_except, copy_token.
  destruct s as [ls [e |] dt]; run; rewrite <- app_assoc; try reflexivity.
  now destruct (is_sas_token_session_expired env (now w + dt) _).
Qed.

Lemma sync_interpret_renders env self src dest opts w :
  renders_loc env w src -> renders_loc env w dest ->
  let cmd := sync_cmd self src dest opts in
  let s := execute_command env (now w) cmd in
  sync_interpret env self src dest opts w
  = (Returned
       (get_sync_summary_info env (sync_before_parser env s)
          (summary (fold_left (sync_step env) (lines s)
                      (mkLoop AzSyncJobInfo.init "" false)))),
     ran w cmd (lines s) (elapsed s)).
Proof.
  intros Hs Hd cmd s. unfold sync_interpret, bind at 1.
  rewrite (str_renders _ _ _ _ Hs). unfold bind at 1.
  rewrite (str_renders _ _ _ _ Hd).
  subst s cmd. unfold sync_cmd, bind at 1, spawn at 1. simpl.
  set (s := execute_command env (now w) _). clearbody s.
  unfold bind at 1. rewrite consume_fold.
  unfold sync_before_parser, ran, sync_except.
  destruct s as [ls [e |] dt]; run; rewrite <- app_assoc; try reflexivity.
Qed.

Lemma remove_interpret_renders env self location r w :
  renders env w location ->
  let cmd := remove_cmd self location (remove_options w r) in
  let s := execute_command env (now w) cmd in
  remove_interpret env self location r w
  = (Returned
       (get_remove_summary_info env
          (remove_before_parser env location (now w) s)
          (summary (fold_left (remove_step env) (lines s)
                      (mkLoop AzRemoveJobInfo.init "" false)))),
     ran w cmd (lines s) (elapsed s)).
Proof.
  intros Hl cmd s. unfold remove_interpret, bind at 1.
  rewrite (@remote_str_renders _ _ _ _ Hl). unfold bind at 1, deref at 1.
  subst s cmd. unfold remove_cmd, bind at 1, spawn at 1. simpl.
  set (s := execute_command env (now w) _). clearbody s.
  unfold bind at 1. rewrite consume_fold.
  unfold remove_before_parser, ran, remove_except.
  destruct s as [ls [e |] dt]; run; rewrite <- app_assoc; try reflexivity.
  now destruct (is_sas_token_session_expired env (now w + dt) _).
Qed.

(** When a location does not render, the interpreter raises at once: no
    record exists yet and the world is untouched. *)
Lemma copy_interpret_blocked env self src dest opts w :
  ~ (renders_loc env w src /\ renders_loc env w dest) ->
  copy_interpret env self src dest opts w
  = (Raised "SAS token is expired" None, w).
Proof.
  intro H. unfold copy_interpret, bind at 1.
  destruct (str_cases AzCopyJobInfo.t env w src) as [[Hs E] | [Hs E]];
    rewrite E; [| reflexivity].
  unfold bind at 1.
  destruct (str_cases AzCopyJobInfo.t env w dest) as [[Hd E'] | [Hd E']];
    rewrite E'; [| reflexivity].
  exfalso. apply H. now split.
Qed.

Lemma sync_interpret_blocked env self src dest opts w :
  ~ (renders_loc env w src /\ renders_loc env w dest) ->
  sync_interpret env self src dest opts w
  = (Raised "SAS token is expired" None, w).
Proof.
  intro H. unfold sync_interpret, bind at 1.
  destruct (str_cases AzSyncJobInfo.t env w src) as [[Hs E] | [Hs E]];
    rewrite E; [| reflexivity].
  unfold bind at 1.
  destruct (str_cases AzSyncJobInfo.t env w dest) as [[Hd E'] | [Hd E']];
    rewrite E'; [| reflexivity].
  exfalso. apply H. now split.
Qed.

Lemma remove_interpret_blocked env self location r w :
  ~ renders env w location ->
  remove_interpret env self location r w
  = (Raised "SAS token is expired" None, w).
Proof.
  intro H. unfold remove_interpret, bind at 1.
  destruct (remote_str_cases AzRemoveJobInfo.t env w location)
    as [[Hs E] | [Hs E]]; rewrite E; [contradiction | reflexivity].
Qed.

(** ** Strings *)

Lemma prefix_refl (s : string) : String.prefix s s = true.
Proof.
  induction s as [| c s IH]; simpl; [reflexivity |].
  destruct (ascii_dec c c); [exact IH | congruence].
Qed.

Lemma contains_self (s : string) : PyStr.contains s s = true.
Proof.
  destruct s as [| c s]; [reflexivity |].
  change (String.prefix (String c s) (String c s)
          || PyStr.contains (String c s) s = true).
  now rewrite prefix_refl.
Qed.

(** A text contains each of its suffixes. *)
Lemma contains_suffix (needle before : string) :
  PyStr.contains needle (before ++ needle) = true.
Proof.
  induction before as [| c before IH].
  - apply contains_self.
  - change (String.prefix needle (String c (before ++ needle))
            || PyStr.contains needle (before ++ needle) = true).
    rewrite IH. apply orb_true_r.
Qed.

Lemma append_assoc (a b c : string) : (a ++ b) ++ c = a ++ b ++ c.
Proof.
  induction a as [| x a IH]; simpl; [reflexivity | now rewrite IH].
Qed.

Lemma contains_after (needle a b : string) :
  PyStr.contains needle (a ++ b ++ needle) = true.
Proof.
  rewrite <- append_assoc. apply contains_suffix.
Qed.

Lemma is_completed_status_true (s : string) :
  is_completed_status s = true <-> s = "Completed" \/ s = "CompletedWithSkipped".
Proof.
  unfold is_completed_status. rewrite orb_true_iff, !String.eqb_eq. tauto.
Qed.

Lemma is_completed_status_false (s : string) :
  is_completed_status s = false <->
  s <> "Completed" /\ s <> "CompletedWithSkipped".
Proof.
  unfold is_completed_status. rewrite orb_false_iff, !String.eqb_neq. tauto.
Qed.

(** ** The final decisions *)

Lemma copy_finalize_invariant j w :
  completed_iff_success AzCopyJobInfo.completed
    AzCopyJobInfo.final_job_status_msg (fst (copy_finalize j w))
  /\ snd (copy_finalize j w) = w.
Proof.
  unfold copy_finalize.
  destruct (is_completed_status (AzCopyJobInfo.final_job_status_msg j)) eqn:E.
  - simpl. apply is_completed_status_true in E. tauto.
  - apply is_completed_status_false in E.
    destruct (0 <? AzCopyJobInfo.number_of_transfers_failed j)%Z; simpl; tauto.
Qed.

Lemma sync_finalize_invariant j w :
  completed_iff_success AzSyncJobInfo.completed
    AzSyncJobInfo.final_job_status_msg (fst (sync_finalize j w))
  /\ snd (sync_finalize j w) = w.
Proof.
  unfold sync_finalize.
  destruct (is_completed_status (AzSyncJobInfo.final_job_status_msg j)) eqn:E.
  - simpl. apply is_completed_status_true in E. tauto.
  - apply is_completed_status_false in E.
    destruct (0 <? AzSyncJobInfo.number_of_copy_transfers_failed j)%Z; simpl; tauto.
Qed.

Lemma remove_finalize_invariant j w :
  completed_iff_success AzRemoveJobInfo.completed
    AzRemoveJobInfo.final_job_status_msg (fst (remove_finalize j w))
  /\ snd (remove_finalize j w) = w.
Proof.
  unfold remove_finalize.
  destruct (is_completed_status (AzRemoveJobInfo.final_job_status_msg j)) eqn:E.
  - simpl. apply is_completed_status_true in E. tauto.
  - apply is_completed_status_false in E.
    destruct (0 <? AzRemoveJobInfo.number_of_removals_failed j)%Z; simpl; tauto.
Qed.

(** Each interpreter either hands a record to the final decision or
    raises before a record exists. *)
Lemma copy_interpret_cases env self src dest opts w :
  (exists j w1, copy_interpret env self src dest opts w = (Returned j, w1))
  \/ copy_interpret env self src dest opts w
     = (Raised "SAS token is expired" None, w).
Proof.
  destruct (str_cases unit env w src) as [[Hs _] | [Hs _]];
    [destruct (str_cases unit env w dest) as [[Hd _] | [Hd _]] |].
  - left. eexists. eexists. now apply copy_interpret_renders.
  - right. apply copy_interpret_blocked. tauto.
  - right. apply copy_interpret_blocked. tauto.
Qed.

Lemma sync_interpret_cases env self src dest opts w :
  (exists j w1, sync_interpret env self src dest opts w = (Returned j, w1))
  \/ sync_interpret env self src dest opts w
     = (Raised "SAS token is expired" None, w).
Proof.
  destruct (str_cases unit env w src) as [[Hs _] | [Hs _]];
    [destruct (str_cases unit env w dest) as [[Hd _] | [Hd _]] |].
  - left. eexists. eexists. now apply sync_interpret_renders.
  - right. apply sync_interpret_blocked. tauto.
  - right. apply sync_interpret_blocked. tauto.
Qed.

Lemma remove_interpret_cases env self location r w :
  (exists j w1, remove_interpret env self location r w = (Returned j, w1))
  \/ remove_interpret env self location r w
     = (Raised "SAS token is expired" None, w).
Proof.
  destruct (remote_str_cases unit env w location) as [[Hs _] | [Hs _]].
  - left. eexists. eexists. now apply remove_interpret_renders.
  - right. now apply remove_interpret_blocked.
Qed.

(** The loop of list prints a prefix of the lines and never raises. *)
Lemma list_loop_returns (J : Type) ls : forall acc w,
  exists out printed,
    @list_loop J ls acc w
    = (Returned out, mkWorld (now w) (trace w ++ map Print printed)
                       (remove_options w)).
Proof.
  induction ls as [| l ls IH]; intros acc w; simpl.
  - exists (acc, None), []. unfold ret. simpl. rewrite app_nil_r. now destruct w.
  - run. destruct (PyStr.contains "AuthenticationFailed" l).
    + eexists. exists [l]. reflexivity.
    + destruct (IH (acc ++ [PyStr.rstrip l])%list
                  (mkWorld (now w) (trace w ++ [Print l]) (remove_options w)))
        as (out & printed & E).
      exists out, (l :: printed). rewrite E. simpl. now rewrite <- app_assoc.
Qed.


Lemma list_except_invariant e j w :
  AzListJobInfo.final_job_status_msg j = "" ->
  completed_iff_success AzListJobInfo.completed
    AzListJobInfo.final_job_status_msg (fst (list_except e j w)).
Proof.
  intro H. unfold list_except, raise. simpl.
  destruct (String.eqb (AzListJobInfo.error_msg j) ""); simpl; rewrite H;
    repeat split; discriminate.
Qed.

(* ================================================================== *)
(** * The properties of the specification *)
(* ================================================================== *)

(** C1, as stated, fails: with the terminal status [Completed] and a
    parsed [number_of_transfers_failed] of 2, the copy returns a record
    with [completed = True] and raises nothing. *)
Lemma copy_completed_status_hides_failed_transfers :
  exists j w',
    _copy (Sample.env (Sample.copy_stream_with_failures "Completed"))
      Sample.client (RemoteSAS (Sample.remote "se=100"))
      (LocalPath (Sample.local "/data")) Sample.copy_options (Sample.world 10)
    = (Returned j, w')
    /\ AzCopyJobInfo.final_job_status_msg j = "Completed"
    /\ AzCopyJobInfo.number_of_transfers_failed j = 2%Z
    /\ AzCopyJobInfo.completed j = true
    /\ AzCopyJobInfo.error_msg j = "".
Proof.
  eexists. eexists. split; [vm_compute; reflexivity |].
  repeat split.
Qed.

(** C1, amended.  Let [j] be the record that the summary parser hands to
    the final decision of a copy.  When its status is one of the two
    success statuses the call returns [j] with [completed = True],
    whatever the failure counter says.  When its status is neither and
    [number_of_transfers_failed] is [n > 0], the call raises; the message
    is [error_msg] followed by [; Tranfers failed = n], and the record has
    [completed = False]. *)
Theorem copy_failed_transfers_raise env self src dest opts w j w1 :
  copy_interpret env self src dest opts w = (Returned j, w1) ->
  (is_completed_status (AzCopyJobInfo.final_job_status_msg j) = true ->
   _copy env self src dest opts w
   = (Returned (AzCopyJobInfo.set_completed true j), w1))
  /\ (forall n,
         AzCopyJobInfo.final_job_status_msg j <> "Completed" ->
         AzCopyJobInfo.final_job_status_msg j <> "CompletedWithSkipped" ->
         AzCopyJobInfo.number_of_transfers_failed j = n -> (0 < n)%Z ->
         exists j',
           _copy env self src dest opts w
           = (Raised (AzCopyJobInfo.error_msg j') (Some j'), w1)
           /\ AzCopyJobInfo.error_msg j'
              = AzCopyJobInfo.error_msg j ++ "; Tranfers failed = " ++ PyStr.of_Z n
           /\ PyStr.contains ("Tranfers failed = " ++ PyStr.of_Z n)
                (AzCopyJobInfo.error_msg j') = true
           /\ AzCopyJobInfo.completed j' = false).
Proof.
  intro E. unfold _copy, bind. rewrite E. unfold copy_finalize. split.
  - intro H. now rewrite H.
  - intros n H1 H2 Hn Hpos.
    assert (Hs : is_completed_status (AzCopyJobInfo.final_job_status_msg j) = false)
      by now apply is_completed_status_false.
    rewrite Hs, Hn. apply Z.ltb_lt in Hpos. rewrite Hpos.
    eexists. split; [reflexivity |]. simpl. repeat split.
    exact (contains_after ("Tranfers failed = " ++ PyStr.of_Z n)
             (AzCopyJobInfo.error_msg j) "; ").
Qed.

(** A run of C1 as amended: under [CompletedWithErrors] and two failed
    transfers the copy raises with [; Tranfers failed = 2]. *)
Lemma copy_failed_transfers_raise_witness :
  exists j' w',
    _copy (Sample.env (Sample.copy_stream_with_failures "CompletedWithErrors"))
      Sample.client (RemoteSAS (Sample.remote "se=100"))
      (LocalPath (Sample.local "/data")) Sample.copy_options (Sample.world 10)
    = (Raised (AzCopyJobInfo.error_msg j') (Some j'), w')
    /\ AzCopyJobInfo.error_msg j' = "; Tranfers failed = 2"
    /\ PyStr.contains "Tranfers failed = 2" (AzCopyJobInfo.error_msg j') = true
    /\ AzCopyJobInfo.completed j' = false.
Proof.
  edestruct (@copy_failed_transfers_raise
               (Sample.env (Sample.copy_stream_with_failures "CompletedWithErrors"))
               Sample.client (RemoteSAS (Sample.remote "se=100"))
               (LocalPath (Sample.local "/data")) Sample.copy_options
               (Sample.world 10)) as [_ H].
  - vm_compute. reflexivity.
  - destruct (H 2%Z) as (j' & E & Hmsg & Hin & Hc);
      [vm_compute; discriminate | vm_compute; discriminate
       | reflexivity | lia |].
    exists j'. eexists. split; [exact E |].
    split; [exact Hmsg |]. split; [exact Hin | exact Hc].
Defined.

(** C9.  When the local side [missing] of a sync does not exist on disk,
    [sync_to_local_location] (where it is the destination) and
    [sync_to_remote_location] (where it is the source) raise at once: the
    world after the call is the world before it, so the line source was
    never invoked and nothing was printed, and no job record exists. *)
Theorem sync_requires_local_path env self other missing opts w :
  os_path_exists env (path_of missing) = false ->
  sync_to_local_location env self other missing opts w
  = (Raised (does_not_exist (path_of missing)) None, w)
  /\ sync_to_remote_location env self missing other opts w
     = (Raised (does_not_exist (path_of missing)) None, w).
Proof.
  intro H. unfold sync_to_local_location, sync_to_remote_location.
  rewrite H. split; reflexivity.
Qed.

Lemma sync_requires_local_path_witness :
  sync_to_local_location (Sample.env Sample.quiet_stream) Sample.client
    (RemoteSAS (Sample.remote "se=100")) (LocalPath (Sample.local "/nowhere"))
    Sample.sync_options (Sample.world 10)
  = (Raised
       "/nowhere does not exist. For sync operation, the given path needs to exist"
       None, Sample.world 10)
  /\ sync_to_remote_location (Sample.env Sample.quiet_stream) Sample.client
       (LocalPath (Sample.local "/nowhere")) (RemoteSAS (Sample.remote "se=100"))
       Sample.sync_options (Sample.world 10)
     = (Raised
          "/nowhere does not exist. For sync operation, the given path needs to exist"
          None, Sample.world 10).
Proof.
  apply (@sync_requires_local_path (Sample.env Sample.quiet_stream)
           Sample.client (RemoteSAS (Sample.remote "se=100"))
           (LocalPath (Sample.local "/nowhere")) Sample.sync_options
           (Sample.world 10)).
  reflexivity.
Defined.

(** On an existing path the same call does reach the line source. *)
Example sync_existing_path_spawns :
  trace (snd (sync_to_local_location (Sample.env Sample.quiet_stream)
                Sample.client (RemoteSAS (Sample.remote "se=100"))
                (LocalPath (Sample.local "/data")) Sample.sync_options
                (Sample.world 10)))
  = [Spawn ["azcopy"; "sync";
            "https://acct.blob.core.windows.net/box/dir/?se=100"; "/data"]].
Proof. reflexivity. Qed.

(** The guard of the two methods: the empty token is never submitted to
    the expiry predicate, so a location that carries it is constructed
    and rendered whatever the predicate is. *)
Lemma empty_token_is_not_submitted (J : Type) env w
    storage_account container path use_wildcard location_type :
  @AzRemoteSASLocation.__init__ J env storage_account container path
    use_wildcard "" location_type w
  = (Returned (AzRemoteSASLocation.mk storage_account container path
                 use_wildcard "" location_type), w)
  /\ @AzRemoteSASLocation.__str__ J env
       (AzRemoteSASLocation.mk storage_account container path
          use_wildcard "" location_type) w
     = (Returned (AzRemoteSASLocation.url
                    (AzRemoteSASLocation.mk storage_account container path
                       use_wildcard "" location_type)), w).
Proof. split; reflexivity. Qed.

(** C8.  Let the expiry predicate not report the empty text, which is
    the one text that the two methods never submit to it, as expired.
    Then for every token that the predicate reports as expired now,
    constructing a location with it raises, and so does [str] on a
    location that carries it: no URL is returned.  The four private
    methods raise on such a location with the world untouched, that is
    before any process is spawned. *)
Theorem expired_token_never_renders (J : Type) env w token :
  is_sas_token_session_expired env (now w) "" = false ->
  is_sas_token_session_expired env (now w) token = true ->
  (forall storage_account container path use_wildcard location_type,
      @AzRemoteSASLocation.__init__ J env storage_account container path
        use_wildcard token location_type w
      = (Raised "SAS token is expired" None, w))
  /\ (forall location,
         AzRemoteSASLocation.sas_token location = token ->
         @AzRemoteSASLocation.__str__ J env location w
         = (Raised "SAS token is expired" None, w)
         /\ (forall self r,
                _remove env self location r w
                = (Raised "SAS token is expired" None, w))
         /\ (forall self opts,
                _list env self location opts w
                = (Raised "SAS token is expired" None, w))
         /\ (forall self src dest copy_opts sync_opts,
                src = RemoteSAS location \/ dest = RemoteSAS location ->
                _copy env self src dest copy_opts w
                = (Raised "SAS token is expired" None, w)
                /\ _sync env self src dest sync_opts w
                   = (Raised "SAS token is expired" None, w))).
Proof.
  intros Hempty Hexp.
  assert (Hne : token <> "") by (intros ->; congruence).
  split.
  - intros. unfold AzRemoteSASLocation.__init__. run.
    apply len_pos_iff in Hne. now rewrite Hne, Hexp.
  - intros location Htok.
    assert (Hno : ~ renders env w location).
    { unfold renders. rewrite Htok. intros [H | H]; congruence. }
    assert (Hstr : forall K, @AzRemoteSASLocation.__str__ K env location w
                             = (Raised "SAS token is expired" None, w)).
    { intro K. apply remote_str_expired; now rewrite Htok. }
    split; [apply Hstr |]. split; [| split].
    + intros. unfold _remove, bind.
      now rewrite (@remove_interpret_blocked env self location r w Hno).
    + intros. unfold _list, bind. now rewrite Hstr.
    + intros self src dest copy_opts sync_opts Hloc.
      assert (Hb : ~ (renders_loc env w src /\ renders_loc env w dest)).
      { intros [Hs Hd]. destruct Hloc; subst; simpl in *; contradiction. }
      split.
      * unfold _copy, bind.
        now rewrite (@copy_interpret_blocked env self src dest copy_opts w Hb).
      * unfold _sync, bind.
        now rewrite (@sync_interpret_blocked env self src dest sync_opts w Hb).
Qed.

Lemma expired_token_never_renders_witness :
  @AzRemoteSASLocation.__init__ unit (Sample.env Sample.quiet_stream)
    "acct" "box" "dir/" false "se=100" None (Sample.world 200)
  = (Raised "SAS token is expired" None, Sample.world 200)
  /\ @AzRemoteSASLocation.__str__ unit (Sample.env Sample.quiet_stream)
       (Sample.remote "se=100") (Sample.world 200)
     = (Raised "SAS token is expired" None, Sample.world 200).
Proof.
  destruct (@expired_token_never_renders unit (Sample.env Sample.quiet_stream)
              (Sample.world 200) "se=100") as [Hinit Hstr].
  - reflexivity.
  - reflexivity.
  - split.
    + apply Hinit.
    + apply (Hstr (Sample.remote "se=100")). reflexivity.
Defined.

(** ** The world after a remove *)

Lemma remove_finalize_world j w : snd (remove_finalize j w) = w.
Proof. apply remove_finalize_invariant. Qed.

Lemma remove_world_renders env self location r w :
  renders env w location ->
  let cmd := remove_cmd self location (remove_options w r) in
  let s := execute_command env (now w) cmd in
  snd (_remove env self location r w) = ran w cmd (lines s) (elapsed s).
Proof.
  intros H cmd s. unfold _remove, bind.
  rewrite (@remove_interpret_renders env self location r w H).
  apply remove_finalize_world.
Qed.

Lemma remove_world_blocked env self location r w :
  ~ renders env w location ->
  _remove env self location r w = (Raised "SAS token is expired" None, w).
Proof.
  intro H. unfold _remove, bind.
  now rewrite (@remove_interpret_blocked env self location r w H).
Qed.

Lemma recursive_flag_is_emitted (o : AzRemoveOptions.t) :
  AzRemoveOptions.recursive o = true ->
  exists rest, AzRemoveOptions.get_options_list o = "--recursive" :: rest.
Proof.
  intro H. unfold AzRemoveOptions.get_options_list. rewrite H. simpl.
  eexists. reflexivity.
Qed.

(** C10.  [remove_directory_recursive] writes [recursive = True] into
    the caller's own options object [r] before the command is built: in
    the world after the call, whether it returned or raised, the object
    at [r] is the old one with [recursive] set, every other object is as
    before, and the call either raised before spawning (trace unchanged)
    or spawned a command that carries [--recursive].  The write persists:
    a later [remove_from_remote_location] with the same object [r] either
    raises before spawning or spawns a command that carries
    [--recursive]. *)
Theorem remove_directory_recursive_marks_caller_options
    env self location (r : Ref) w :
  let w' := snd (remove_directory_recursive env self location r w) in
  remove_options w' r = AzRemoveOptions.set_recursive true (remove_options w r)
  /\ AzRemoveOptions.recursive (remove_options w' r) = true
  /\ (forall r', r' <> r -> remove_options w' r' = remove_options w r')
  /\ (trace w' = trace w
      \/ exists rest printed,
           trace w'
           = (trace w
              ++ Spawn (exe_to_use self :: "remove"
                          :: AzRemoteSASLocation.url location
                          :: "--recursive" :: rest)
                 :: map Print printed)%list)
  /\ (forall env2 self2 location2,
         let w'' := snd (remove_from_remote_location env2 self2 location2 r w') in
         trace w'' = trace w'
         \/ exists rest printed,
              trace w''
              = (trace w'
                 ++ Spawn (exe_to_use self2 :: "remove"
                             :: AzRemoteSASLocation.url location2
                             :: "--recursive" :: rest)
                    :: map Print printed)%list).
Proof.
  intro w'.
  set (w0 := mkWorld (now w) (trace w)
               (fun r' => if Nat.eqb r' r
                          then AzRemoveOptions.set_recursive true (remove_options w r')
                          else remove_options w r')).
  assert (Hw' : w' = snd (_remove env self location r w0)) by reflexivity.
  assert (Hstore : remove_options w' = remove_options w0).
  { rewrite Hw'.
    destruct (remote_str_cases unit env w0 location) as [[H _] | [H _]].
    - now rewrite (@remove_world_renders env self location r w0 H).
    - now rewrite (@remove_world_blocked env self location r w0 H). }
  assert (Hr : remove_options w' r
               = AzRemoveOptions.set_recursive true (remove_options w r)).
  { rewrite Hstore. simpl. now rewrite Nat.eqb_refl. }
  split; [exact Hr |]. split; [now rewrite Hr |]. split; [| split].
  - intros r' Hne. rewrite Hstore. simpl.
    apply Nat.eqb_neq in Hne. now rewrite Hne.
  - rewrite Hw'.
    destruct (remote_str_cases unit env w0 location) as [[H _] | [H _]].
    + right. rewrite (@remove_world_renders env self location r w0 H).
      destruct (@recursive_flag_is_emitted (remove_options w0 r)) as [rest E].
      { simpl. now rewrite Nat.eqb_refl. }
      unfold ran, remove_cmd. rewrite E. simpl. eexists. eexists. reflexivity.
    + left. now rewrite (@remove_world_blocked env self location r w0 H).
  - intros env2 self2 location2 w''. subst w''.
    unfold remove_from_remote_location.
    destruct (remote_str_cases unit env2 w' location2) as [[H _] | [H _]].
    + right. rewrite (@remove_world_renders env2 self2 location2 r w' H).
      destruct (@recursive_flag_is_emitted (remove_options w' r)) as [rest E].
      { now rewrite Hr. }
      unfold ran, remove_cmd. rewrite E. simpl. eexists. eexists. reflexivity.
    + left. now rewrite (@remove_world_blocked env2 self2 location2 r w' H).
Qed.

(** A run of C10: the caller's object 0 starts as [AzRemoveOptions()];
    the call fails, and the object stays marked; object 1 is untouched,
    and the next removal with object 0 passes [--recursive]. *)
Lemma remove_directory_recursive_marks_caller_options_witness :
  AzRemoveOptions.recursive (remove_options (Sample.world 10) 0) = false
  /\ AzRemoveOptions.recursive
       (remove_options
          (snd (remove_directory_recursive (Sample.env Sample.failing_stream)
                  Sample.client (Sample.remote "se=100") 0 (Sample.world 10)))
          0) = true
  /\ remove_options
       (snd (remove_directory_recursive (Sample.env Sample.failing_stream)
               Sample.client (Sample.remote "se=100") 0 (Sample.world 10)))
       1
     = remove_options (Sample.world 10) 1
  /\ trace (snd (remove_from_remote_location (Sample.env Sample.quiet_stream)
                   Sample.client (Sample.remote "") 0
                   (snd (remove_directory_recursive
                           (Sample.env Sample.failing_stream) Sample.client
                           (Sample.remote "se=100") 0 (Sample.world 10)))))
     = [Spawn ["azcopy"; "remove";
               "https://acct.blob.core.windows.net/box/dir/?se=100";
               "--recursive"];
        Spawn ["azcopy"; "remove";
               "https://acct.blob.core.windows.net/box/dir/?";
               "--recursive"]].
Proof.
  destruct (@remove_directory_recursive_marks_caller_options
              (Sample.env Sample.failing_stream) Sample.client
              (Sample.remote "se=100") 0 (Sample.world 10))
    as (_ & Hrec & Hother & _ & _).
  split; [reflexivity |]. split; [exact Hrec |].
  split; [apply Hother; discriminate | reflexivity].
Defined.

(** ** The loop of list *)

Lemma list_loop_clean (J : Type) ls : forall acc w,
  Forall no_auth_failure ls ->
  @list_loop J ls acc w
  = (Returned ((acc ++ map PyStr.rstrip ls)%list, None),
     mkWorld (now w) (trace w ++ map Print ls) (remove_options w)).
Proof.
  induction ls as [| l ls IH]; intros acc w H; simpl.
  - unfold ret. rewrite !app_nil_r. now destruct w.
  - inversion H as [| ? ? Hl Hls]; subst. run.
    unfold no_auth_failure in Hl. rewrite Hl.
    rewrite IH by assumption. simpl. now rewrite <- !app_assoc.
Qed.

Lemma list_loop_auth_failure (J : Type) pre line post : forall acc w,
  Forall no_auth_failure pre ->
  PyStr.contains "AuthenticationFailed" line = true ->
  @list_loop J (pre ++ line :: post) acc w
  = (Returned ((acc ++ map PyStr.rstrip (pre ++ [line]))%list, Some line),
     mkWorld (now w) (trace w ++ map Print (pre ++ [line])) (remove_options w)).
Proof.
  induction pre as [| l pre IH]; intros acc w H Hline; simpl.
  - run. now rewrite Hline.
  - inversion H as [| ? ? Hl Hpre]; subst. run.
    unfold no_auth_failure in Hl. rewrite Hl.
    rewrite IH by assumption. simpl. now rewrite <- !app_assoc.
Qed.

(** C7.  In a listing whose location renders, let [line] be the first
    line of the stream that contains [AuthenticationFailed].  The call
    raises with [line] as its message; the record has [error_msg = line],
    [completed = False] and an empty [output_text]; and the trace ends
    with the echo of [line]: whatever the stream holds after it ([post],
    or a later failure) is never consumed and changes nothing. *)
Theorem list_authentication_failure_halts
    env self location opts w pre line post :
  renders env w location ->
  lines (execute_command env (now w) (list_cmd self location opts))
  = (pre ++ line :: post)%list ->
  Forall (fun l => PyStr.contains "AuthenticationFailed" l = false) pre ->
  PyStr.contains "AuthenticationFailed" line = true ->
  exists w',
    _list env self location opts w
    = (Raised line (Some (AzListJobInfo.mk line "" false "" [])), w')
    /\ trace w'
       = (trace w ++ Spawn (list_cmd self location opts)
                     :: map Print (pre ++ [line]))%list.
Proof.
  intros Hr Hlines Hpre Hline.
  assert (Hne : String.eqb line "" = false).
  { destruct line; [discriminate Hline | reflexivity]. }
  unfold _list, bind at 1. rewrite (@remote_str_renders _ _ _ _ Hr).
  unfold bind at 1, spawn at 1. fold (list_cmd self location opts).
  simpl now. unfold bind at 1. rewrite Hlines.
  rewrite (@list_loop_auth_failure AzListJobInfo.t pre line post [] _ Hpre Hline).
  unfold bind at 1, advance at 1, list_except, raise. simpl.
  rewrite Hne. simpl. eexists. split; [reflexivity |].
  simpl. now rewrite <- app_assoc.
Qed.

Lemma list_authentication_failure_halts_witness :
  exists w',
    _list (Sample.env Sample.list_stream_with_auth_failure) Sample.client
      (Sample.remote "se=100") (Sample.list_options "text") (Sample.world 10)
    = (Raised (Sample.line "RESPONSE 403: AuthenticationFailed")
         (Some (AzListJobInfo.mk
                  (Sample.line "RESPONSE 403: AuthenticationFailed")
                  "" false "" [])), w')
    /\ trace w'
       = [Spawn ["azcopy"; "list";
                 "https://acct.blob.core.windows.net/box/dir/?se=100"];
          Print (Sample.line "INFO: Scanning...");
          Print (Sample.line "RESPONSE 403: AuthenticationFailed")].
Proof.
  apply (@list_authentication_failure_halts
           (Sample.env Sample.list_stream_with_auth_failure) Sample.client
           (Sample.remote "se=100") (Sample.list_options "text")
           (Sample.world 10)
           [Sample.line "INFO: Scanning..."]
           (Sample.line "RESPONSE 403: AuthenticationFailed")
           [Sample.line "INFO: never read"]).
  - right. reflexivity.
  - reflexivity.
  - repeat constructor.
  - reflexivity.
Defined.

(** ** The outcome and the terminal status *)

(** Either no line reports an authentication failure, or there is a
    first one that does. *)
Lemma first_auth_failure (ls : list string) :
  Forall no_auth_failure ls
  \/ exists pre line post,
       ls = (pre ++ line :: post)%list
       /\ Forall no_auth_failure pre
       /\ PyStr.contains "AuthenticationFailed" line = true.
Proof.
  induction ls as [| l ls [IH | (pre & line & post & -> & Hpre & Hline)]].
  - left. constructor.
  - destruct (PyStr.contains "AuthenticationFailed" l) eqn:E.
    + right. exists [], l, ls. repeat split; [constructor | exact E].
    + left. now constructor.
  - destruct (PyStr.contains "AuthenticationFailed" l) eqn:E.
    + right. exists [], l, (pre ++ line :: post)%list.
      repeat split; [constructor | exact E].
    + right. exists (l :: pre), line, post. repeat split; [| exact Hline].
      now constructor.
Qed.

Lemma copy_decides env self src dest opts w :
  decides_on_status AzCopyJobInfo.final_job_status_msg AzCopyJobInfo.completed
    (AzCopyJobInfo.set_completed true)
    (copy_interpret env self src dest opts) (_copy env self src dest opts) w.
Proof.
  unfold decides_on_status, _copy, bind.
  destruct (copy_interpret env self src dest opts w) as [[j | msg job] w1];
    [| reflexivity].
  unfold copy_finalize. split.
  - intro H. apply is_completed_status_true in H. now rewrite H.
  - intros H1 H2.
    assert (Hs : is_completed_status (AzCopyJobInfo.final_job_status_msg j) = false)
      by now apply is_completed_status_false.
    rewrite Hs.
    destruct (0 <? AzCopyJobInfo.number_of_transfers_failed j)%Z;
      eexists; eexists; (split; [reflexivity |]); split; reflexivity.
Qed.

Lemma sync_decides env self src dest opts w :
  decides_on_status AzSyncJobInfo.final_job_status_msg AzSyncJobInfo.completed
    (AzSyncJobInfo.set_completed true)
    (sync_interpret env self src dest opts) (_sync env self src dest opts) w.
Proof.
  unfold decides_on_status, _sync, bind.
  destruct (sync_interpret env self src dest opts w) as [[j | msg job] w1];
    [| reflexivity].
  unfold sync_finalize. split.
  - intro H. apply is_completed_status_true in H. now rewrite H.
  - intros H1 H2.
    assert (Hs : is_completed_status (AzSyncJobInfo.final_job_status_msg j) = false)
      by now apply is_completed_status_false.
    rewrite Hs.
    destruct (0 <? AzSyncJobInfo.number_of_copy_transfers_failed j)%Z;
      eexists; eexists; (split; [reflexivity |]); split; reflexivity.
Qed.

Lemma remove_decides env self location r w :
  decides_on_status AzRemoveJobInfo.final_job_status_msg
    AzRemoveJobInfo.completed (AzRemoveJobInfo.set_completed true)
    (remove_interpret env self location r) (_remove env self location r) w.
Proof.
  unfold decides_on_status, _remove, bind.
  destruct (remove_interpret env self location r w) as [[j | msg job] w1];
    [| reflexivity].
  unfold remove_finalize. split.
  - intro H. apply is_completed_status_true in H. now rewrite H.
  - intros H1 H2.
    assert (Hs : is_completed_status (AzRemoveJobInfo.final_job_status_msg j)
                 = false)
      by now apply is_completed_status_false.
    rewrite Hs.
    destruct (0 <? AzRemoveJobInfo.number_of_removals_failed j)%Z;
      eexists; eexists; (split; [reflexivity |]); split; reflexivity.
Qed.

(** The two ways in which a listing ends once its location renders. *)
Lemma list_returns env self location opts w :
  renders env w location ->
  failure (execute_command env (now w) (list_cmd self location opts)) = None ->
  Forall no_auth_failure
    (lines (execute_command env (now w) (list_cmd self location opts))) ->
  exists j w',
    _list env self location opts w = (Returned j, w')
    /\ AzListJobInfo.completed j = true
    /\ AzListJobInfo.final_job_status_msg j = "Completed".
Proof.
  intros Hr Hfail Hauth.
  unfold _list, bind at 1. rewrite (@remote_str_renders _ _ _ _ Hr).
  unfold bind at 1, spawn at 1. fold (list_cmd self location opts). simpl now.
  set (s := execute_command env (now w) (list_cmd self location opts)) in *.
  unfold bind at 1.
  rewrite (@list_loop_clean AzListJobInfo.t (lines s) [] _ Hauth).
  unfold bind at 1, advance at 1. simpl. rewrite Hfail.
  unfold ret. eexists. eexists. split; [reflexivity |]. split; reflexivity.
Qed.

Lemma list_raises env self location opts w :
  renders env w location ->
  failure (execute_command env (now w) (list_cmd self location opts)) <> None
  \/ Exists (fun l => PyStr.contains "AuthenticationFailed" l = true)
       (lines (execute_command env (now w) (list_cmd self location opts))) ->
  exists msg j w',
    _list env self location opts w = (Raised msg (Some j), w')
    /\ AzListJobInfo.completed j = false
    /\ AzListJobInfo.final_job_status_msg j = "".
Proof.
  intros Hr Hbad.
  unfold _list, bind at 1. rewrite (@remote_str_renders _ _ _ _ Hr).
  unfold bind at 1, spawn at 1. fold (list_cmd self location opts). simpl now.
  set (s := execute_command env (now w) (list_cmd self location opts)) in *.
  unfold bind at 1.
  destruct (first_auth_failure (lines s))
    as [Hclean | (pre & line & post & E & Hpre & Hline)].
  - rewrite (@list_loop_clean AzListJobInfo.t (lines s) [] _ Hclean).
    unfold bind at 1, advance at 1. simpl.
    destruct (failure s) as [e |] eqn:Hfail.
    + unfold list_except, raise. simpl. eexists. eexists. eexists.
      split; [reflexivity |]. split; reflexivity.
    + exfalso. destruct Hbad as [Hbad | Hbad]; [now apply Hbad |].
      apply Exists_exists in Hbad as (l & Hin & Hl).
      rewrite Forall_forall in Hclean. specialize (Hclean l Hin).
      unfold no_auth_failure in Hclean. congruence.
  - rewrite E.
    rewrite (@list_loop_auth_failure AzListJobInfo.t pre line post [] _
               Hpre Hline).
    unfold bind at 1, advance at 1, list_except, raise. simpl.
    assert (Hne : String.eqb line "" = false).
    { destruct line; [discriminate Hline | reflexivity]. }
    rewrite Hne. simpl. eexists. eexists. eexists.
    split; [reflexivity |]. split; reflexivity.
Qed.

(** C2.  For each of copy, sync and remove the outcome is decided by the
    status of the record that reaches the final decision, compared as a
    whole text with [Completed] and [CompletedWithSkipped]: with one of
    the two the call returns that record with [completed = True]; with
    any other status, one that merely starts with [Completed] included,
    the call raises and the record of the raise has [completed = False]
    and the same status; when the command could not be built the call
    raises without a record.  A listing whose location renders returns,
    with [completed = True] and the status [Completed], exactly when its
    stream ends without a failure and without a line that reports an
    authentication failure; otherwise it raises and its record has
    [completed = False] and an empty status.  So for every record that
    comes out of the four methods, [completed = True] holds exactly when
    the record is returned, and exactly when its status is one of the two
    texts. *)
Theorem completed_exactly_on_success_status env self :
  (forall src dest opts w,
      completed_iff_success AzCopyJobInfo.completed
        AzCopyJobInfo.final_job_status_msg
        (fst (_copy env self src dest opts w))
      /\ decides_on_status AzCopyJobInfo.final_job_status_msg
           AzCopyJobInfo.completed (AzCopyJobInfo.set_completed true)
           (copy_interpret env self src dest opts)
           (_copy env self src dest opts) w)
  /\ (forall src dest opts w,
         completed_iff_success AzSyncJobInfo.completed
           AzSyncJobInfo.final_job_status_msg
           (fst (_sync env self src dest opts w))
         /\ decides_on_status AzSyncJobInfo.final_job_status_msg
              AzSyncJobInfo.completed (AzSyncJobInfo.set_completed true)
              (sync_interpret env self src dest opts)
              (_sync env self src dest opts) w)
  /\ (forall location r w,
         completed_iff_success AzRemoveJobInfo.completed
           AzRemoveJobInfo.final_job_status_msg
           (fst (_remove env self location r w))
         /\ decides_on_status AzRemoveJobInfo.final_job_status_msg
              AzRemoveJobInfo.completed (AzRemoveJobInfo.set_completed true)
              (remove_interpret env self location r)
              (_remove env self location r) w)
  /\ (forall location opts w,
         completed_iff_success AzListJobInfo.completed
           AzListJobInfo.final_job_status_msg
           (fst (_list env self location opts w))
         /\ (renders env w location ->
             failure (execute_command env (now w) (list_cmd self location opts))
             = None ->
             Forall (fun l => PyStr.contains "AuthenticationFailed" l = false)
               (lines (execute_command env (now w)
                         (list_cmd self location opts))) ->
             exists j w',
               _list env self location opts w = (Returned j, w')
               /\ AzListJobInfo.completed j = true
               /\ AzListJobInfo.final_job_status_msg j = "Completed")
         /\ (renders env w location ->
             failure (execute_command env (now w) (list_cmd self location opts))
             <> None
             \/ Exists (fun l => PyStr.contains "AuthenticationFailed" l = true)
                  (lines (execute_command env (now w)
                            (list_cmd self location opts))) ->
             exists msg j w',
               _list env self location opts w = (Raised msg (Some j), w')
               /\ AzListJobInfo.completed j = false
               /\ AzListJobInfo.final_job_status_msg j = "")
         /\ (~ renders env w location ->
             _list env self location opts w
             = (Raised "SAS token is expired" None, w))).
Proof.
  split; [| split; [| split]].
  - intros src dest opts w. split; [| apply copy_decides].
    unfold _copy, bind.
    destruct (copy_interpret_cases env self src dest opts w)
      as [(j & w1 & E) | E]; rewrite E; [| exact I].
    apply copy_finalize_invariant.
  - intros src dest opts w. split; [| apply sync_decides].
    unfold _sync, bind.
    destruct (sync_interpret_cases env self src dest opts w)
      as [(j & w1 & E) | E]; rewrite E; [| exact I].
    apply sync_finalize_invariant.
  - intros location r w. split; [| apply remove_decides].
    unfold _remove, bind.
    destruct (remove_interpret_cases env self location r w)
      as [(j & w1 & E) | E]; rewrite E; [| exact I].
    apply remove_finalize_invariant.
  - intros location opts w.
    split; [| split; [| split]].
    + destruct (remote_str_cases AzListJobInfo.t env w location)
        as [[Hr _] | [_ E]].
      * destruct (first_auth_failure
                    (lines (execute_command env (now w)
                              (list_cmd self location opts))))
          as [Hclean | (pre & line & post & E & Hpre & Hline)].
        -- destruct (failure (execute_command env (now w)
                                (list_cmd self location opts))) eqn:Hfail.
           ++ destruct (@list_raises env self location opts w Hr)
                as (msg & j & w' & -> & Hc & Hs).
              { left. congruence. }
              simpl. rewrite Hs. repeat split; [exact Hc | |]; discriminate.
           ++ destruct (@list_returns env self location opts w Hr Hfail Hclean)
                as (j & w' & -> & Hc & Hs).
              simpl. split; [exact Hc | now left].
        -- destruct (@list_raises env self location opts w Hr)
             as (msg & j & w' & -> & Hc & Hs).
           { right. rewrite E. apply Exists_app. right. now constructor. }
           simpl. rewrite Hs. repeat split; [exact Hc | |]; discriminate.
      * unfold _list, bind. rewrite E. exact I.
    + intros Hr Hfail Hclean.
      now apply (@list_returns env self location opts w Hr Hfail).
    + intros Hr Hbad. now apply (@list_raises env self location opts w Hr).
    + intro Hno. unfold _list, bind.
      destruct (remote_str_cases AzListJobInfo.t env w location)
        as [[Hr _] | [_ E]]; [contradiction | now rewrite E].
Qed.

(** A run of C2: under the status [CompletedWithErrors], which starts
    with [Completed], a sync raises and its record is not completed. *)
Lemma completed_exactly_on_success_status_witness :
  exists msg j' w1,
    _sync (Sample.env (Sample.copy_stream_with_failures "CompletedWithErrors"))
      Sample.client (LocalPath (Sample.local "/data"))
      (RemoteSAS (Sample.remote "se=100")) Sample.sync_options (Sample.world 10)
    = (Raised msg (Some j'), w1)
    /\ AzSyncJobInfo.completed j' = false
    /\ AzSyncJobInfo.final_job_status_msg j' = "CompletedWithErrors".
Proof.
  pose proof (proj2 (proj1 (proj2
    (@completed_exactly_on_success_status
       (Sample.env (Sample.copy_stream_with_failures "CompletedWithErrors"))
       Sample.client))
    (LocalPath (Sample.local "/data")) (RemoteSAS (Sample.remote "se=100"))
    Sample.sync_options (Sample.world 10))) as H.
  unfold decides_on_status in H.
  destruct (sync_interpret
              (Sample.env (Sample.copy_stream_with_failures "CompletedWithErrors"))
              Sample.client (LocalPath (Sample.local "/data"))
              (RemoteSAS (Sample.remote "se=100")) Sample.sync_options
              (Sample.world 10)) as [[j | msg job] w1] eqn:E;
    [| vm_compute in E; discriminate E].
  assert (Hs : AzSyncJobInfo.final_job_status_msg j = "CompletedWithErrors").
  { vm_compute in E. injection E as <- _. reflexivity. }
  destruct H as [_ H].
  destruct H as (msg & j' & Hrun & Hc & Hst).
  - rewrite Hs. discriminate.
  - rewrite Hs. discriminate.
  - exists msg, j', w1. split; [exact Hrun |]. split; [exact Hc |].
    now rewrite Hst.
Defined.

(** C4, as stated, fails: the stream fails, the token of the location has
    expired by then, and the record of the raise does not carry the bare
    text [SAS token is expired] but that text with the fragment of the
    final decision appended. *)
Lemma remove_expired_token_message_is_extended :
  renders (Sample.env Sample.failing_stream) (Sample.world 10)
    (Sample.remote "se=100")
  /\ failure Sample.failing_stream = Some "boom"
  /\ is_sas_token_session_expired (Sample.env Sample.failing_stream)
       (now (Sample.world 10) + elapsed Sample.failing_stream) "se=100" = true
  /\ exists j w',
       _remove (Sample.env Sample.failing_stream) Sample.client
         (Sample.remote "se=100") 0 (Sample.world 10)
       = (Raised "SAS token is expired; Error while removing data" (Some j), w')
       /\ AzRemoveJobInfo.error_msg j
          = "SAS token is expired; Error while removing data"
       /\ AzRemoveJobInfo.error_msg j <> "SAS token is expired"
       /\ AzRemoveJobInfo.completed j = false.
Proof.
  split; [right; reflexivity |]. split; [reflexivity |]. split; [reflexivity |].
  eexists. eexists. split; [vm_compute; reflexivity |].
  split; [reflexivity |]. split; [discriminate | reflexivity].
Qed.

(** C4, amended.  In a remove whose location renders, let the line
    source raise mid-stream and let the expiry predicate report the token
    of the location as expired at that moment.  Then the record [j0] that
    the [except] clause hands to the summary parser has exactly
    [error_msg = SAS token is expired] and [completed = False].  If the
    parser keeps [error_msg] and the parsed status is neither [Completed]
    nor [CompletedWithSkipped], the call raises; its record has
    [completed = False] and its [error_msg], which is the message of the
    raise, is [SAS token is expired] followed by [; Removals failed = n]
    for [n > 0] parsed failures and by [; Error while removing data]
    otherwise. *)
Theorem remove_expired_token_midstream env self location r w e :
  renders env w location ->
  failure (execute_command env (now w)
             (remove_cmd self location (remove_options w r))) = Some e ->
  is_sas_token_session_expired env
    (now w + elapsed (execute_command env (now w)
                        (remove_cmd self location (remove_options w r))))
    (AzRemoteSASLocation.sas_token location) = true ->
  exists j0 captured w1,
    remove_interpret env self location r w
    = (Returned (get_remove_summary_info env j0 captured), w1)
    /\ AzRemoveJobInfo.error_msg j0 = "SAS token is expired"
    /\ AzRemoveJobInfo.completed j0 = false
    /\ (let j1 := get_remove_summary_info env j0 captured in
        AzRemoveJobInfo.error_msg j1 = AzRemoveJobInfo.error_msg j0 ->
        AzRemoveJobInfo.final_job_status_msg j1 <> "Completed" ->
        AzRemoveJobInfo.final_job_status_msg j1 <> "CompletedWithSkipped" ->
        exists j',
          _remove env self location r w
          = (Raised (AzRemoveJobInfo.error_msg j') (Some j'), w1)
          /\ AzRemoveJobInfo.completed j' = false
          /\ AzRemoveJobInfo.error_msg j'
             = "SAS token is expired"
               ++ (if (0 <? AzRemoveJobInfo.number_of_removals_failed j1)%Z
                   then "; Removals failed = "
                        ++ PyStr.of_Z (AzRemoveJobInfo.number_of_removals_failed j1)
                   else "; Error while removing data")).
Proof.
  intros Hr Hfail Hexp.
  pose proof (@remove_interpret_renders env self location r w Hr) as E.
  cbv zeta in E.
  set (s := execute_command env (now w)
              (remove_cmd self location (remove_options w r))) in *.
  exists (remove_before_parser env location (now w) s).
  eexists. eexists. split; [exact E |].
  assert (Hmsg : AzRemoveJobInfo.error_msg
                   (remove_before_parser env location (now w) s)
                 = "SAS token is expired").
  { unfold remove_before_parser. rewrite Hfail, Hexp. reflexivity. }
  split; [exact Hmsg |]. split.
  { unfold remove_before_parser. now rewrite Hfail. }
  intros j1 Hkeep H1 H2. unfold _remove, bind. rewrite E. fold j1.
  unfold remove_finalize.
  assert (Hs : is_completed_status (AzRemoveJobInfo.final_job_status_msg j1) = false)
    by now apply is_completed_status_false.
  rewrite Hs. rewrite Hmsg in Hkeep.
  destruct (0 <? AzRemoveJobInfo.number_of_removals_failed j1)%Z;
    eexists; (split; [reflexivity |]); simpl; rewrite Hkeep; split; reflexivity.
Qed.

Lemma remove_expired_token_midstream_witness :
  exists j' w1,
    _remove (Sample.env Sample.failing_stream) Sample.client
      (Sample.remote "se=100") 0 (Sample.world 10)
    = (Raised (AzRemoveJobInfo.error_msg j') (Some j'), w1)
    /\ AzRemoveJobInfo.completed j' = false
    /\ AzRemoveJobInfo.error_msg j'
       = "SAS token is expired; Error while removing data".
Proof.
  destruct (@remove_expired_token_midstream
              (Sample.env Sample.failing_stream) Sample.client
              (Sample.remote "se=100") 0 (Sample.world 10) "boom")
    as (j0 & captured & w1 & E & Hmsg & Hc & Hfinal).
  - right. reflexivity.
  - reflexivity.
  - reflexivity.
  - assert (Ec : exists R W,
               remove_interpret (Sample.env Sample.failing_stream) Sample.client
                 (Sample.remote "se=100") 0 (Sample.world 10)
               = (Returned R, W)
               /\ AzRemoveJobInfo.error_msg R = "SAS token is expired"
               /\ AzRemoveJobInfo.final_job_status_msg R = ""
               /\ AzRemoveJobInfo.number_of_removals_failed R = 0%Z).
    { eexists. eexists. split; [vm_compute; reflexivity |]. repeat split. }
    destruct Ec as (R & W & Ec & HR1 & HR2 & HR3).
    rewrite Ec in E. injection E as Ej Ew. cbv zeta in Hfinal.
    change (get_remove_summary_info (Sample.env Sample.failing_stream) j0 captured)
      with (Sample.get_remove_summary_info j0 captured) in Hfinal.
    rewrite <- Ej in Hfinal.
    destruct Hfinal as (j' & E' & Hc' & Hmsg').
    + now rewrite HR1, Hmsg.
    + rewrite HR2. discriminate.
    + rewrite HR2. discriminate.
    + exists j', w1. split; [exact E' |]. split; [exact Hc' |].
      rewrite Hmsg', HR3. reflexivity.
Defined.

(** ** The expression of the progress lines *)

Lemma prefix_app (p rest : string) : String.prefix p (p ++ rest) = true.
Proof.
  induction p as [| c p IH]; simpl.
  - now destruct rest.
  - destruct (ascii_dec c c); [exact IH | congruence].
Qed.

Lemma prefix_split (p : string) : forall s,
  String.prefix p s = true -> exists rest, s = p ++ rest.
Proof.
  induction p as [| c p IH]; intros s H.
  - now exists s.
  - destruct s as [| d s]; simpl in H; [discriminate |].
    destruct (ascii_dec c d) as [-> | _]; [| discriminate].
    destruct (IH _ H) as [rest ->]. now exists rest.
Qed.

Lemma contains_prefix (needle s : string) :
  String.prefix needle s = true -> PyStr.contains needle s = true.
Proof.
  intro H. destruct s as [| c s]; [exact H |].
  change (String.prefix needle (String c s) || PyStr.contains needle s = true).
  now rewrite H.
Qed.

Lemma contains_app_r (needle a b : string) :
  PyStr.contains needle b = true -> PyStr.contains needle (a ++ b) = true.
Proof.
  intro H. induction a as [| c a IH]; [exact H |].
  change (String.prefix needle (String c (a ++ b))
          || PyStr.contains needle (a ++ b) = true).
  rewrite IH. apply orb_true_r.
Qed.

Lemma span_digits_sound (s : string) : forall ds tl,
  Re.span_digits s = (ds, tl) ->
  s = ds ++ tl /\ all_digits ds = true /\ stops_digits tl.
Proof.
  induction s as [| c s IH]; intros ds tl H; simpl in H.
  - injection H as <- <-. repeat split.
  - destruct (PyStr.is_digit c) eqn:Hc.
    + destruct (Re.span_digits s) as [ds' tl'] eqn:E.
      injection H as <- <-. destruct (IH _ _ eq_refl) as (-> & Hd & Hstop).
      simpl. rewrite Hc, Hd. repeat split. exact Hstop.
    + injection H as <- <-. repeat split. exact Hc.
Qed.

Lemma span_digits_complete (ds : string) : forall tl,
  all_digits ds = true -> stops_digits tl ->
  Re.span_digits (ds ++ tl) = (ds, tl).
Proof.
  induction ds as [| c ds IH]; intros tl Hd Hstop; simpl.
  - destruct tl as [| c tl]; [reflexivity |]. simpl in *. now rewrite Hstop.
  - simpl in Hd. apply andb_true_iff in Hd as [Hc Hd].
    rewrite Hc, (IH tl Hd Hstop). reflexivity.
Qed.

(** The matcher decides the shape [<whole>.<frac> %,...]. *)
Lemma match_percent_sound (line p : string) :
  Re.match_percent line = Some p -> percent_line line p.
Proof.
  unfold Re.match_percent.
  destruct (Re.span_digits line) as [whole r1] eqn:E1.
  destruct (String.eqb whole "") eqn:Hw; [discriminate |].
  destruct r1 as [| c r2]; [discriminate |].
  destruct (Ascii.eqb c ".") eqn:Hc.
  2:{ intro H. exfalso. revert H.
      destruct c as [[] [] [] [] [] [] [] []]; try discriminate. }
  apply Ascii.eqb_eq in Hc. subst c.
  destruct (Re.span_digits r2) as [frac r3] eqn:E2.
  destruct (String.eqb frac "") eqn:Hf; [discriminate |].
  destruct (String.prefix " %," r3) eqn:Hp; [| discriminate].
  intro H. injection H as <-.
  destruct (span_digits_sound _ E1) as (-> & Hd1 & _).
  destruct (span_digits_sound _ E2) as (-> & Hd2 & _).
  destruct (prefix_split _ _ Hp) as [rest ->].
  exists whole, frac, rest.
  apply String.eqb_neq in Hw. apply String.eqb_neq in Hf.
  repeat split; try assumption.
  rewrite !append_assoc. reflexivity.
Qed.

Lemma match_percent_complete (line p : string) :
  percent_line line p -> Re.match_percent line = Some p.
Proof.
  intros (whole & frac & rest & Hw & Hf & Hd1 & Hd2 & -> & ->).
  unfold Re.match_percent.
  rewrite !append_assoc.
  rewrite (span_digits_complete whole ("." ++ frac ++ " %," ++ rest) Hd1)
    by reflexivity.
  apply String.eqb_neq in Hw. rewrite Hw.
  change ("." ++ frac ++ " %," ++ rest)
    with (String "." (frac ++ " %," ++ rest)).
  cbv iota beta.
  rewrite (span_digits_complete frac (" %," ++ rest) Hd2) by reflexivity.
  apply String.eqb_neq in Hf. rewrite Hf.
  now rewrite prefix_app.
Qed.

Lemma match_percent_none (line : string) :
  (forall q, ~ percent_line line q) -> Re.match_percent line = None.
Proof.
  intro H. destruct (Re.match_percent line) as [p |] eqn:E; [| reflexivity].
  exfalso. exact (H p (match_percent_sound _ E)).
Qed.

(** A line on which the expression matches holds a percent sign, so the
    guard of the loop body never hides a match. *)
Lemma percent_update_is_match env (line : string) :
  percent_update env line = option_map (py_float env) (Re.match_percent line).
Proof.
  unfold percent_update.
  destruct (Re.match_percent line) as [p |] eqn:E.
  - destruct (match_percent_sound _ E)
      as (whole & frac & rest & _ & _ & _ & _ & _ & ->).
    rewrite contains_app_r; [reflexivity |]. reflexivity.
  - now destruct (PyStr.contains "%" line).
Qed.

(** ** The progress of the three loops *)

Lemma last_percent_app pre l post p :
  Re.match_percent l = Some p ->
  (forall l', In l' post -> Re.match_percent l' = None) ->
  last_percent (pre ++ l :: post) = Some p.
Proof.
  intros Hl Hpost.
  assert (Hnone : last_percent post = None).
  { induction post as [| x post IH]; [reflexivity |]. simpl.
    rewrite IH by (intros; apply Hpost; now right).
    apply Hpost. now left. }
  induction pre as [| x pre IH]; simpl.
  - now rewrite Hnone.
  - now rewrite IH.
Qed.

Lemma last_percent_none ls :
  (forall l, In l ls -> Re.match_percent l = None) -> last_percent ls = None.
Proof.
  induction ls as [| x ls IH]; intro H; [reflexivity |]. simpl.
  rewrite IH by (intros; apply H; now right). apply H. now left.
Qed.

Lemma copy_percent env ls : forall st,
  AzCopyJobInfo.percent_complete (job_info (fold_left (copy_step env) ls st))
  = match last_percent ls with
    | Some p => py_float env p
    | None => AzCopyJobInfo.percent_complete (job_info st)
    end.
Proof.
  induction ls as [| l ls IH]; intro st; [reflexivity |].
  simpl. rewrite IH. destruct (last_percent ls); [reflexivity |].
  unfold copy_step. rewrite percent_update_is_match.
  destruct (Re.match_percent l); simpl;
    destruct (PyStr.contains "AuthenticationFailed" l);
    destruct (PyStr.contains "Final Job Status:" l); reflexivity.
Qed.

Lemma sync_percent env ls : forall st,
  AzSyncJobInfo.percent_complete (job_info (fold_left (sync_step env) ls st))
  = match last_percent ls with
    | Some p => py_float env p
    | None => AzSyncJobInfo.percent_complete (job_info st)
    end.
Proof.
  induction ls as [| l ls IH]; intro st; [reflexivity |].
  simpl. rewrite IH. destruct (last_percent ls); [reflexivity |].
  unfold sync_step. rewrite percent_update_is_match.
  destruct (Re.match_percent l); simpl;
    destruct (PyStr.contains "AuthenticationFailed" l);
    destruct (PyStr.contains "Final Job Status:" l); reflexivity.
Qed.

Lemma remove_percent env ls : forall st,
  AzRemoveJobInfo.percent_complete (job_info (fold_left (remove_step env) ls st))
  = match last_percent ls with
    | Some p => py_float env p
    | None => AzRemoveJobInfo.percent_complete (job_info st)
    end.
Proof.
  induction ls as [| l ls IH]; intro st; [reflexivity |].
  simpl. rewrite IH. destruct (last_percent ls); [reflexivity |].
  unfold remove_step. rewrite percent_update_is_match.
  destruct (Re.match_percent l); simpl;
    destruct (PyStr.contains "AuthenticationFailed" l);
    destruct (PyStr.contains "Final Job Status:" l); reflexivity.
Qed.

(** C5.  Let [l] be the last line of the stream that reads
    [<whole>.<frac> %,...], with [p] the text [<whole>.<frac>]: no line
    after it has that shape, whether it holds a percent sign or not.
    Then each of the three loops runs to its end without raising and
    leaves [percent_complete = float(p)].  On a stream without any such
    line each loop also runs to its end and [percent_complete] keeps its
    initial value [float(0)]. *)
Theorem percent_complete_is_last_match env w pre l post p :
  percent_line l p ->
  (forall l' q, In l' post -> ~ percent_line l' q) ->
  (exists st w',
      @consume AzCopyJobInfo.t _ (copy_step env) (pre ++ l :: post) copy_start w
      = (Returned st, w')
      /\ AzCopyJobInfo.percent_complete (job_info st) = py_float env p)
  /\ (exists st w',
         @consume AzSyncJobInfo.t _ (sync_step env) (pre ++ l :: post) sync_start w
         = (Returned st, w')
         /\ AzSyncJobInfo.percent_complete (job_info st) = py_float env p)
  /\ (exists st w',
         @consume AzRemoveJobInfo.t _ (remove_step env) (pre ++ l :: post)
           remove_start w
         = (Returned st, w')
         /\ AzRemoveJobInfo.percent_complete (job_info st) = py_float env p)
  /\ (forall ls,
         (forall l' q, In l' ls -> ~ percent_line l' q) ->
         (exists st w',
             @consume AzCopyJobInfo.t _ (copy_step env) ls copy_start w
             = (Returned st, w')
             /\ AzCopyJobInfo.percent_complete (job_info st) = 0%float)
         /\ (exists st w',
                @consume AzSyncJobInfo.t _ (sync_step env) ls sync_start w
                = (Returned st, w')
                /\ AzSyncJobInfo.percent_complete (job_info st) = 0%float)
         /\ (exists st w',
                @consume AzRemoveJobInfo.t _ (remove_step env) ls remove_start w
                = (Returned st, w')
                /\ AzRemoveJobInfo.percent_complete (job_info st) = 0%float)).
Proof.
  intros Hl Hpost.
  assert (Hlast : last_percent (pre ++ l :: post) = Some p).
  { apply last_percent_app; [now apply match_percent_complete |].
    intros l' Hin. apply match_percent_none. intros q. now apply Hpost. }
  repeat split.
  - eexists. eexists. split; [apply consume_fold |].
    now rewrite copy_percent, Hlast.
  - eexists. eexists. split; [apply consume_fold |].
    now rewrite sync_percent, Hlast.
  - eexists. eexists. split; [apply consume_fold |].
    now rewrite remove_percent, Hlast.
  - eexists. eexists. split; [apply consume_fold |].
    rewrite copy_percent, last_percent_none; [reflexivity |].
    intros l' Hin. apply match_percent_none. intros q. now apply H.
  - eexists. eexists. split; [apply consume_fold |].
    rewrite sync_percent, last_percent_none; [reflexivity |].
    intros l' Hin. apply match_percent_none. intros q. now apply H.
  - eexists. eexists. split; [apply consume_fold |].
    rewrite remove_percent, last_percent_none; [reflexivity |].
    intros l' Hin. apply match_percent_none. intros q. now apply H.
Qed.

Lemma percent_complete_is_last_match_witness :
  exists st w',
    @consume AzCopyJobInfo.t _
      (copy_step (Sample.env Sample.quiet_stream)) Sample.progress_lines
      copy_start (Sample.world 10)
    = (Returned st, w')
    /\ AzCopyJobInfo.percent_complete (job_info st) = 62.5%float.
Proof.
  destruct (@percent_complete_is_last_match
              (Sample.env Sample.quiet_stream) (Sample.world 10)
              [Sample.line "10.0 %, 1 Done, 0 Failed, 2 Pending"]
              (Sample.line "62.5 %, 2 Done, 0 Failed, 1 Pending")
              [Sample.line "100 % sure, this is not a progress line";
               Sample.line "Job abc summary"]
              "62.5") as (Hcopy & _).
  - exists "62", "5", (Sample.line " 2 Done, 0 Failed, 1 Pending").
    repeat split; discriminate.
  - intros l' q Hin Hq. apply match_percent_complete in Hq.
    destruct Hin as [<- | [<- | []]]; vm_compute in Hq; discriminate.
  - exact Hcopy.
Defined.

(** ** The summary buffer of the three loops *)

Lemma from_unlock_split unlocks pre u post :
  Forall (fun l => unlocks l = false) pre -> unlocks u = true ->
  from_unlock unlocks (pre ++ u :: post) = u :: post
  /\ after_unlock unlocks (pre ++ u :: post) = post.
Proof.
  intros Hpre Hu. unfold after_unlock.
  induction Hpre as [| x pre Hx _ IH]; simpl.
  - now rewrite Hu.
  - now rewrite Hx.
Qed.

Lemma from_unlock_never unlocks ls :
  Forall (fun l => unlocks l = false) ls ->
  from_unlock unlocks ls = [] /\ after_unlock unlocks ls = [].
Proof.
  intro H. unfold after_unlock.
  induction H as [| x ls Hx _ IH]; simpl; [now split |]. now rewrite Hx.
Qed.

Lemma copy_step_locals env st l :
  summary (copy_step env st l)
  = (if unlock_summary st then summary st ++ l else summary st)
  /\ unlock_summary (copy_step env st l)
     = (if unlocks_raw l then true else unlock_summary st).
Proof. split; reflexivity. Qed.

Lemma copy_summary env ls : forall st,
  summary (fold_left (copy_step env) ls st)
  = summary st
    ++ PyStr.concat_all (if unlock_summary st then ls
                         else after_unlock unlocks_raw ls).
Proof.
  induction ls as [| l ls IH]; intro st.
  - simpl. destruct (unlock_summary st); simpl;
      induction (summary st) as [| c s IHs]; simpl; congruence.
  - simpl fold_left. rewrite IH.
    destruct (copy_step_locals env st l) as [-> ->].
    unfold after_unlock. simpl.
    destruct (unlock_summary st), (unlocks_raw l); simpl;
      try rewrite append_assoc; reflexivity.
Qed.

Lemma remove_step_locals env st l :
  summary (remove_step env st l)
  = (if unlock_summary st then summary st ++ l else summary st)
  /\ unlock_summary (remove_step env st l)
     = (if unlocks_raw l then true else unlock_summary st).
Proof. split; reflexivity. Qed.

Lemma remove_summary env ls : forall st,
  summary (fold_left (remove_step env) ls st)
  = summary st
    ++ PyStr.concat_all (if unlock_summary st then ls
                         else after_unlock unlocks_raw ls).
Proof.
  induction ls as [| l ls IH]; intro st.
  - simpl. destruct (unlock_summary st); simpl;
      induction (summary st) as [| c s IHs]; simpl; congruence.
  - simpl fold_left. rewrite IH.
    destruct (remove_step_locals env st l) as [-> ->].
    unfold after_unlock. simpl.
    destruct (unlock_summary st), (unlocks_raw l); simpl;
      try rewrite append_assoc; reflexivity.
Qed.

Lemma sync_step_locals env st l :
  summary (sync_step env st l)
  = (if unlock_summary st then summary st ++ strip_parens l else summary st)
  /\ unlock_summary (sync_step env st l)
     = (if unlocks_cleaned l then true else unlock_summary st).
Proof. split; reflexivity. Qed.

Lemma sync_summary env ls : forall st,
  summary (fold_left (sync_step env) ls st)
  = summary st
    ++ PyStr.concat_all
         (map strip_parens (if unlock_summary st then ls
                            else after_unlock unlocks_cleaned ls)).
Proof.
  induction ls as [| l ls IH]; intro st.
  - simpl. destruct (unlock_summary st); simpl;
      induction (summary st) as [| c s IHs]; simpl; congruence.
  - simpl fold_left. rewrite IH.
    destruct (sync_step_locals env st l) as [-> ->].
    unfold after_unlock. simpl.
    destruct (unlock_summary st), (unlocks_cleaned l); simpl;
      try rewrite append_assoc; reflexivity.
Qed.

(** The text that [_copy] hands to its summary parser is the buffer of
    the loop. *)
Lemma copy_parser_input env self src dest opts w :
  renders_loc env w src -> renders_loc env w dest ->
  exists j0 w1,
    copy_interpret env self src dest opts w
    = (Returned
         (get_transfer_copy_summary_info env j0
            (PyStr.concat_all
               (after_unlock unlocks_raw
                  (lines (execute_command env (now w)
                            (copy_cmd self src dest opts)))))), w1).
Proof.
  intros Hs Hd. eexists. eexists.
  rewrite (copy_interpret_renders env self src dest opts w Hs Hd).
  now rewrite copy_summary.
Qed.

(** C3, as stated, fails: the line that unlocks the summary is not in
    the buffer.  On the four lines of [Sample.summary_lines] the buffer
    of the copy loop holds the two lines after [Job abc summary], not the
    three lines from it on. *)
Lemma unlock_line_is_not_captured :
  unlocks_raw (Sample.line "Job abc summary") = true
  /\ exists st w',
       @consume AzCopyJobInfo.t _
         (copy_step (Sample.env Sample.quiet_stream)) Sample.summary_lines
         copy_start (Sample.world 10)
       = (Returned st, w')
       /\ summary st
          = Sample.line "Elapsed Time (Minutes): 0.0334"
            ++ Sample.line "Final Job Status: Completed"
       /\ summary st
          <> PyStr.concat_all (from_unlock unlocks_raw Sample.summary_lines).
Proof.
  split; [reflexivity |].
  eexists. eexists. split; [vm_compute; reflexivity |].
  split; [reflexivity | vm_compute; discriminate].
Qed.

(** C3, amended.  For every finite stream of lines, each of the three
    loops runs to its end, and its summary buffer is the concatenation,
    in order, of the lines that come strictly after the unlock line, the
    first line that passes the unlock test of the kind (the raw test of
    copy and remove, the test after trim and lowercase of sync): verbatim
    for copy and remove, with the parentheses removed from each line for
    sync.  The unlock line itself and the lines before it are not in the
    buffer. *)
Theorem summary_is_lines_after_unlock env w ls :
  (exists st w',
      @consume AzCopyJobInfo.t _ (copy_step env) ls copy_start w
      = (Returned st, w')
      /\ summary st = PyStr.concat_all (after_unlock unlocks_raw ls))
  /\ (exists st w',
         @consume AzSyncJobInfo.t _ (sync_step env) ls sync_start w
         = (Returned st, w')
         /\ summary st
            = PyStr.concat_all
                (map strip_parens (after_unlock unlocks_cleaned ls)))
  /\ (exists st w',
         @consume AzRemoveJobInfo.t _ (remove_step env) ls remove_start w
         = (Returned st, w')
         /\ summary st = PyStr.concat_all (after_unlock unlocks_raw ls)).
Proof.
  repeat split; eexists; eexists; (split; [apply consume_fold |]).
  - now rewrite copy_summary.
  - now rewrite sync_summary.
  - now rewrite remove_summary.
Qed.

(** ** The JSON pass of list *)












(* ================================================================== *)
(** * Concrete runs *)
(* ================================================================== *)

Example contains_percent : PyStr.contains "%" "10.0 %, 3 Done" = true.
Proof. reflexivity. Qed.

Example strip_status :
  status_of (Sample.line "Final Job Status: Completed") = "Completed".
Proof. reflexivity. Qed.

Example of_Z_examples :
  PyStr.of_Z 2 = "2" /\ PyStr.of_Z 0 = "0" /\ PyStr.of_Z (-15) = "-15".
Proof. repeat split; reflexivity. Qed.

Example endswith_example :
  PyStr.endswith "}" "{x}" = true /\ PyStr.endswith "}" "{x} " = false.
Proof. split; reflexivity. Qed.

Example match_percent_examples :
  Re.match_percent "10.0 %, 1 Done" = Some "10.0"
  /\ Re.match_percent "100 %, 1 Done" = None
  /\ Re.match_percent " 10.0 %, 1 Done" = None
  /\ Re.match_percent "10.0 % done" = None.
Proof. repeat split; reflexivity. Qed.

(** The unlock tests differ: an indented, capitalised header unlocks the
    summary of sync and not the one of copy and remove. *)
Example unlock_asymmetry :
  unlocks_cleaned "  JOB abc Summary" = true
  /\ unlocks_raw "  JOB abc Summary" = false
  /\ unlocks_raw "Job abc summary" = true.
Proof. repeat split; reflexivity. Qed.

Example sync_strips_parentheses :
  strip_parens "Elapsed Time (Minutes): 0.0334" = "Elapsed Time Minutes: 0.0334".
Proof. reflexivity. Qed.

(** The successful copy of the specification: a progress line, the
    header of the summary, one counter and the terminal status. *)
Example copy_success :
  exists w',
    _copy (Sample.env (mkStream [ Sample.line "10.0 %, 0 Done";
                                  Sample.line "Job abc summary";
                                  Sample.line "Number of File Transfers: 3";
                                  Sample.line "Final Job Status: Completed" ]
                         None 5))
      Sample.client (RemoteSAS (Sample.remote "se=100"))
      (LocalPath (Sample.local "/data")) Sample.copy_options (Sample.world 10)
    = (Returned (AzCopyJobInfo.mk 10%float "" "Completed" 3 0 0 0 0 0 0 true), w').
Proof. eexists. vm_compute. reflexivity. Qed.

Example json_loads_examples :
  Sample.json_loads Sample.list_object_line
  = Some (JDict [("MessageType", JStr "ListObject");
                 ("MessageContent",
                  JStr ("{" ++ Sample.quoted "name" ++ ":"
                        ++ Sample.quoted "a.txt" ++ "}"))])
  /\ Sample.json_loads "{not json}" = None
  /\ Sample.json_loads "[1, -2, null, true, {}]"
     = Some (JList [JInt 1; JInt (-2); JNone; JBool true; JDict []]).
Proof. repeat split; reflexivity. Qed.

(** A status that merely starts with [Completed] is not a success. *)
Example completed_with_errors_raises :
  exists j w',
    _copy (Sample.env (Sample.copy_stream_with_failures "CompletedWithErrors"))
      Sample.client (RemoteSAS (Sample.remote "se=100"))
      (LocalPath (Sample.local "/data")) Sample.copy_options (Sample.world 10)
    = (Raised "; Tranfers failed = 2" (Some j), w')
    /\ AzCopyJobInfo.completed j = false.
Proof. eexists. eexists. split; [vm_compute; reflexivity | reflexivity]. Qed.

(* ================================================================== *)
(** * Further properties of the interpreters *)
(* ================================================================== *)

(** ** What the loops keep of the lines *)

Lemma last_line_app test pre l post :
  test l = true -> Forall (fun l' => test l' = false) post ->
  last_line test (pre ++ l :: post) = Some l.
Proof.
  intros Hl Hpost.
  assert (Hnone : last_line test post = None).
  { induction Hpost as [| x post Hx _ IH]; [reflexivity |].
    simpl. now rewrite IH, Hx. }
  induction pre as [| x pre IH]; simpl.
  - now rewrite Hnone, Hl.
  - now rewrite IH.
Qed.

Lemma last_line_none test ls :
  Forall (fun l' => test l' = false) ls -> last_line test ls = None.
Proof.
  induction 1 as [| x ls Hx _ IH]; [reflexivity |]. simpl. now rewrite IH, Hx.
Qed.

Lemma copy_step_record env st l :
  AzCopyJobInfo.error_msg (job_info (copy_step env st l))
  = (if reports_auth_failure l then l
     else AzCopyJobInfo.error_msg (job_info st))
  /\ AzCopyJobInfo.final_job_status_msg (job_info (copy_step env st l))
     = (if carries_status l then status_of l
        else AzCopyJobInfo.final_job_status_msg (job_info st))
  /\ AzCopyJobInfo.completed (job_info (copy_step env st l))
     = AzCopyJobInfo.completed (job_info st).
Proof.
  unfold copy_step, reports_auth_failure, carries_status. simpl.
  destruct (percent_update env l), (PyStr.contains "AuthenticationFailed" l),
    (PyStr.contains "Final Job Status:" l); repeat split.
Qed.

Lemma sync_step_record env st l :
  AzSyncJobInfo.error_msg (job_info (sync_step env st l))
  = (if reports_auth_failure l then l
     else AzSyncJobInfo.error_msg (job_info st))
  /\ AzSyncJobInfo.final_job_status_msg (job_info (sync_step env st l))
     = (if carries_status l then status_of l
        else AzSyncJobInfo.final_job_status_msg (job_info st))
  /\ AzSyncJobInfo.completed (job_info (sync_step env st l))
     = AzSyncJobInfo.completed (job_info st).
Proof.
  unfold sync_step, reports_auth_failure, carries_status. simpl.
  destruct (percent_update env l), (PyStr.contains "AuthenticationFailed" l),
    (PyStr.contains "Final Job Status:" l); repeat split.
Qed.

Lemma remove_step_record env st l :
  AzRemoveJobInfo.error_msg (job_info (remove_step env st l))
  = (if reports_auth_failure l then l
     else AzRemoveJobInfo.error_msg (job_info st))
  /\ AzRemoveJobInfo.final_job_status_msg (job_info (remove_step env st l))
     = (if carries_status l then status_of l
        else AzRemoveJobInfo.final_job_status_msg (job_info st))
  /\ AzRemoveJobInfo.completed (job_info (remove_step env st l))
     = AzRemoveJobInfo.completed (job_info st).
Proof.
  unfold remove_step, reports_auth_failure, carries_status. simpl.
  destruct (percent_update env l), (PyStr.contains "AuthenticationFailed" l),
    (PyStr.contains "Final Job Status:" l); repeat split.
Qed.

Lemma copy_loop_record env ls : forall st,
  let st' := fold_left (copy_step env) ls st in
  AzCopyJobInfo.error_msg (job_info st')
  = match last_line reports_auth_failure ls with
    | Some l => l
    | None => AzCopyJobInfo.error_msg (job_info st)
    end
  /\ AzCopyJobInfo.final_job_status_msg (job_info st')
     = match last_line carries_status ls with
       | Some l => status_of l
       | None => AzCopyJobInfo.final_job_status_msg (job_info st)
       end
  /\ AzCopyJobInfo.completed (job_info st') = AzCopyJobInfo.completed (job_info st).
Proof.
  induction ls as [| l ls IH]; intro st; [repeat split |].
  cbv zeta. simpl fold_left. destruct (IH (copy_step env st l)) as (-> & -> & ->).
  destruct (copy_step_record env st l) as (-> & -> & ->). simpl.
  destruct (last_line reports_auth_failure ls),
    (last_line carries_status ls), (reports_auth_failure l),
    (carries_status l); repeat split.
Qed.

Lemma sync_loop_record env ls : forall st,
  let st' := fold_left (sync_step env) ls st in
  AzSyncJobInfo.error_msg (job_info st')
  = match last_line reports_auth_failure ls with
    | Some l => l
    | None => AzSyncJobInfo.error_msg (job_info st)
    end
  /\ AzSyncJobInfo.final_job_status_msg (job_info st')
     = match last_line carries_status ls with
       | Some l => status_of l
       | None => AzSyncJobInfo.final_job_status_msg (job_info st)
       end
  /\ AzSyncJobInfo.completed (job_info st') = AzSyncJobInfo.completed (job_info st).
Proof.
  induction ls as [| l ls IH]; intro st; [repeat split |].
  cbv zeta. simpl fold_left. destruct (IH (sync_step env st l)) as (-> & -> & ->).
  destruct (sync_step_record env st l) as (-> & -> & ->). simpl.
  destruct (last_line reports_auth_failure ls),
    (last_line carries_status ls), (reports_auth_failure l),
    (carries_status l); repeat split.
Qed.

Lemma remove_loop_record env ls : forall st,
  let st' := fold_left (remove_step env) ls st in
  AzRemoveJobInfo.error_msg (job_info st')
  = match last_line reports_auth_failure ls with
    | Some l => l
    | None => AzRemoveJobInfo.error_msg (job_info st)
    end
  /\ AzRemoveJobInfo.final_job_status_msg (job_info st')
     = match last_line carries_status ls with
       | Some l => status_of l
       | None => AzRemoveJobInfo.final_job_status_msg (job_info st)
       end
  /\ AzRemoveJobInfo.completed (job_info st')
     = AzRemoveJobInfo.completed (job_info st).
Proof.
  induction ls as [| l ls IH]; intro st; [repeat split |].
  cbv zeta. simpl fold_left. destruct (IH (remove_step env st l)) as (-> & -> & ->).
  destruct (remove_step_record env st l) as (-> & -> & ->). simpl.
  destruct (last_line reports_auth_failure ls),
    (last_line carries_status ls), (reports_auth_failure l),
    (carries_status l); repeat split.
Qed.

(** X1.  The expression of the progress lines matches a line exactly
    when the line starts with a non-empty run of digits, a full stop, a
    second non-empty run of digits and the text [ %,]; the group
    [percent_complete] is then the two runs around the full stop. *)
Theorem match_percent_iff (line p : string) :
  Re.match_percent line = Some p <-> percent_line line p.
Proof.
  split; [apply match_percent_sound | apply match_percent_complete].
Qed.

(** X2.  The last line of the stream that holds [AuthenticationFailed]
    wins: after each of the three loops [error_msg] is that whole line,
    whatever came before it.  On a stream without such a line [error_msg]
    is still empty after the loop. *)
Theorem error_msg_is_last_auth_failure env w pre l post :
  PyStr.contains "AuthenticationFailed" l = true ->
  Forall (fun l' => PyStr.contains "AuthenticationFailed" l' = false) post ->
  (exists st w',
      @consume AzCopyJobInfo.t _ (copy_step env) (pre ++ l :: post) copy_start w
      = (Returned st, w')
      /\ AzCopyJobInfo.error_msg (job_info st) = l)
  /\ (exists st w',
         @consume AzSyncJobInfo.t _ (sync_step env) (pre ++ l :: post) sync_start w
         = (Returned st, w')
         /\ AzSyncJobInfo.error_msg (job_info st) = l)
  /\ (exists st w',
         @consume AzRemoveJobInfo.t _ (remove_step env) (pre ++ l :: post)
           remove_start w
         = (Returned st, w')
         /\ AzRemoveJobInfo.error_msg (job_info st) = l)
  /\ (forall ls,
         Forall (fun l' => PyStr.contains "AuthenticationFailed" l' = false) ls ->
         (exists st w',
             @consume AzCopyJobInfo.t _ (copy_step env) ls copy_start w
             = (Returned st, w')
             /\ AzCopyJobInfo.error_msg (job_info st) = "")
         /\ (exists st w',
                @consume AzSyncJobInfo.t _ (sync_step env) ls sync_start w
                = (Returned st, w')
                /\ AzSyncJobInfo.error_msg (job_info st) = "")
         /\ (exists st w',
                @consume AzRemoveJobInfo.t _ (remove_step env) ls remove_start w
                = (Returned st, w')
                /\ AzRemoveJobInfo.error_msg (job_info st) = "")).
Proof.
  intros Hl Hpost.
  pose proof (@last_line_app reports_auth_failure pre l post Hl Hpost) as Hlast.
  repeat split.
  - eexists. eexists. split; [apply consume_fold |].
    destruct (copy_loop_record env (pre ++ l :: post) copy_start) as (-> & _).
    now rewrite Hlast.
  - eexists. eexists. split; [apply consume_fold |].
    destruct (sync_loop_record env (pre ++ l :: post) sync_start) as (-> & _).
    now rewrite Hlast.
  - eexists. eexists. split; [apply consume_fold |].
    destruct (remove_loop_record env (pre ++ l :: post) remove_start) as (-> & _).
    now rewrite Hlast.
  - eexists. eexists. split; [apply consume_fold |].
    destruct (copy_loop_record env ls copy_start) as (-> & _).
    now rewrite (@last_line_none reports_auth_failure ls H).
  - eexists. eexists. split; [apply consume_fold |].
    destruct (sync_loop_record env ls sync_start) as (-> & _).
    now rewrite (@last_line_none reports_auth_failure ls H).
  - eexists. eexists. split; [apply consume_fold |].
    destruct (remove_loop_record env ls remove_start) as (-> & _).
    now rewrite (@last_line_none reports_auth_failure ls H).
Qed.

(** X3.  The last line of the stream that holds [Final Job Status:]
    wins: after each of the three loops [final_job_status_msg] is the
    trimmed text after the last colon of that line.  On a stream without
    such a line the status is still empty after the loop. *)
Theorem status_is_last_status_line env w pre l post :
  PyStr.contains "Final Job Status:" l = true ->
  Forall (fun l' => PyStr.contains "Final Job Status:" l' = false) post ->
  (exists st w',
      @consume AzCopyJobInfo.t _ (copy_step env) (pre ++ l :: post) copy_start w
      = (Returned st, w')
      /\ AzCopyJobInfo.final_job_status_msg (job_info st)
         = PyStr.strip (PyStr.split_last ":" l))
  /\ (exists st w',
         @consume AzSyncJobInfo.t _ (sync_step env) (pre ++ l :: post) sync_start w
         = (Returned st, w')
         /\ AzSyncJobInfo.final_job_status_msg (job_info st)
            = PyStr.strip (PyStr.split_last ":" l))
  /\ (exists st w',
         @consume AzRemoveJobInfo.t _ (remove_step env) (pre ++ l :: post)
           remove_start w
         = (Returned st, w')
         /\ AzRemoveJobInfo.final_job_status_msg (job_info st)
            = PyStr.strip (PyStr.split_last ":" l))
  /\ (forall ls,
         Forall (fun l' => PyStr.contains "Final Job Status:" l' = false) ls ->
         (exists st w',
             @consume AzCopyJobInfo.t _ (copy_step env) ls copy_start w
             = (Returned st, w')
             /\ AzCopyJobInfo.final_job_status_msg (job_info st) = "")
         /\ (exists st w',
                @consume AzSyncJobInfo.t _ (sync_step env) ls sync_start w
                = (Returned st, w')
                /\ AzSyncJobInfo.final_job_status_msg (job_info st) = "")
         /\ (exists st w',
                @consume AzRemoveJobInfo.t _ (remove_step env) ls remove_start w
                = (Returned st, w')
                /\ AzRemoveJobInfo.final_job_status_msg (job_info st) = "")).
Proof.
  intros Hl Hpost.
  pose proof (@last_line_app carries_status pre l post Hl Hpost) as Hlast.
  repeat split.
  - eexists. eexists. split; [apply consume_fold |].
    destruct (copy_loop_record env (pre ++ l :: post) copy_start) as (_ & -> & _).
    now rewrite Hlast.
  - eexists. eexists. split; [apply consume_fold |].
    destruct (sync_loop_record env (pre ++ l :: post) sync_start) as (_ & -> & _).
    now rewrite Hlast.
  - eexists. eexists. split; [apply consume_fold |].
    destruct (remove_loop_record env (pre ++ l :: post) remove_start)
      as (_ & -> & _).
    now rewrite Hlast.
  - eexists. eexists. split; [apply consume_fold |].
    destruct (copy_loop_record env ls copy_start) as (_ & -> & _).
    now rewrite (@last_line_none carries_status ls H).
  - eexists. eexists. split; [apply consume_fold |].
    destruct (sync_loop_record env ls sync_start) as (_ & -> & _).
    now rewrite (@last_line_none carries_status ls H).
  - eexists. eexists. split; [apply consume_fold |].
    destruct (remove_loop_record env ls remove_start) as (_ & -> & _).
    now rewrite (@last_line_none carries_status ls H).
Qed.

(** ** The text of the terminal status *)

Lemma append_nil_r (s : string) : s ++ "" = s.
Proof. induction s as [| c s IH]; simpl; congruence. Qed.

Lemma rev_onto_acc (s : string) : forall acc,
  PyStr.rev_onto s acc = PyStr.rev_onto s "" ++ acc.
Proof.
  induction s as [| c s IH]; intro acc; simpl; [reflexivity |].
  rewrite (IH (String c acc)), (IH (String c "")), append_assoc. reflexivity.
Qed.

Lemma rev_onto_app (a b : string) : forall acc,
  PyStr.rev_onto (a ++ b) acc = PyStr.rev_onto b (PyStr.rev_onto a acc).
Proof.
  induction a as [| c a IH]; intro acc; simpl; [reflexivity | apply IH].
Qed.

Lemma rev_app (a b : string) : PyStr.rev (a ++ b) = PyStr.rev b ++ PyStr.rev a.
Proof.
  unfold PyStr.rev. rewrite rev_onto_app. apply rev_onto_acc.
Qed.

Lemma rev_cons (c : ascii) (s : string) :
  PyStr.rev (String c s) = PyStr.rev s ++ String c "".
Proof. exact (rev_app (String c "") s). Qed.

Lemma rev_involutive (s : string) : PyStr.rev (PyStr.rev s) = s.
Proof.
  induction s as [| c s IH]; [reflexivity |].
  rewrite rev_cons, rev_app, IH. reflexivity.
Qed.

Lemma all_space_app (a b : string) :
  all_space (a ++ b) = all_space a && all_space b.
Proof.
  induction a as [| c a IH]; simpl; [reflexivity |].
  now rewrite IH, andb_assoc.
Qed.

Lemma all_space_rev (s : string) : all_space (PyStr.rev s) = all_space s.
Proof.
  induction s as [| c s IH]; [reflexivity |].
  rewrite rev_cons, all_space_app, IH. simpl.
  rewrite andb_true_r. apply andb_comm.
Qed.

Lemma lstrip_all_space (ws t : string) :
  all_space ws = true -> PyStr.lstrip (ws ++ t) = PyStr.lstrip t.
Proof.
  induction ws as [| c ws IH]; simpl; intro H; [reflexivity |].
  apply andb_true_iff in H as [Hc Hws]. rewrite Hc. now apply IH.
Qed.

(** Trimming on the left reaches into the second part of a text only
    when the first part is all white space. *)
Lemma lstrip_app (t u : string) :
  PyStr.lstrip (t ++ u)
  = if all_space t then PyStr.lstrip u else PyStr.lstrip t ++ u.
Proof.
  induction t as [| c t IH]; simpl; [reflexivity |].
  destruct (PyStr.is_space c); simpl; [exact IH | reflexivity].
Qed.

Lemma lstrip_of_all_space (t : string) :
  all_space t = true -> PyStr.lstrip t = "".
Proof.
  intro H. rewrite <- (append_nil_r t). now rewrite lstrip_all_space.
Qed.

Lemma rstrip_all_space (t ws : string) :
  all_space ws = true -> PyStr.rstrip (t ++ ws) = PyStr.rstrip t.
Proof.
  intro H. unfold PyStr.rstrip. rewrite rev_app, lstrip_all_space;
    [reflexivity | now rewrite all_space_rev].
Qed.

(** White space around a text does not change what [strip] makes of it. *)
Lemma strip_padding (ws t ws' : string) :
  all_space ws = true -> all_space ws' = true ->
  PyStr.strip (ws ++ t ++ ws') = PyStr.strip t.
Proof.
  intros H H'. unfold PyStr.strip.
  rewrite lstrip_all_space by assumption. rewrite lstrip_app.
  destruct (all_space t) eqn:Ht.
  - now rewrite (lstrip_of_all_space ws' H'), (lstrip_of_all_space t Ht).
  - now apply rstrip_all_space.
Qed.

Lemma after_last_from_free (c : ascii) (b : string) : forall acc,
  free_of c b = true -> PyStr.after_last_from c b acc = acc ++ b.
Proof.
  induction b as [| d b IH]; intros acc H; simpl.
  - now rewrite append_nil_r.
  - simpl in H. apply andb_true_iff in H as [Hd Hb].
    apply negb_true_iff in Hd. rewrite Hd, (IH _ Hb), append_assoc.
    reflexivity.
Qed.

Lemma after_last_from_separator (c : ascii) (a b : string) : forall acc,
  PyStr.after_last_from c (a ++ String c b) acc = PyStr.after_last_from c b "".
Proof.
  induction a as [| d a IH]; intro acc; simpl.
  - now rewrite Ascii.eqb_refl.
  - destruct (Ascii.eqb c d); apply IH.
Qed.

Lemma free_of_app (c : ascii) (a b : string) :
  free_of c (a ++ b) = free_of c a && free_of c b.
Proof.
  induction a as [| d a IH]; simpl; [reflexivity |].
  now rewrite IH, andb_assoc.
Qed.

Lemma all_space_free_of_colon (s : string) :
  all_space s = true -> free_of ":" s = true.
Proof.
  induction s as [| c s IH]; intro H; [reflexivity |].
  change (PyStr.is_space c && all_space s = true) in H.
  change (negb (Ascii.eqb ":" c) && free_of ":" s = true).
  apply andb_true_iff in H as [Hc Hs]. rewrite (IH Hs), andb_true_r.
  destruct (Ascii.eqb ":" c) eqn:E; [| reflexivity].
  apply Ascii.eqb_eq in E. subst c. discriminate Hc.
Qed.

(** X4.  The status read from a line does not depend on what stands
    before the last colon nor on the white space around the status: for a
    text [s] without a colon and without white space at either end,
    [(before ++ ":" ++ ws ++ s ++ ws').split(":")[-1].strip()] is [s]. *)
Theorem status_text_is_recovered (before ws s ws' : string) :
  all_space ws = true -> all_space ws' = true ->
  free_of ":" s = true -> PyStr.strip s = s ->
  PyStr.strip (PyStr.split_last ":" (before ++ ":" ++ ws ++ s ++ ws')) = s.
Proof.
  intros Hws Hws' Hfree Htrim. unfold PyStr.split_last.
  change (before ++ ":" ++ ws ++ s ++ ws')
    with (before ++ String ":" (ws ++ s ++ ws')).
  rewrite after_last_from_separator, after_last_from_free.
  - simpl. rewrite strip_padding by assumption. exact Htrim.
  - rewrite !free_of_app, Hfree, !all_space_free_of_colon by assumption.
    reflexivity.
Qed.

Lemma status_text_is_recovered_witness :
  PyStr.strip (PyStr.split_last ":"
                 ("12:00:01 Final Job Status" ++ ":" ++ " " ++ "CompletedWithSkipped"
                  ++ PyStr.nl))
  = "CompletedWithSkipped".
Proof.
  apply (@status_text_is_recovered "12:00:01 Final Job Status" " "
           "CompletedWithSkipped" PyStr.nl); reflexivity.
Defined.

(** ** What the process is asked and what is echoed *)

Lemma list_loop_prefix (J : Type) ls : forall acc w,
  exists out printed rest,
    ls = (printed ++ rest)%list
    /\ @list_loop J ls acc w
       = (Returned out, mkWorld (now w) (trace w ++ map Print printed)
                          (remove_options w)).
Proof.
  induction ls as [| l ls IH]; intros acc w; simpl.
  - exists (acc, None), [], []. split; [reflexivity |].
    unfold ret. simpl. rewrite app_nil_r. now destruct w.
  - run. destruct (PyStr.contains "AuthenticationFailed" l).
    + eexists. exists [l], ls. split; reflexivity.
    + destruct (IH (acc ++ [PyStr.rstrip l])%list
                  (mkWorld (now w) (trace w ++ [Print l]) (remove_options w)))
        as (out & printed & rest & -> & E).
      exists out, (l :: printed), rest. split; [reflexivity |].
      rewrite E. simpl. now rewrite <- app_assoc.
Qed.

Lemma list_except_world e j w : snd (list_except e j w) = w.
Proof. reflexivity. Qed.

Lemma list_world env self location opts w :
  renders env w location ->
  exists printed rest,
    lines (execute_command env (now w) (list_cmd self location opts))
    = (printed ++ rest)%list
    /\ snd (_list env self location opts w)
       = ran w (list_cmd self location opts) printed
           (elapsed (execute_command env (now w) (list_cmd self location opts))).
Proof.
  intro Hr. unfold _list, bind at 1. rewrite (@remote_str_renders _ _ _ _ Hr).
  unfold bind at 1, spawn at 1. fold (list_cmd self location opts). simpl now.
  set (s := execute_command env (now w) (list_cmd self location opts)).
  unfold bind at 1.
  match goal with
  | |- context [list_loop ?ls ?acc ?w0] =>
      destruct (list_loop_prefix AzListJobInfo.t ls acc w0)
        as ([out [line |]] & printed & rest & Hsplit & E)
  end; rewrite E; exists printed, rest; (split; [exact Hsplit |]);
    unfold bind at 1, advance at 1; simpl.
  - unfold ran. simpl. now rewrite <- app_assoc.
  - destruct (failure s); unfold ran; simpl; now rewrite <- app_assoc.
Qed.

(** X5.  Once the locations render, each private method invokes the line
    source exactly once, on the command it built, and echoes the lines in
    the order of the stream: all of them for copy, sync and remove,
    whether the stream ends or fails and whether the call then returns or
    raises, and a prefix of them for list.  Nothing else is spawned or
    printed. *)
Theorem process_is_spawned_once env self w :
  (forall src dest opts,
      renders_loc env w src -> renders_loc env w dest ->
      trace (snd (_copy env self src dest opts w))
      = (trace w
         ++ Spawn ([exe_to_use self; "cp"; text_of src; text_of dest]
                   ++ AzCopyOptions.get_options_list opts)
            :: map Print
                 (lines (execute_command env (now w)
                           (copy_cmd self src dest opts))))%list)
  /\ (forall src dest opts,
         renders_loc env w src -> renders_loc env w dest ->
         trace (snd (_sync env self src dest opts w))
         = (trace w
            ++ Spawn ([exe_to_use self; "sync"; text_of src; text_of dest]
                      ++ AzSyncOptions.get_options_list opts)
               :: map Print
                    (lines (execute_command env (now w)
                              (sync_cmd self src dest opts))))%list)
  /\ (forall location r,
         renders env w location ->
         trace (snd (_remove env self location r w))
         = (trace w
            ++ Spawn ([exe_to_use self; "remove";
                       AzRemoteSASLocation.url location]
                      ++ AzRemoveOptions.get_options_list (remove_options w r))
               :: map Print
                    (lines (execute_command env (now w)
                              (remove_cmd self location (remove_options w r)))))%list)
  /\ (forall location opts,
         renders env w location ->
         exists printed rest,
           lines (execute_command env (now w) (list_cmd self location opts))
           = (printed ++ rest)%list
           /\ trace (snd (_list env self location opts w))
              = (trace w
                 ++ Spawn ([exe_to_use self; "list";
                            AzRemoteSASLocation.url location]
                           ++ AzListOptions.get_options_list opts)
                    :: map Print printed)%list).
Proof.
  repeat split.
  - intros src dest opts Hs Hd. unfold _copy, bind.
    rewrite (copy_interpret_renders env self src dest opts w Hs Hd).
    match goal with
    | |- context [copy_finalize ?j ?w0] =>
        rewrite (proj2 (copy_finalize_invariant j w0))
    end. reflexivity.
  - intros src dest opts Hs Hd. unfold _sync, bind.
    rewrite (sync_interpret_renders env self src dest opts w Hs Hd).
    match goal with
    | |- context [sync_finalize ?j ?w0] =>
        rewrite (proj2 (sync_finalize_invariant j w0))
    end. reflexivity.
  - intros location r Hr.
    now rewrite (@remove_world_renders env self location r w Hr).
  - intros location opts Hr.
    destruct (@list_world env self location opts w Hr)
      as (printed & rest & Hsplit & E).
    exists printed, rest. split; [exact Hsplit |]. now rewrite E.
Qed.

Lemma process_is_spawned_once_witness :
  trace (snd (_copy (Sample.env (Sample.copy_stream_with_failures "Failed"))
                Sample.client (LocalPath (Sample.local "/data"))
                (RemoteSAS (Sample.remote "se=100")) Sample.copy_options
                (Sample.world 10)))
  = (Spawn ["azcopy"; "cp"; "/data";
            "https://acct.blob.core.windows.net/box/dir/?se=100";
            "--overwrite"; "false"]
     :: map Print (lines (Sample.copy_stream_with_failures "Failed")))%list.
Proof.
  apply (proj1 (@process_is_spawned_once
                  (Sample.env (Sample.copy_stream_with_failures "Failed"))
                  Sample.client (Sample.world 10))
           (LocalPath (Sample.local "/data"))
           (RemoteSAS (Sample.remote "se=100")) Sample.copy_options).
  - exact I.
  - right. reflexivity.
Defined.

(** ** The listing in text mode, on a failing stream and on a line that
    leaves the JSON pass *)

(** X6.  A listing that is not asked for JSON never decodes a line: when
    the stream ends without a failure and without a line that reports an
    authentication failure, the call returns with [completed = True], the
    status [Completed], no item, and [output_text] is the lines, each
    without its trailing white space, joined by line feeds. *)
Theorem list_text_mode_keeps_raw_text env self location opts w :
  renders env w location ->
  failure (execute_command env (now w) (list_cmd self location opts)) = None ->
  Forall no_auth_failure
    (lines (execute_command env (now w) (list_cmd self location opts))) ->
  AzListOptions.output_type opts <> "json" ->
  exists w',
    _list env self location opts w
    = (Returned
         (AzListJobInfo.mk "" "Completed" true
            (PyStr.join PyStr.nl
               (map PyStr.rstrip
                  (lines (execute_command env (now w)
                            (list_cmd self location opts)))))
            []), w').
Proof.
  intros Hr Hfail Hauth Htype.
  unfold _list, bind at 1. rewrite (@remote_str_renders _ _ _ _ Hr).
  unfold bind at 1, spawn at 1. fold (list_cmd self location opts). simpl now.
  set (s := execute_command env (now w) (list_cmd self location opts)) in *.
  unfold bind at 1.
  rewrite (@list_loop_clean AzListJobInfo.t (lines s) [] _ Hauth).
  unfold bind at 1, advance at 1. simpl. rewrite Hfail.
  apply String.eqb_neq in Htype. rewrite Htype.
  unfold ret. eexists. reflexivity.
Qed.

Lemma list_text_mode_keeps_raw_text_witness :
  exists w',
    _list (Sample.env Sample.listing_stream) Sample.client
      (Sample.remote "se=100") (Sample.list_options "text") (Sample.world 10)
    = (Returned
         (AzListJobInfo.mk "" "Completed" true
            (PyStr.join PyStr.nl
               ["INFO: not JSON"; Sample.list_object_line;
                Sample.end_of_job_line])
            []), w').
Proof.
  apply (@list_text_mode_keeps_raw_text
           (Sample.env Sample.listing_stream) Sample.client
           (Sample.remote "se=100") (Sample.list_options "text")
           (Sample.world 10)).
  - right. reflexivity.
  - reflexivity.
  - repeat constructor.
  - discriminate.
Defined.

(** X7.  When the stream of a listing fails before any line reports an
    authentication failure, the call raises with the text of the failure
    as its message; the record has that text as [error_msg],
    [completed = False], and neither [output_text] nor [items]: the lines
    read before the failure are lost. *)
Theorem list_stream_failure_raises env self location opts w e :
  renders env w location ->
  failure (execute_command env (now w) (list_cmd self location opts)) = Some e ->
  Forall no_auth_failure
    (lines (execute_command env (now w) (list_cmd self location opts))) ->
  exists w',
    _list env self location opts w
    = (Raised e (Some (AzListJobInfo.mk e "" false "" [])), w').
Proof.
  intros Hr Hfail Hauth.
  unfold _list, bind at 1. rewrite (@remote_str_renders _ _ _ _ Hr).
  unfold bind at 1, spawn at 1. fold (list_cmd self location opts). simpl now.
  set (s := execute_command env (now w) (list_cmd self location opts)) in *.
  unfold bind at 1.
  rewrite (@list_loop_clean AzListJobInfo.t (lines s) [] _ Hauth).
  unfold bind at 1, advance at 1. simpl. rewrite Hfail.
  eexists. reflexivity.
Qed.

Lemma list_stream_failure_raises_witness :
  exists w',
    _list (Sample.env (mkStream [Sample.line Sample.list_object_line]
                         (Some "exit status 1") 3))
      Sample.client (Sample.remote "se=100") (Sample.list_options "json")
      (Sample.world 10)
    = (Raised "exit status 1"
         (Some (AzListJobInfo.mk "exit status 1" "" false "" [])), w').
Proof.
  apply (@list_stream_failure_raises
           (Sample.env (mkStream [Sample.line Sample.list_object_line]
                          (Some "exit status 1") 3))
           Sample.client (Sample.remote "se=100") (Sample.list_options "json")
           (Sample.world 10) "exit status 1").
  - right. reflexivity.
  - reflexivity.
  - repeat constructor.
Defined.





(** X9.  Whenever a listing runs its JSON pass, the process was asked for
    JSON: with [output_type = json] and a location that renders, the one
    command that the call spawns holds [--output-type] followed by
    [json]. *)
Theorem list_json_pass_matches_the_command env self location opts w :
  renders env w location ->
  AzListOptions.output_type opts = "json" ->
  exists cmd printed,
    trace (snd (_list env self location opts w))
    = (trace w ++ Spawn cmd :: map Print printed)%list
    /\ adjacent "--output-type" "json" cmd.
Proof.
  intros Hr Htype.
  destruct (@list_world env self location opts w Hr)
    as (printed & rest & _ & E).
  exists (list_cmd self location opts), printed. split; [now rewrite E |].
  unfold adjacent, list_cmd, AzListOptions.get_options_list.
  rewrite Htype. simpl.
  match goal with
  | |- exists before after, ?x :: ?y :: ?z :: (?P ++ _ :: _ :: ?R)%list = _ =>
      exists (x :: y :: z :: P), R
  end.
  reflexivity.
Qed.

Lemma list_json_pass_matches_the_command_witness :
  exists cmd printed,
    trace (snd (_list (Sample.env Sample.listing_stream) Sample.client
                  (Sample.remote "se=100") (Sample.list_options "json")
                  (Sample.world 10)))
    = (trace (Sample.world 10) ++ Spawn cmd :: map Print printed)%list
    /\ adjacent "--output-type" "json" cmd.
Proof.
  apply (@list_json_pass_matches_the_command
           (Sample.env Sample.listing_stream) Sample.client
           (Sample.remote "se=100") (Sample.list_options "json")
           (Sample.world 10)).
  - right. reflexivity.
  - reflexivity.
Defined.

(** ** Failures of the stream in copy, sync and remove *)

Lemma sync_finalize_ignores_completed b j w :
  sync_finalize (AzSyncJobInfo.set_completed b j) w = sync_finalize j w.
Proof. reflexivity. Qed.

(** X10.  A sync swallows a failure of its stream: as long as the summary
    parser treats [completed] as a field it carries along, the call on a
    stream that yields the lines [ls] and then fails ends exactly as the
    call on the stream that yields [ls] and ends normally, with the same
    result, the same message and the same trace.  The text of the failure
    appears nowhere. *)
Theorem sync_swallows_stream_failure env self src dest opts w ls e dt :
  renders_loc env w src -> renders_loc env w dest ->
  (forall j captured,
      get_sync_summary_info env (AzSyncJobInfo.set_completed false j) captured
      = AzSyncJobInfo.set_completed false (get_sync_summary_info env j captured)) ->
  _sync (with_stream env (mkStream ls (Some e) dt)) self src dest opts w
  = _sync (with_stream env (mkStream ls None dt)) self src dest opts w.
Proof.
  intros Hs Hd Hparser. unfold _sync, bind.
  rewrite (sync_interpret_renders (with_stream env (mkStream ls (Some e) dt))
             self src dest opts w Hs Hd).
  rewrite (sync_interpret_renders (with_stream env (mkStream ls None dt))
             self src dest opts w Hs Hd).
  unfold sync_before_parser. simpl.
  rewrite Hparser. apply sync_finalize_ignores_completed.
Qed.

Lemma sync_swallows_stream_failure_witness :
  _sync (with_stream (Sample.env Sample.quiet_stream)
           (mkStream Sample.summary_lines (Some "connection reset") 7))
    Sample.client (LocalPath (Sample.local "/data"))
    (RemoteSAS (Sample.remote "se=100")) Sample.sync_options (Sample.world 10)
  = _sync (with_stream (Sample.env Sample.quiet_stream)
             (mkStream Sample.summary_lines None 7))
      Sample.client (LocalPath (Sample.local "/data"))
      (RemoteSAS (Sample.remote "se=100")) Sample.sync_options (Sample.world 10).
Proof.
  apply (@sync_swallows_stream_failure
           (Sample.env Sample.quiet_stream) Sample.client
           (LocalPath (Sample.local "/data"))
           (RemoteSAS (Sample.remote "se=100")) Sample.sync_options
           (Sample.world 10) Sample.summary_lines "connection reset" 7).
  - exact I.
  - right. reflexivity.
  - reflexivity.
Defined.

(** X11.  When the stream of a copy fails, the [except] clause asks the
    expiry predicate about one token only: the one of the destination
    when the destination is remote, else the one of the source when the
    source is remote, else the empty text.  The record handed to the
    summary parser has [completed = False], and its [error_msg] is
    [SAS token is expired] when the predicate answers yes at that moment
    and the text of the failure otherwise. *)
Theorem copy_failure_is_diagnosed_on_one_token env self src dest opts w e :
  renders_loc env w src -> renders_loc env w dest ->
  failure (execute_command env (now w) (copy_cmd self src dest opts)) = Some e ->
  exists j0 captured w1,
    copy_interpret env self src dest opts w
    = (Returned (get_transfer_copy_summary_info env j0 captured), w1)
    /\ AzCopyJobInfo.completed j0 = false
    /\ (forall token,
           match dest, src with
           | RemoteSAS d, _ => token = AzRemoteSASLocation.sas_token d
           | LocalPath _, RemoteSAS s => token = AzRemoteSASLocation.sas_token s
           | LocalPath _, LocalPath _ => token = ""
           end ->
           AzCopyJobInfo.error_msg j0
           = if is_sas_token_session_expired env
                  (now w + elapsed (execute_command env (now w)
                                      (copy_cmd self src dest opts)))
                  token
             then "SAS token is expired" else e).
Proof.
  intros Hs Hd Hfail.
  pose proof (copy_interpret_renders env self src dest opts w Hs Hd) as E.
  cbv zeta in E.
  set (s := execute_command env (now w) (copy_cmd self src dest opts)) in *.
  exists (copy_before_parser env src dest (now w) s).
  eexists. eexists. split; [exact E |].
  unfold copy_before_parser. rewrite Hfail. split; [reflexivity |].
  intros token Htoken. simpl.
  replace (copy_token src dest) with token; [reflexivity |].
  unfold copy_token. destruct dest, src; now subst.
Qed.

Lemma copy_failure_is_diagnosed_on_one_token_witness :
  exists j0 captured w1,
    copy_interpret (Sample.env Sample.failing_stream) Sample.client
      (RemoteSAS (Sample.remote "se=100")) (RemoteSAS (Sample.remote "se=9999"))
      Sample.copy_options (Sample.world 10)
    = (Returned (Sample.get_transfer_copy_summary_info j0 captured), w1)
    /\ AzCopyJobInfo.completed j0 = false
    /\ AzCopyJobInfo.error_msg j0 = "boom".
Proof.
  destruct (@copy_failure_is_diagnosed_on_one_token
              (Sample.env Sample.failing_stream) Sample.client
              (RemoteSAS (Sample.remote "se=100"))
              (RemoteSAS (Sample.remote "se=9999"))
              Sample.copy_options (Sample.world 10) "boom")
    as (j0 & captured & w1 & E & Hc & Hmsg).
  - right. reflexivity.
  - right. reflexivity.
  - reflexivity.
  - exists j0, captured, w1. split; [exact E |]. split; [exact Hc |].
    exact (Hmsg "se=9999" eq_refl).
Defined.

Lemma append_not_empty (a b : string) : b <> "" -> a ++ b <> "".
Proof.
  intros Hb H. destruct a; simpl in H; [contradiction | discriminate].
Qed.

Lemma copy_finalize_shape j w :
  raise_shape AzCopyJobInfo.error_msg AzCopyJobInfo.number_of_transfers_failed
    "; Tranfers failed = " "; Error while transferring data"
    (fst (copy_finalize j w)).
Proof.
  unfold copy_finalize.
  destruct (is_completed_status (AzCopyJobInfo.final_job_status_msg j));
    [exact I |].
  destruct (0 <? AzCopyJobInfo.number_of_transfers_failed j)%Z eqn:E; simpl;
    rewrite E; (split; [reflexivity |]);
    (split; [apply append_not_empty; discriminate |]);
    exists (AzCopyJobInfo.error_msg j); reflexivity.
Qed.

Lemma sync_finalize_shape j w :
  raise_shape AzSyncJobInfo.error_msg AzSyncJobInfo.number_of_copy_transfers_failed
    "; Tranfers failed = " "; Error while transferring data"
    (fst (sync_finalize j w)).
Proof.
  unfold sync_finalize.
  destruct (is_completed_status (AzSyncJobInfo.final_job_status_msg j));
    [exact I |].
  destruct (0 <? AzSyncJobInfo.number_of_copy_transfers_failed j)%Z eqn:E; simpl;
    rewrite E; (split; [reflexivity |]);
    (split; [apply append_not_empty; discriminate |]);
    exists (AzSyncJobInfo.error_msg j); reflexivity.
Qed.

Lemma remove_finalize_shape j w :
  raise_shape AzRemoveJobInfo.error_msg AzRemoveJobInfo.number_of_removals_failed
    "; Removals failed = " "; Error while removing data"
    (fst (remove_finalize j w)).
Proof.
  unfold remove_finalize.
  destruct (is_completed_status (AzRemoveJobInfo.final_job_status_msg j));
    [exact I |].
  destruct (0 <? AzRemoveJobInfo.number_of_removals_failed j)%Z eqn:E; simpl;
    rewrite E; (split; [reflexivity |]);
    (split; [apply append_not_empty; discriminate |]);
    exists (AzRemoveJobInfo.error_msg j); reflexivity.
Qed.

(** X12.  Every raise of copy, sync and remove has one of two shapes.
    Either a location did not render: the message is
    [SAS token is expired] and no record exists.  Or the final decision
    raised: the message is the [error_msg] of the record, it is never
    empty, and it ends with [; Tranfers failed = n] (copy, sync) or
    [; Removals failed = n] (remove) when the failure counter [n] of the
    record is positive, and with [; Error while transferring data] or
    [; Error while removing data] otherwise. *)
Theorem raises_carry_a_classified_message env self w :
  (forall src dest opts,
      raise_shape AzCopyJobInfo.error_msg
        AzCopyJobInfo.number_of_transfers_failed
        "; Tranfers failed = " "; Error while transferring data"
        (fst (_copy env self src dest opts w)))
  /\ (forall src dest opts,
         raise_shape AzSyncJobInfo.error_msg
           AzSyncJobInfo.number_of_copy_transfers_failed
           "; Tranfers failed = " "; Error while transferring data"
           (fst (_sync env self src dest opts w)))
  /\ (forall location r,
         raise_shape AzRemoveJobInfo.error_msg
           AzRemoveJobInfo.number_of_removals_failed
           "; Removals failed = " "; Error while removing data"
           (fst (_remove env self location r w))).
Proof.
  repeat split; intros.
  - unfold _copy, bind.
    destruct (copy_interpret_cases env self src dest opts w)
      as [(j & w1 & E) | E]; rewrite E; [| reflexivity].
    apply copy_finalize_shape.
  - unfold _sync, bind.
    destruct (sync_interpret_cases env self src dest opts w)
      as [(j & w1 & E) | E]; rewrite E; [| reflexivity].
    apply sync_finalize_shape.
  - unfold _remove, bind.
    destruct (remove_interpret_cases env self location r w)
      as [(j & w1 & E) | E]; rewrite E; [| reflexivity].
    apply remove_finalize_shape.
Qed.

(** X13.  A failure of the stream does not by itself make a copy or a
    remove fail.  The [except] clause sets [completed = False] on the
    record [j0] that it hands to the summary parser, but when the status
    of the parsed record is one of the two success statuses the final
    decision sets [completed = True] again and the call returns the
    parsed record. *)
Theorem stream_failure_after_success_status_returns env self w e :
  (forall src dest opts,
      renders_loc env w src -> renders_loc env w dest ->
      failure (execute_command env (now w) (copy_cmd self src dest opts))
      = Some e ->
      exists j0 captured w1,
        copy_interpret env self src dest opts w
        = (Returned (get_transfer_copy_summary_info env j0 captured), w1)
        /\ AzCopyJobInfo.completed j0 = false
        /\ (is_completed_status
              (AzCopyJobInfo.final_job_status_msg
                 (get_transfer_copy_summary_info env j0 captured)) = true ->
            _copy env self src dest opts w
            = (Returned (AzCopyJobInfo.set_completed true
                           (get_transfer_copy_summary_info env j0 captured)),
               w1)))
  /\ (forall location r,
         renders env w location ->
         failure (execute_command env (now w)
                    (remove_cmd self location (remove_options w r))) = Some e ->
         exists j0 captured w1,
           remove_interpret env self location r w
           = (Returned (get_remove_summary_info env j0 captured), w1)
           /\ AzRemoveJobInfo.completed j0 = false
           /\ (is_completed_status
                 (AzRemoveJobInfo.final_job_status_msg
                    (get_remove_summary_info env j0 captured)) = true ->
               _remove env self location r w
               = (Returned (AzRemoveJobInfo.set_completed true
                              (get_remove_summary_info env j0 captured)),
                  w1))).
Proof.
  split.
  - intros src dest opts Hs Hd Hfail.
    pose proof (copy_interpret_renders env self src dest opts w Hs Hd) as E.
    cbv zeta in E.
    set (s := execute_command env (now w) (copy_cmd self src dest opts)) in *.
    exists (copy_before_parser env src dest (now w) s).
    eexists. eexists. split; [exact E |]. split.
    + unfold copy_before_parser. now rewrite Hfail.
    + intro Hok. unfold _copy, bind. rewrite E. unfold copy_finalize.
      now rewrite Hok.
  - intros location r Hr Hfail.
    pose proof (@remove_interpret_renders env self location r w Hr) as E.
    cbv zeta in E.
    set (s := execute_command env (now w)
                (remove_cmd self location (remove_options w r))) in *.
    exists (remove_before_parser env location (now w) s).
    eexists. eexists. split; [exact E |]. split.
    + unfold remove_before_parser. now rewrite Hfail.
    + intro Hok. unfold _remove, bind. rewrite E. unfold remove_finalize.
      now rewrite Hok.
Qed.

Lemma stream_failure_after_success_status_returns_witness :
  exists j w1,
    _remove (Sample.env (mkStream [Sample.line "Final Job Status: Completed"]
                           (Some "broken pipe") 1))
      Sample.client (Sample.remote "se=100") 0 (Sample.world 10)
    = (Returned j, w1)
    /\ AzRemoveJobInfo.completed j = true
    /\ AzRemoveJobInfo.error_msg j = "broken pipe".
Proof.
  destruct (proj2 (@stream_failure_after_success_status_returns
                     (Sample.env (mkStream
                                    [Sample.line "Final Job Status: Completed"]
                                    (Some "broken pipe") 1))
                     Sample.client (Sample.world 10) "broken pipe")
              (Sample.remote "se=100") 0)
    as (j0 & captured & w1 & E & Hc & Hret).
  - right. reflexivity.
  - reflexivity.
  - assert (Ec : exists R W,
               remove_interpret
                 (Sample.env (mkStream
                                [Sample.line "Final Job Status: Completed"]
                                (Some "broken pipe") 1))
                 Sample.client (Sample.remote "se=100") 0 (Sample.world 10)
               = (Returned R, W)
               /\ AzRemoveJobInfo.final_job_status_msg R = "Completed"
               /\ AzRemoveJobInfo.error_msg R = "broken pipe").
    { eexists. eexists. split; [vm_compute; reflexivity |]. split; reflexivity. }
    destruct Ec as (R & W & Ec & HR1 & HR2).
    rewrite Ec in E. injection E as Ej Ew.
    change (get_remove_summary_info
              (Sample.env (mkStream [Sample.line "Final Job Status: Completed"]
                             (Some "broken pipe") 1)) j0 captured)
      with (Sample.get_remove_summary_info j0 captured) in Hret.
    rewrite <- Ej in Hret.
    exists (AzRemoveJobInfo.set_completed true R), w1.
    split; [apply Hret; now rewrite HR1 |]. split; [reflexivity | exact HR2].
Defined.

(** ** The argument lists of the options *)

(** X14.  The argument list of the copy options determines the options:
    two option records with the same list are the same record. *)
Theorem copy_options_list_is_injective (a b : AzCopyOptions.t) :
  AzCopyOptions.get_options_list a = AzCopyOptions.get_options_list b -> a = b.
Proof.
  destruct a as [oa ra ma ea], b as [ob rb mb eb].
  unfold AzCopyOptions.get_options_list, flag_if. simpl.
  destruct oa, ra, ma, ob, rb, mb, ea as [| ca ea], eb as [| cb eb];
    simpl; intro H; try discriminate H; try reflexivity;
    injection H as H1 H2; subst; reflexivity.
Qed.

Lemma copy_options_list_is_injective_witness :
  AzCopyOptions.mk true false false "logs" = AzCopyOptions.mk true false false "logs".
Proof.
  apply (@copy_options_list_is_injective
           (AzCopyOptions.mk true false false "logs")
           (AzCopyOptions.mk true false false "logs")).
  reflexivity.
Defined.

(** X15.  The argument list of the sync options determines the options. *)
Theorem sync_options_list_is_injective (a b : AzSyncOptions.t) :
  AzSyncOptions.get_options_list a = AzSyncOptions.get_options_list b -> a = b.
Proof.
  destruct a as [ra ma ea], b as [rb mb eb].
  unfold AzSyncOptions.get_options_list, flag_if. simpl.
  destruct ra, ma, rb, mb, ea as [| ca ea], eb as [| cb eb];
    simpl; intro H; try discriminate H; try reflexivity;
    injection H as H1 H2; subst; reflexivity.
Qed.

Lemma sync_options_list_is_injective_witness :
  AzSyncOptions.mk false true "tmp" = AzSyncOptions.mk false true "tmp".
Proof.
  apply (@sync_options_list_is_injective
           (AzSyncOptions.mk false true "tmp") (AzSyncOptions.mk false true "tmp")).
  reflexivity.
Defined.

Lemma flag_with_value_empty flag (o : option string) :
  flag_with_value flag o = [] <-> (o = None \/ o = Some "").
Proof.
  destruct o as [[| c s] |]; simpl; split; intro H;
    try discriminate; try reflexivity; auto.
  destruct H as [H | H]; discriminate.
Qed.

Lemma flag_if_empty (b : bool) flag : flag_if b flag = [] <-> b = false.
Proof. destruct b; simpl; split; intro H; try discriminate; reflexivity. Qed.

Lemma app_empty_iff (A : Type) (l l' : list A) :
  (l ++ l')%list = [] <-> l = [] /\ l' = [].
Proof.
  destruct l; simpl; split; intro H; try discriminate; try tauto.
  destruct H; discriminate.
Qed.

(** X16.  The remove options add nothing to the command exactly when
    every flag is off and every optional value is [None] or the empty
    text: an empty text is treated like a missing value. *)
Theorem remove_options_list_is_empty_iff (o : AzRemoveOptions.t) :
  AzRemoveOptions.get_options_list o = [] <-> all_off o.
Proof.
  unfold AzRemoveOptions.get_options_list, all_off.
  rewrite !app_empty_iff, !flag_with_value_empty, !flag_if_empty.
  repeat rewrite Forall_cons_iff. rewrite Forall_nil_iff. tauto.
Qed.

(** ** Locations *)

(** X17.  A location that could be constructed renders at the same
    moment: when [__init__] returns, it returns the record of its
    arguments and leaves the world as it is, and [str] on that record then
    returns the URL
    [https://<account>.blob.core.windows.net/<container>/<path>[*]?<token>]. *)
Theorem constructed_location_renders (J : Type) env w
    storage_account container path use_wildcard sas_token location_type
    location w' :
  @AzRemoteSASLocation.__init__ J env storage_account container path
    use_wildcard sas_token location_type w = (Returned location, w') ->
  w' = w
  /\ location = AzRemoteSASLocation.mk storage_account container path
                  use_wildcard sas_token location_type
  /\ @AzRemoteSASLocation.__str__ J env location w
     = (Returned ("https://" ++ storage_account ++ ".blob.core.windows.net/"
                  ++ container ++ "/" ++ path
                  ++ (if use_wildcard then "*" else "") ++ "?" ++ sas_token),
        w).
Proof.
  unfold AzRemoteSASLocation.__init__, AzRemoteSASLocation.__str__. run.
  destruct (0 <? PyStr.len sas_token)%nat eqn:Hlen.
  - destruct (is_sas_token_session_expired env (now w) sas_token) eqn:Hexp;
      intro H; [discriminate |]. injection H as <- <-. simpl.
    rewrite Hlen, Hexp. repeat split.
    unfold AzRemoteSASLocation.url, AzRemoteSASLocation.get_resource_uri. simpl.
    repeat (rewrite append_assoc; simpl). reflexivity.
  - intro H. injection H as <- <-. simpl. rewrite Hlen. repeat split.
    unfold AzRemoteSASLocation.url, AzRemoteSASLocation.get_resource_uri. simpl.
    repeat (rewrite append_assoc; simpl). reflexivity.
Qed.

Lemma constructed_location_renders_witness :
  @AzRemoteSASLocation.__str__ unit (Sample.env Sample.quiet_stream)
    (AzRemoteSASLocation.mk "acct" "box" "dir/" true "se=100" None)
    (Sample.world 10)
  = (Returned "https://acct.blob.core.windows.net/box/dir/*?se=100",
     Sample.world 10).
Proof.
  destruct (@constructed_location_renders unit
              (Sample.env Sample.quiet_stream) (Sample.world 10)
              "acct" "box" "dir/" true "se=100" None
              (AzRemoteSASLocation.mk "acct" "box" "dir/" true "se=100" None)
              (Sample.world 10))
    as (_ & _ & H).
  - reflexivity.
  - exact H.
Defined.

(** ** The options objects of the caller *)

Lemma copy_store env self src dest opts w :
  remove_options (snd (_copy env self src dest opts w)) = remove_options w.
Proof.
  unfold _copy, bind.
  destruct (copy_interpret_cases env self src dest opts w)
    as [(j & w1 & E) | E].
  - destruct (str_cases unit env w src) as [[Hs _] | [Hs _]];
      [destruct (str_cases unit env w dest) as [[Hd _] | [Hd _]] |].
    + rewrite (copy_interpret_renders env self src dest opts w Hs Hd).
      match goal with
      | |- context [copy_finalize ?j0 ?w0] =>
          rewrite (proj2 (copy_finalize_invariant j0 w0))
      end. reflexivity.
    + rewrite (@copy_interpret_blocked env self src dest opts w); tauto.
    + rewrite (@copy_interpret_blocked env self src dest opts w); tauto.
  - now rewrite E.
Qed.

Lemma sync_store env self src dest opts w :
  remove_options (snd (_sync env self src dest opts w)) = remove_options w.
Proof.
  unfold _sync, bind.
  destruct (str_cases unit env w src) as [[Hs _] | [Hs _]];
    [destruct (str_cases unit env w dest) as [[Hd _] | [Hd _]] |].
  - rewrite (sync_interpret_renders env self src dest opts w Hs Hd).
    match goal with
    | |- context [sync_finalize ?j0 ?w0] =>
        rewrite (proj2 (sync_finalize_invariant j0 w0))
    end. reflexivity.
  - rewrite (@sync_interpret_blocked env self src dest opts w); tauto.
  - rewrite (@sync_interpret_blocked env self src dest opts w); tauto.
Qed.

Lemma remove_store env self location r w :
  remove_options (snd (_remove env self location r w)) = remove_options w.
Proof.
  destruct (remote_str_cases unit env w location) as [[H _] | [H _]].
  - now rewrite (@remove_world_renders env self location r w H).
  - now rewrite (@remove_world_blocked env self location r w H).
Qed.

Lemma list_store env self location opts w :
  remove_options (snd (_list env self location opts w)) = remove_options w.
Proof.
  destruct (remote_str_cases AzListJobInfo.t env w location) as [[H _] | [H E]].
  - destruct (@list_world env self location opts w H) as (? & ? & _ & ->).
    reflexivity.
  - unfold _list, bind. now rewrite E.
Qed.

(** X18.  Apart from [remove_directory_recursive], no public method
    writes to an options object of the caller: after the call, returned
    or raised, every object of the store is what it was before. *)
Theorem options_objects_are_left_alone env self w :
  (forall src dest opts,
      remove_options
        (snd (download_data_to_local_location env self src dest opts w))
      = remove_options w
      /\ remove_options
           (snd (upload_data_to_remote_location env self src dest opts w))
         = remove_options w
      /\ remove_options
           (snd (copy_remote_data_from_container_to_container
                   env self src dest opts w))
         = remove_options w)
  /\ (forall src dest opts,
         remove_options (snd (sync_to_local_location env self src dest opts w))
         = remove_options w
         /\ remove_options
              (snd (sync_to_remote_location env self src dest opts w))
            = remove_options w)
  /\ (forall location opts,
         remove_options (snd (list_remote_location env self location opts w))
         = remove_options w)
  /\ (forall location r,
         remove_options (snd (remove_from_remote_location env self location r w))
         = remove_options w
         /\ remove_options (snd (remove_single_blob env self location r w))
            = remove_options w).
Proof.
  repeat split; intros.
  - apply copy_store.
  - apply copy_store.
  - apply copy_store.
  - unfold sync_to_local_location.
    destruct (negb (os_path_exists env (path_of dest)));
      [reflexivity | apply sync_store].
  - unfold sync_to_remote_location.
    destruct (negb (os_path_exists env (path_of src)));
      [reflexivity | apply sync_store].
  - apply list_store.
  - apply remove_store.
  - apply remove_store.
Qed.

Lemma remove_directory_recursive_store env self location (r : Ref) w r' :
  remove_options (snd (remove_directory_recursive env self location r w)) r'
  = if Nat.eqb r' r
    then AzRemoveOptions.set_recursive true (remove_options w r')
    else remove_options w r'.
Proof.
  unfold remove_directory_recursive, bind, update. simpl.
  now rewrite remove_store.
Qed.

(** X19.  Marking is idempotent: a second [remove_directory_recursive]
    with the same options object, in any environment and on any location,
    leaves every object of the store as the first call left it. *)
Theorem remove_directory_recursive_twice
    env1 env2 self1 self2 location1 location2 (r : Ref) w :
  forall r',
    remove_options
      (snd (remove_directory_recursive env2 self2 location2 r
              (snd (remove_directory_recursive env1 self1 location1 r w)))) r'
    = remove_options
        (snd (remove_directory_recursive env1 self1 location1 r w)) r'.
Proof.
  intro r'. rewrite !remove_directory_recursive_store.
  destruct (Nat.eqb r' r); reflexivity.
Qed.

Lemma error_msg_is_last_auth_failure_witness :
  exists st w',
    @consume AzSyncJobInfo.t _ (sync_step (Sample.env Sample.quiet_stream))
      [ "401 AuthenticationFailed (first)"; "retrying";
        "403 AuthenticationFailed (second)"; "Job abc summary" ]
      sync_start (Sample.world 10)
    = (Returned st, w')
    /\ AzSyncJobInfo.error_msg (job_info st) = "403 AuthenticationFailed (second)".
Proof.
  destruct (@error_msg_is_last_auth_failure
              (Sample.env Sample.quiet_stream) (Sample.world 10)
              ["401 AuthenticationFailed (first)"; "retrying"]
              "403 AuthenticationFailed (second)" ["Job abc summary"])
    as (_ & Hsync & _).
  - reflexivity.
  - repeat constructor.
  - exact Hsync.
Defined.

Lemma status_is_last_status_line_witness :
  exists st w',
    @consume AzRemoveJobInfo.t _ (remove_step (Sample.env Sample.quiet_stream))
      [ Sample.line "Final Job Status: InProgress";
        Sample.line "Final Job Status: Completed";
        Sample.line "done" ]
      remove_start (Sample.world 10)
    = (Returned st, w')
    /\ AzRemoveJobInfo.final_job_status_msg (job_info st) = "Completed".
Proof.
  destruct (@status_is_last_status_line
              (Sample.env Sample.quiet_stream) (Sample.world 10)
              [Sample.line "Final Job Status: InProgress"]
              (Sample.line "Final Job Status: Completed")
              [Sample.line "done"])
    as (_ & _ & Hremove & _).
  - reflexivity.
  - repeat constructor.
  - exact Hremove.
Defined.

(** ** The two unlock tests and the parentheses of sync *)

Lemma lstrip_split (s : string) :
  exists ws, all_space ws = true /\ s = ws ++ PyStr.lstrip s.
Proof.
  induction s as [| c s (ws & Hws & IH)]; [now exists "" |].
  simpl. destruct (PyStr.is_space c) eqn:Hc.
  - exists (String c ws). simpl. rewrite Hc, Hws. split; [reflexivity |].
    now rewrite <- IH.
  - now exists "".
Qed.

(** [rstrip] removes a tail of white space. *)
Lemma rstrip_split (s : string) :
  exists ws, all_space ws = true /\ s = PyStr.rstrip s ++ ws.
Proof.
  destruct (lstrip_split (PyStr.rev s)) as (ws & Hws & E).
  exists (PyStr.rev ws). split; [now rewrite all_space_rev |].
  unfold PyStr.rstrip. rewrite <- rev_app, <- E. symmetry. apply rev_involutive.
Qed.

(** A text without white space that starts a padded text starts the
    text itself. *)
Lemma prefix_before_padding (n : string) : forall t ws,
  no_space n = true -> all_space ws = true ->
  String.prefix n (t ++ ws) = true -> String.prefix n t = true.
Proof.
  induction n as [| c n IH]; intros t ws Hn Hws H; [now destruct t |].
  change (negb (PyStr.is_space c) && no_space n = true) in Hn.
  apply andb_true_iff in Hn as [Hc Hn]. apply negb_true_iff in Hc.
  destruct t as [| d t].
  - exfalso. destruct ws as [| d ws]; simpl in H; [discriminate |].
    change (PyStr.is_space d && all_space ws = true) in Hws.
    apply andb_true_iff in Hws as [Hd _].
    destruct (ascii_dec c d); [congruence | discriminate].
  - simpl in *. destruct (ascii_dec c d); [| discriminate].
    now apply (IH t ws).
Qed.

Lemma contains_before_padding (n : string) : forall t ws,
  n <> "" -> no_space n = true -> all_space ws = true ->
  PyStr.contains n (t ++ ws) = true -> PyStr.contains n t = true.
Proof.
  intros t ws Hne Hn Hws. induction t as [| d t IH]; intro H.
  - exfalso. simpl in H. induction ws as [| d ws IHws].
    + destruct n; [contradiction | discriminate].
    + change (String.prefix n (String d ws) || PyStr.contains n ws = true) in H.
      change (PyStr.is_space d && all_space ws = true) in Hws.
      apply andb_true_iff in Hws as [Hd Hws'].
      apply orb_true_iff in H as [H | H]; [| now apply IHws].
      pose proof (@prefix_before_padding n "" (String d ws) Hn) as P.
      simpl in P.
      assert (Hall : all_space (String d ws) = true).
      { change (PyStr.is_space d && all_space ws = true). now rewrite Hd. }
      specialize (P Hall H). destruct n; [contradiction | discriminate].
  - change (String.prefix n (String d (t ++ ws))
            || PyStr.contains n (t ++ ws) = true) in H.
    change (String.prefix n (String d t) || PyStr.contains n t = true).
    apply orb_true_iff in H as [H | H].
    + rewrite (@prefix_before_padding n (String d t) ws Hn Hws H). reflexivity.
    + rewrite (IH H). apply orb_true_r.
Qed.

Lemma prefix_lower (n : string) : forall t,
  String.prefix n t = true ->
  String.prefix (PyStr.lower n) (PyStr.lower t) = true.
Proof.
  induction n as [| c n IH]; intros t H; [now destruct t |].
  destruct t as [| d t]; [discriminate |]. simpl in *.
  destruct (ascii_dec c d) as [-> | _]; [| discriminate].
  destruct (ascii_dec (PyStr.lower_char d) (PyStr.lower_char d));
    [now apply IH | congruence].
Qed.

Lemma contains_lower (n t : string) :
  PyStr.contains n t = true ->
  PyStr.contains (PyStr.lower n) (PyStr.lower t) = true.
Proof.
  induction t as [| d t IH]; intro H.
  - simpl in *. now apply (prefix_lower n "").
  - change (String.prefix n (String d t) || PyStr.contains n t = true) in H.
    change (String.prefix (PyStr.lower n) (PyStr.lower (String d t))
            || PyStr.contains (PyStr.lower n) (PyStr.lower t) = true).
    apply orb_true_iff in H as [H | H].
    + now rewrite (prefix_lower n (String d t) H).
    + rewrite (IH H). apply orb_true_r.
Qed.

(** X20.  The unlock test of sync accepts every line that the unlock test
    of copy and remove accepts: a line that starts with [Job] and holds
    [summary] still starts with [job] and holds [summary] after trim and
    lowercase.  (The converse fails: see [unlock_asymmetry].) *)
Theorem raw_unlock_implies_cleaned_unlock (output_line : string) :
  unlocks_raw output_line = true -> unlocks_cleaned output_line = true.
Proof.
  unfold unlocks_raw, unlocks_cleaned, PyStr.startswith. cbv zeta.
  intro H. apply andb_true_iff in H as [Hjob Hsum].
  assert (Hl : PyStr.lstrip output_line = output_line).
  { destruct (prefix_split _ _ Hjob) as [rest ->]. reflexivity. }
  unfold PyStr.strip. rewrite Hl.
  destruct (rstrip_split output_line) as (ws & Hws & E).
  rewrite E in Hjob, Hsum.
  apply andb_true_iff. split.
  - apply (prefix_lower "Job").
    now apply (@prefix_before_padding "Job" (PyStr.rstrip output_line) ws).
  - apply (contains_lower "summary").
    apply (@contains_before_padding "summary" (PyStr.rstrip output_line) ws);
      try assumption; [discriminate | reflexivity].
Qed.

Lemma raw_unlock_implies_cleaned_unlock_witness :
  unlocks_cleaned (Sample.line "Job 7f3a summary") = true.
Proof.
  apply (@raw_unlock_implies_cleaned_unlock (Sample.line "Job 7f3a summary")).
  reflexivity.
Defined.

Lemma remove_char_free (c : ascii) (s : string) :
  free_of c (PyStr.remove_char c s) = true.
Proof.
  induction s as [| d s IH]; [reflexivity |]. simpl.
  destruct (Ascii.eqb c d) eqn:E; [exact IH |].
  change (negb (Ascii.eqb c d) && free_of c (PyStr.remove_char c s) = true).
  now rewrite E, IH.
Qed.

Lemma remove_char_keeps_free (c d : ascii) (s : string) :
  free_of d s = true -> free_of d (PyStr.remove_char c s) = true.
Proof.
  induction s as [| x s IH]; intro H; [reflexivity |].
  change (negb (Ascii.eqb d x) && free_of d s = true) in H.
  apply andb_true_iff in H as [Hx Hs]. simpl.
  destruct (Ascii.eqb c x); [now apply IH |].
  change (negb (Ascii.eqb d x) && free_of d (PyStr.remove_char c s) = true).
  now rewrite Hx, IH.
Qed.

Lemma concat_all_free (c : ascii) (ls : list string) :
  Forall (fun l => free_of c l = true) ls ->
  free_of c (PyStr.concat_all ls) = true.
Proof.
  induction 1 as [| l ls Hl _ IH]; [reflexivity |].
  simpl. now rewrite free_of_app, Hl, IH.
Qed.

(** X21.  The summary text that sync hands to its parser never holds a
    parenthesis, whatever the lines of the stream are. *)
Theorem sync_summary_has_no_parentheses env w ls :
  exists st w',
    @consume AzSyncJobInfo.t _ (sync_step env) ls sync_start w = (Returned st, w')
    /\ free_of "(" (summary st) = true
    /\ free_of ")" (summary st) = true.
Proof.
  eexists. eexists. split; [apply consume_fold |].
  rewrite sync_summary. simpl.
  split; apply concat_all_free, Forall_forall; intros l Hin;
    apply in_map_iff in Hin as (x & <- & _); unfold strip_parens.
  - apply remove_char_keeps_free, remove_char_free.
  - apply remove_char_free.
Qed.

Lemma match_percent_iff_witness :
  Re.match_percent (Sample.line "7.25 %, 1 Done, 0 Failed") = Some "7.25".
Proof.
  apply (proj2 (@match_percent_iff (Sample.line "7.25 %, 1 Done, 0 Failed") "7.25")).
  exists "7", "25", (Sample.line " 1 Done, 0 Failed").
  repeat split; discriminate.
Defined.

Lemma remove_options_list_is_empty_iff_witness :
  AzRemoveOptions.get_options_list
    (AzRemoveOptions.mk false (Some "") None false None (Some "") None
       false false None None)
  = [].
Proof.
  apply (proj2 (@remove_options_list_is_empty_iff
                  (AzRemoveOptions.mk false (Some "") None false None (Some "")
                     None false false None None))).
  split; [reflexivity |]. split; [reflexivity |]. split; [reflexivity |].
  split; [reflexivity |].
  repeat (apply Forall_cons;
          [first [left; reflexivity | right; reflexivity] |]).
  apply Forall_nil.
Defined.
